(** * Acquisition and pagination control of the SaaS review scraper

    A shallow embedding of [reviewScraper.js]: the date-window filter and the
    page-by-page loops of the three source scrapers, the retrying HTTP fetch
    [safeRequest], the browser session bootstrap, the challenge detector,
    the page-ready waiter, navigation, and the run of [main] over the
    sources.

    Conventions.
    - A JS [Date] is its time value: milliseconds since the epoch, in [Z].
    - [null] / [undefined] results are [None].
    - A JS call that may throw yields a [Completion]; [try { } catch { }] is
      [try_catch].
    - What the outside world answers (HTTP responses, the browser, timers,
      [Math.random], the [moment] library) is an explicit input of each
      function. *)

From Stdlib Require Import ZArith List String Bool Lia Permutation DecimalString.
Import ListNotations.

Open Scope string_scope.
Open Scope list_scope.
Open Scope Z_scope.

(* ===================================================================== *)
(** * Definitions *)
(* ===================================================================== *)

(** ** Thrown errors and completions *)

(** An HTTP response as [axios] hands it over.  [data] is [None] when the
    parsed body is [null], in which case reading [response.data.length]
    throws a [TypeError]. *)
Record Response := mkResponse {
  status : Z;
  data : option string
}.

(** A thrown JS error: [error.message] and, for an axios rejection that
    carries one, [error.response]. *)
Record JSError := mkError {
  message : string;
  response : option Response
}.

Definition plainError (msg : string) : JSError :=
  {| message := msg; response := None |}.

Inductive Completion (A : Type) : Type :=
| Normal (a : A)
| Throw (e : JSError).

Arguments Normal {A} a.
Arguments Throw {A} e.

Definition bind {A B : Type} (c : Completion A) (k : A -> Completion B)
  : Completion B :=
  match c with
  | Normal a => k a
  | Throw e => Throw e
  end.

Definition try_catch {A : Type} (body : Completion A)
  (handler : JSError -> Completion A) : Completion A :=
  match body with
  | Normal a => Normal a
  | Throw e => handler e
  end.

Declare Scope js_scope.
Notation "x <- c ;; k" := (bind c (fun x => k))
  (at level 61, c at next level, right associativity) : js_scope.
Notation "c ;;; k" := (bind c (fun _ => k))
  (at level 61, right associativity) : js_scope.
Open Scope js_scope.

(** ** Dates and the window filter *)

Definition JSDate := Z.

(** The [moment] library, used by [parseDate] as a black box. *)
Class Moment := {
  (** [dateStr.trim().replace(/\s+/g, ' ')] *)
  normalizeSpaces : string -> string;
  (** [moment(s, format, true)]: the date when [isValid()], else [None] *)
  moment_strict : string -> string -> option JSDate;
  (** [moment(s)]: the date when [isValid()], else [None] *)
  moment_natural : string -> option JSDate
}.

Definition formats : list string :=
  [ "YYYY-MM-DD"; "MMMM DD, YYYY"; "MMM DD, YYYY"; "DD/MM/YYYY";
    "MM/DD/YYYY"; "YYYY/MM/DD"; "DD MMM YYYY"; "MMM DD YYYY" ].

(** The [for (const format of formats)] loop of [parseDate]. *)
Fixpoint firstValid `{Moment} (dateStr : string) (fs : list string)
  : option JSDate :=
  match fs with
  | [] => None
  | format :: rest =>
      match moment_strict dateStr format with
      | Some parsed => Some parsed
      | None => firstValid dateStr rest
      end
  end.

(** [ReviewScraper.parseDate].  The argument is [None] for an [undefined]
    date field. *)
Definition parseDate `{Moment} (dateStr : option string) : option JSDate :=
  match dateStr with
  | None => None
  | Some s =>
      if (s =? "")%string || (s =? "Unknown")%string || (s =? "No date")%string
      then None
      else
        let s' := normalizeSpaces s in
        match firstValid s' formats with
        | Some d => Some d
        | None => moment_natural s'
        end
  end.

(** [ReviewScraper.isDateInRange] *)
Definition isDateInRange (reviewDate : option JSDate)
  (startDate endDate : JSDate) : bool :=
  match reviewDate with
  | None => false
  | Some d => (startDate <=? d) && (d <=? endDate)
  end.

(** ** Review records and the per-page tally *)

Record ReviewData := mkReview {
  title : string;
  description : string;
  date : option string;
  rating : string;
  reviewer : string
}.

(** The three mutable variables written by the [reviewElements.each]
    callback. *)
Record Tally := mkTally {
  kept : list ReviewData;        (* the [reviews] array *)
  pageReviews : Z;
  reviewsOutsideDateRange : Z
}.

(** One call of the [each] callback.  The element is given by what
    [extractReviewData] returns for it ([None] for [null]). *)
Definition tallyReview `{Moment} (startDate endDate : JSDate)
  (t : Tally) (extracted : option ReviewData) : Tally :=
  match extracted with
  | None => t
  | Some reviewData =>
      let reviewDate := parseDate (date reviewData) in
      if isDateInRange reviewDate startDate endDate then
        {| kept := kept t ++ [reviewData];
           pageReviews := pageReviews t + 1;
           reviewsOutsideDateRange := reviewsOutsideDateRange t |}
      else if match reviewDate with
              | Some d => d <? startDate
              | None => false
              end then
        {| kept := kept t;
           pageReviews := pageReviews t;
           reviewsOutsideDateRange := reviewsOutsideDateRange t + 1 |}
      else t
  end.

Definition tallyPage `{Moment} (startDate endDate : JSDate)
  (reviews : list ReviewData) (reviewElements : list (option ReviewData))
  : Tally :=
  fold_left (tallyReview startDate endDate) reviewElements
    {| kept := reviews; pageReviews := 0; reviewsOutsideDateRange := 0 |}.

(** ** The pagination loops *)

Inductive Source := G2 | Capterra | TrustPilot.

(** The constant in [consecutiveEmptyPages < _] of each [scrapeReviews]. *)
Definition emptyPageThreshold (src : Source) : Z :=
  match src with
  | G2 => 3
  | Capterra => 1
  | TrustPilot => 3
  end.

Record LoopState := mkLoop {
  reviews : list ReviewData;
  page : Z;
  hasMorePages : bool;
  consecutiveEmptyPages : Z
}.

Definition initialLoop : LoopState :=
  {| reviews := []; page := 1; hasMorePages := true;
     consecutiveEmptyPages := 0 |}.

(** The [while] condition. *)
Definition loopGuard (src : Source) (maxPages : Z) (st : LoopState) : bool :=
  hasMorePages st
  && ((maxPages =? -1) || (page st <=? maxPages))
  && (consecutiveEmptyPages st <? emptyPageThreshold src).

(** [consecutiveEmptyPages++] *)
Definition countEmpty (st : LoopState) : LoopState :=
  {| reviews := reviews st; page := page st;
     hasMorePages := hasMorePages st;
     consecutiveEmptyPages := consecutiveEmptyPages st + 1 |}.

(** [page++] *)
Definition nextPage (st : LoopState) : LoopState :=
  {| reviews := reviews st; page := page st + 1;
     hasMorePages := hasMorePages st;
     consecutiveEmptyPages := consecutiveEmptyPages st |}.

(** From [consecutiveEmptyPages = 0] to the early-stop test: the page is
    tallied; [true] in the second component says that the test
    [reviewsOutsideDateRange > pageReviews && page > 2] fired. *)
Definition processPage `{Moment} (startDate endDate : JSDate)
  (st : LoopState) (reviewElements : list (option ReviewData))
  : LoopState * bool :=
  let t := tallyPage startDate endDate (reviews st) reviewElements in
  let st1 := {| reviews := kept t; page := page st;
                hasMorePages := hasMorePages st;
                consecutiveEmptyPages := 0 |} in
  if (reviewsOutsideDateRange t >? pageReviews t) && (page st >? 2) then
    ({| reviews := reviews st1; page := page st1;
        hasMorePages := false;
        consecutiveEmptyPages := consecutiveEmptyPages st1 |}, true)
  else (st1, false).

(** What the browser-backed calls of one iteration answer (G2, Capterra):
    [navigateToPage], [getPageContent] followed by [findReviewElements] and
    [extractReviewData] on each element, [detectCaptcha],
    [waitForPageReady] and the closing [waitForTimeout(1000)].  An answer
    the iteration does not ask for is ignored. *)
Record SessionPage := mkSessionPage {
  navigationSuccess : bool;
  (** [None]: [getPageContent] gave [null] or the empty string *)
  sessionElements : option (list (option ReviewData));
  hasCaptcha : bool;
  resolved : Completion bool;
  settle : Completion unit
}.

(** One iteration of the loop of [G2Scraper.scrapeReviews] and of
    [CapterraScraper.scrapeReviews].  Capterra's [setSortToMostRecent] and
    [expandAllReadMoreButtons] catch every error and write no loop variable;
    they leave no trace here. *)
Definition sessionIteration `{Moment} (startDate endDate : JSDate)
  (o : SessionPage) (st : LoopState) : Completion LoopState :=
  if negb (navigationSuccess o) then Normal (nextPage (countEmpty st))
  else
    match sessionElements o with
    | None => Normal (nextPage (countEmpty st))
    | Some [] =>
        let st1 := countEmpty st in
        if hasCaptcha o then
          ok <- resolved o ;;
          if ok then Normal st1            (* retry the same page *)
          else Normal (nextPage st1)
        else Normal (nextPage st1)
    | Some reviewElements =>
        let (st1, stop) := processPage startDate endDate st reviewElements in
        if stop then Normal st1
        else settle o ;;; Normal (nextPage st1)
    end.

(** What [safeRequest] and the extraction answer in one iteration of
    [TrustPilotScraper.scrapeReviews]; [None] is a [null] response. *)
Definition HttpPage := option (list (option ReviewData)).

Definition httpIteration `{Moment} (startDate endDate : JSDate)
  (o : HttpPage) (st : LoopState) : Completion LoopState :=
  match o with
  | None => Normal (nextPage (countEmpty st))
  | Some [] => Normal (nextPage (countEmpty st))
  | Some reviewElements =>
      let (st1, stop) := processPage startDate endDate st reviewElements in
      if stop then Normal st1 else Normal (nextPage st1)
  end.

(** How a run of the loop ends: the guard failed after [fetched]
    iterations, an iteration threw, or the iteration budget of the model ran
    out while the guard still held. *)
Inductive Run :=
| Finished (fetched : nat) (st : LoopState)
| Thrown (fetched : nat) (e : JSError)
| OutOfFuel (fetched : nat) (st : LoopState).

(** The [while] loop; [n] counts the iterations done so far and indexes the
    answers of the world. *)
Fixpoint paginate (guard : LoopState -> bool)
  (iteration : nat -> LoopState -> Completion LoopState)
  (fuel n : nat) (st : LoopState) : Run :=
  if guard st then
    match fuel with
    | O => OutOfFuel n st
    | S fuel' =>
        match iteration n st with
        | Normal st' => paginate guard iteration fuel' (S n) st'
        | Throw e => Thrown (S n) e
        end
    end
  else Finished n st.

(** The part of [scrapeReviews] before the loop: [findProductUrl] may throw,
    and a URL that is [null] (or empty) is turned into an error. *)
Definition requireProductUrl (src : Source) (companyName : string)
  (found : Completion (option string)) : Completion string :=
  productUrl <- found ;;
  let notFound :=
    Throw (plainError
      (match src with
       | G2 => "Could not find G2 product page for "
       | Capterra => "Could not find Capterra product page for "
       | TrustPilot => "Could not find TrustPilot page for "
       end ++ companyName)%string) in
  match productUrl with
  | None => notFound
  | Some "" => notFound
  | Some u => Normal u
  end.

(** One iteration of the loop of source [src]; of the two families of
    answers only the one of the source's backend is read. *)
Definition iterationOf `{Moment} (startDate endDate : JSDate)
  (src : Source) (sessionPages : nat -> SessionPage)
  (httpPages : nat -> HttpPage) (n : nat) (st : LoopState)
  : Completion LoopState :=
  match src with
  | G2 | Capterra => sessionIteration startDate endDate (sessionPages n) st
  | TrustPilot => httpIteration startDate endDate (httpPages n) st
  end.

(** The loop of [scrapeReviews] of source [src]. *)
Definition scrapeLoop `{Moment} (src : Source)
  (startDate endDate : JSDate) (maxPages : Z)
  (sessionPages : nat -> SessionPage) (httpPages : nat -> HttpPage)
  (fuel : nat) : Run :=
  paginate (loopGuard src maxPages)
    (iterationOf startDate endDate src sessionPages httpPages)
    fuel 0%nat initialLoop.

(** [scrapeReviews]: [None] when the model's budget ran out, otherwise the
    returned array or the error thrown. *)
Definition scrapeReviews `{Moment} (src : Source) (companyName : string)
  (found : Completion (option string))
  (startDate endDate : JSDate) (maxPages : Z)
  (sessionPages : nat -> SessionPage) (httpPages : nat -> HttpPage)
  (fuel : nat) : option (Completion (list ReviewData)) :=
  match requireProductUrl src companyName found with
  | Throw e => Some (Throw e)
  | Normal _ =>
      match scrapeLoop src startDate endDate maxPages
              sessionPages httpPages fuel with
      | Finished _ st => Some (Normal (reviews st))
      | Thrown _ e => Some (Throw e)
      | OutOfFuel _ _ => None
      end
  end.

(** ** The retrying HTTP fetch *)

(** The mutable part of a scraper instance that [safeRequest] reads and
    writes: [this.delay] and [this.axiosConfig.headers['User-Agent']]. *)
Record Client := mkClient {
  delay : Z;
  userAgent : string
}.

Definition userAgents : list string :=
  [ "Mozilla/5.0 (Windows NT 10.0; Win64; x64) AppleWebKit/537.36 (KHTML, like Gecko) Chrome/120.0.0.0 Safari/537.36";
    "Mozilla/5.0 (Macintosh; Intel Mac OS X 10_15_7) AppleWebKit/537.36 (KHTML, like Gecko) Chrome/120.0.0.0 Safari/537.36";
    "Mozilla/5.0 (Windows NT 10.0; Win64; x64; rv:109.0) Gecko/20100101 Firefox/121.0";
    "Mozilla/5.0 (Macintosh; Intel Mac OS X 10_15_7) AppleWebKit/605.1.15 (KHTML, like Gecko) Version/17.1 Safari/605.1.15" ].

(** The constructor of [ReviewScraper]. *)
Definition newClient (delay : Z) : Client :=
  {| delay := delay;
     userAgent := "Mozilla/5.0 (Windows NT 10.0; Win64; x64) AppleWebKit/537.36 (KHTML, like Gecko) Chrome/120.0.0.0 Safari/537.36" |}.

(** A value of [Math.random()]: the rational [num / den], in [[0, 1)]. *)
Record Random := mkRandom {
  num : Z;
  den : Z;
  in_unit : (0 <=? num) && (num <? den) = true
}.

(** [Math.floor(r * n)] for a natural number [n]. *)
Definition floorTimes (r : Random) (n : nat) : nat :=
  Z.to_nat (num r * Z.of_nat n / den r).

(** [ReviewScraper.getRandomUserAgent] *)
Definition getRandomUserAgent (r : Random) : string :=
  nth (floorTimes r (List.length userAgents)) userAgents "".

(** The delay a [sleep] hands to [setTimeout]: a fixed number of
    milliseconds, or [base + Math.random() * 1000].  It is the length of
    the wait as long as the timer keeps it (see [timerHonours]). *)
Inductive Wait :=
| Exactly (ms : Z)
| Jittered (base : Z).

(** [ReviewScraper.sleep]: [ms || this.delay + Math.random() * 1000]. *)
Definition sleep (c : Client) (ms : option Z) : Wait :=
  match ms with
  | Some m => if m =? 0 then Jittered (delay c) else Exactly m
  | None => Jittered (delay c)
  end.

(** What a call of [safeRequest] does to the outside, in order. *)
Inductive Event :=
| Slept (w : Wait)
| Requested (url : string) (agent : string).

(** How one pass through the [for] body ends. *)
Inductive Step :=
| Return (r : option Response)
| Continue.

Definition statusIs (error : JSError) (code : Z) : bool :=
  match response error with
  | Some r => status r =? code
  | None => false
  end.

(** The [catch] block of [safeRequest]. *)
Definition onError (maxRetries attempt : nat) (r : Random) (c : Client)
  (error : JSError) : Client * list Event * Step :=
  if statusIs error 429 then
    let waitTime := 2 ^ Z.of_nat attempt * 2000 in
    (c, [Slept (sleep c (Some waitTime))], Continue)
  else if statusIs error 403 then
    let c' := {| delay := delay c; userAgent := getRandomUserAgent r |} in
    (c', [Slept (sleep c' (Some 3000))], Continue)
  else if statusIs error 404 then
    (c, [], Return None)
  else if Z.of_nat attempt =? Z.of_nat maxRetries - 1 then
    (c, [], Return None)
  else
    (c, [Slept (sleep c (Some (2000 * (Z.of_nat attempt + 1))))], Continue).

(** Reading [response.data.length]. *)
Definition dataLength (r : Response) : Completion nat :=
  match data r with
  | Some body => Normal (String.length body)
  | None => Throw (plainError "Cannot read properties of null (reading 'length')")
  end.

(** The [try] block of [safeRequest] after the request was sent: [answer]
    is what [axios.get] resolved to or rejected with. *)
Definition onAnswer (c : Client) (answer : Completion Response)
  : Completion (Client * list Event * Step) :=
  response <- answer ;;
  if status response =? 200 then
    dataLength response ;;; Normal (c, [], Return (Some response))
  else Normal (c, [], Continue).

(** One pass through the [for] body, after the courtesy sleep and the
    request. *)
Definition attemptOnce (maxRetries : nat)
  (answers : nat -> Completion Response) (randoms : nat -> Random)
  (attempt : nat) (c : Client) : Completion (Client * list Event * Step) :=
  try_catch (onAnswer c (answers attempt))
    (fun error => Normal (onError maxRetries attempt (randoms attempt) c error)).

(** The [for] loop of [safeRequest] over the attempts still to make. *)
Fixpoint safeRequestFrom (url : string) (maxRetries : nat)
  (answers : nat -> Completion Response) (randoms : nat -> Random)
  (attempts : list nat) (c : Client)
  : Completion (option Response * Client * list Event) :=
  match attempts with
  | [] => Normal (None, c, [])
  | attempt :: rest =>
      let before := [Slept (sleep c None); Requested url (userAgent c)] in
      out <- attemptOnce maxRetries answers randoms attempt c ;;
      let '(c', after, step) := out in
      match step with
      | Return r => Normal (r, c', before ++ after)
      | Continue =>
          more <- safeRequestFrom url maxRetries answers randoms rest c' ;;
          let '(r, c'', later) := more in
          Normal (r, c'', before ++ after ++ later)
      end
  end.

(** [ReviewScraper.safeRequest].  [answers i] is the outcome of the request
    of attempt [i], [randoms i] the value [Math.random()] gives when
    attempt [i] asks for a user agent.  The result is the returned value,
    the client as the call leaves it, and the trace of the call. *)
Definition safeRequest (url : string) (maxRetries : nat)
  (answers : nat -> Completion Response) (randoms : nat -> Random)
  (c : Client) : Completion (option Response * Client * list Event) :=
  safeRequestFrom url maxRetries answers randoms (seq 0 maxRetries) c.

(** ** The browser session *)

(** The identity of a Playwright [Page] object. *)
Definition PageHandle := nat.

Record BrowserContext := mkContext {
  contextPages : list PageHandle;          (* [context.pages()] *)
  newPage : Completion PageHandle          (* [context.newPage()] *)
}.

(** A [Browser] object as [chromium.connectOverCDP] returns it:
    [connection] is its identity. *)
Record Browser := mkBrowser {
  connection : nat;
  contexts : list BrowserContext
}.

(** [this.browser] and [this.page] of a G2 or Capterra scraper. *)
Record Session := mkSession {
  this_browser : option Browser;
  this_page : option PageHandle
}.

(** The constructor leaves both fields [null]. *)
Definition noSession : Session :=
  {| this_browser := None; this_page := None |}.

(** [connectToExistingChrome] (the same text in both classes); [attach] is
    what [chromium.connectOverCDP] answers.  The whole body is inside
    [try]; an assignment made before a throw stays. *)
Definition connectToExistingChrome (attach : Completion Browser)
  (s : Session) : bool * Session :=
  match attach with
  | Throw _ => (false, s)
  | Normal b =>
      let s1 := {| this_browser := Some b; this_page := this_page s |} in
      match contexts b with
      | [] => (false, s1)              (* 'No browser contexts found' *)
      | context :: _ =>
          match contextPages context with
          | [] =>
              match newPage context with
              | Normal p =>
                  (true, {| this_browser := Some b; this_page := Some p |})
              | Throw _ => (false, s1)
              end
          | p :: _ =>
              (true, {| this_browser := Some b; this_page := Some p |})
          end
      end
  end.

(** [findChromeExecutable]: the first path of the platform's list that
    [fs.access] accepts. *)
Definition findChromeExecutable (paths : list string)
  (accessible : string -> bool) : option string :=
  find accessible paths.

(** What the machine answers during one [initializeBrowser]. *)
Record Chrome := mkChrome {
  firstAttach : Completion Browser;
  candidatePaths : list string;
  accessible : string -> bool;
  secondAttach : Completion Browser
}.

(** [initializeBrowser] (the same text in both classes).
    [launchChromeWithDebugPort] always resolves. *)
Definition initializeBrowser (w : Chrome) (s : Session)
  : Completion bool * Session :=
  let (connected, s1) := connectToExistingChrome (firstAttach w) s in
  let (connected', s2) :=
    if negb connected then
      match findChromeExecutable (candidatePaths w) (accessible w) with
      | Some _ => connectToExistingChrome (secondAttach w) s1
      | None => (connected, s1)
      end
    else (connected, s1) in
  if negb connected' then
    (Throw (plainError "Could not connect to Chrome"), s2)
  else (Normal true, s2).

(** The two session acquisitions at the start of
    [CapterraScraper.scrapeReviews]: its own [initializeBrowser] and the one
    at the start of [findProductUrl]. *)
Definition Capterra_acquire (w1 w2 : Chrome) (s : Session)
  : Completion bool * Session :=
  let (r1, s1) := initializeBrowser w1 s in
  match r1 with
  | Throw e => (Throw e, s1)
  | Normal _ => initializeBrowser w2 s1
  end.

(** ** The challenge detector *)

(** [String.prototype.toLowerCase], a black box. *)
Class Casing := {
  toLowerCase : string -> string
}.

(** [s.includes(t)] *)
Definition includes (s t : string) : bool :=
  match index 0 t s with
  | Some _ => true
  | None => false
  end.

(** What the page shows at one moment. *)
Record PageView := mkView {
  currentUrl : string;                         (* [page.url()] *)
  queryOne : string -> Completion bool;        (* [page.$(selector)] found one *)
  pageContent : Completion string              (* [page.content()] *)
}.

(** The selectors of [detectCaptcha]; the double quotes inside the
    attribute selectors are written as single quotes. *)
Definition captchaSelectors : list string :=
  [ ".g-recaptcha"; "#recaptcha"; "[data-testid*='captcha']"; ".captcha";
    ".cf-browser-verification"; ".challenge-running";
    "iframe[src*='recaptcha']"; "iframe[src*='captcha']";
    ".cloudflare-browser-verification" ].

Definition G2_captchaText : list string :=
  [ "please complete the security check"; "verify you are human";
    "prove you are not a robot"; "complete the captcha";
    "security verification"; "checking your browser"; "cloudflare";
    "Verifying you are human. This may take a few seconds.";
    "just a moment while we check your browser" ].

Definition Capterra_captchaText : list string :=
  [ "please complete the security check"; "verify you are human";
    "prove you are not a robot"; "complete the captcha";
    "security verification"; "checking your browser";
    "Verifying you are human. This may take a few seconds.";
    "Verify you are human by completing the action below.";
    "browser verification"; "security check" ].

(** The [for (const selector of captchaSelectors)] loop. *)
Fixpoint anySelector (v : PageView) (selectors : list string)
  : Completion bool :=
  match selectors with
  | [] => Normal false
  | selector :: rest =>
      element <- queryOne v selector ;;
      if element then Normal true else anySelector v rest
  end.

(** The [try] block of [detectCaptcha]; [pg] is [None] while [this.page]
    is [null]. *)
Definition inspectPage `{Casing} (captchaText : list string)
  (pg : option PageView) : Completion bool :=
  match pg with
  | None => Throw (plainError "Cannot read properties of null (reading '$')")
  | Some v =>
      found <- anySelector v captchaSelectors ;;
      if found then Normal true
      else
        content <- pageContent v ;;
        Normal (existsb (fun text => includes (toLowerCase content) text)
                  captchaText)
  end.

Definition detectCaptcha `{Casing} (captchaText : list string)
  (pg : option PageView) : Completion bool :=
  try_catch (inspectPage captchaText pg) (fun _ => Normal false).

Definition G2_detectCaptcha `{Casing} := detectCaptcha G2_captchaText.
Definition Capterra_detectCaptcha `{Casing} := detectCaptcha Capterra_captchaText.

(** ** The page-ready waiter *)

(** How a [page.waitForTimeout(ms)] ends: after [ms] and some more
    milliseconds, or by throwing after some milliseconds. *)
Inductive Timer :=
| Elapsed (extra : N)
| Failed (after : N).

Definition waitForTimeout (ms : Z) (t : Timer) (now : Z)
  : Completion unit * Z :=
  match t with
  | Elapsed extra => (Normal tt, now + ms + Z.of_N extra)
  | Failed after =>
      (Throw (plainError "Target page, context or browser has been closed"),
       now + Z.of_N after)
  end.

(** What happens during one pass of the loop of [waitForPageReady]. *)
Record Poll := mkPoll {
  firstTimer : Timer;        (* the wait at the top of [try] *)
  seen : PageView;           (* the page when it is looked at *)
  spent : N;                 (* milliseconds taken by looking *)
  secondTimer : Timer        (* the wait inside [catch] *)
}.

(** [if (expectedUrlPattern)]: neither [null] nor the empty string. *)
Definition truthy (pattern : option string) : option string :=
  match pattern with
  | Some "" => None
  | other => other
  end.

(** The [try] block after its timer: [Some true] is [return true], [None]
    falls through to the next pass. *)
Definition lookAtPage (detect : option PageView -> Completion bool)
  (expectedUrlPattern : option string) (p : Poll)
  : Completion (option bool) :=
  blocked <- detect (Some (seen p)) ;;
  if negb blocked then
    match truthy expectedUrlPattern with
    | Some pattern =>
        if includes (currentUrl (seen p)) pattern then Normal (Some true)
        else Normal None
    | None => Normal (Some true)
    end
  else Normal None.

(** [waitForPageReady] from the loop test on; [now] is what [Date.now()]
    reads, [k] counts the passes.  The result is [None] when the model's
    budget of passes ran out, otherwise the completion and the time it
    happened. *)
Fixpoint waitLoop (detect : option PageView -> Completion bool)
  (expectedUrlPattern : option string) (maxWaitTime : Z)
  (polls : nat -> Poll) (startTime : Z) (fuel k : nat) (now : Z)
  : option (Completion bool * Z) :=
  if now - startTime <? maxWaitTime then
    match fuel with
    | O => None
    | S fuel' =>
        let p := polls k in
        let again := waitLoop detect expectedUrlPattern maxWaitTime polls
                       startTime fuel' (S k) in
        let recover (t : Z) :=
          match waitForTimeout 2000 (secondTimer p) t with
          | (Normal _, t') => again t'
          | (Throw e, t') => Some (Throw e, t')
          end in
        match waitForTimeout 2000 (firstTimer p) now with
        | (Throw _, t1) => recover t1
        | (Normal _, t1) =>
            let t2 := t1 + Z.of_N (spent p) in
            match lookAtPage detect expectedUrlPattern p with
            | Normal (Some b) => Some (Normal b, t2)
            | Normal None => again t2
            | Throw _ => recover t2
            end
        end
    end
  else Some (Normal false, now).

(** [waitForPageReady(expectedUrlPattern, maxWaitTime)], entered when
    [Date.now()] reads [startTime]. *)
Definition waitForPageReady (detect : option PageView -> Completion bool)
  (expectedUrlPattern : option string) (maxWaitTime : Z)
  (polls : nat -> Poll) (startTime : Z) (fuel : nat)
  : option (Completion bool * Z) :=
  waitLoop detect expectedUrlPattern maxWaitTime polls startTime fuel
    0%nat startTime.


(** ** Vocabulary of the properties *)

(** The review has a date that parses, and the date lies in the window. *)
Definition inWindow `{Moment} (startDate endDate : JSDate)
  (r : ReviewData) : Prop :=
  exists d, parseDate (date r) = Some d /\ startDate <= d <= endDate.

(** The element yields a record dated inside the window. *)
Definition inRange `{Moment} (startDate endDate : JSDate)
  (extracted : option ReviewData) : bool :=
  match extracted with
  | Some r => isDateInRange (parseDate (date r)) startDate endDate
  | None => false
  end.

(** The element yields a record dated strictly before the window. *)
Definition beforeStart `{Moment} (startDate : JSDate)
  (extracted : option ReviewData) : bool :=
  match extracted with
  | Some r =>
      match parseDate (date r) with
      | Some d => d <? startDate
      | None => false
      end
  | None => false
  end.

(** The records of a page that the filter keeps, in page order. *)
Fixpoint keptOf `{Moment} (startDate endDate : JSDate)
  (reviewElements : list (option ReviewData)) : list ReviewData :=
  match reviewElements with
  | [] => []
  | Some r :: rest =>
      if isDateInRange (parseDate (date r)) startDate endDate
      then r :: keptOf startDate endDate rest
      else keptOf startDate endDate rest
  | None :: rest => keptOf startDate endDate rest
  end.

Definition countIf (f : option ReviewData -> bool)
  (l : list (option ReviewData)) : Z :=
  Z.of_nat (List.length (filter f l)).

Definition fetchedOf (r : Run) : nat :=
  match r with
  | Finished n _ | Thrown n _ | OutOfFuel n _ => n
  end.

(** The loop state a run stops in, when it does not throw. *)
Definition stateOf (r : Run) : option LoopState :=
  match r with
  | Finished _ st | OutOfFuel _ st => Some st
  | Thrown _ _ => None
  end.

(** The elements of the page that iteration [n] gets hold of, if any. *)
Definition pageItems (sessionPages : nat -> SessionPage)
  (httpPages : nat -> HttpPage) (src : Source) (n : nat)
  : option (list (option ReviewData)) :=
  match src with
  | G2 | Capterra =>
      if navigationSuccess (sessionPages n)
      then sessionElements (sessionPages n) else None
  | TrustPilot => httpPages n
  end.

(** The closing [waitForTimeout(1000)] of iteration [n] does not throw
    (the HTTP loop has none). *)
Definition settled (sessionPages : nat -> SessionPage)
  (src : Source) (n : nat) : Prop :=
  match src with
  | G2 | Capterra => settle (sessionPages n) = Normal tt
  | TrustPilot => True
  end.

(** The pages still allowed, weighted so that a retry of the same page
    also uses some of it up. *)
Definition budgetLeft (maxPages : Z) (src : Source) (st : LoopState) : nat :=
  Z.to_nat ((maxPages + 1 - page st) * (emptyPageThreshold src + 1)
            + (emptyPageThreshold src - consecutiveEmptyPages st)).

(** The thresholds as the specification words them: 3 for the HTTP-backed
    source, 1 for each session-backed source. *)
Definition statedThreshold (src : Source) : Z :=
  match src with
  | TrustPilot => 3
  | G2 | Capterra => 1
  end.

(** The number of requests sent in a trace of [safeRequest]. *)
Definition requestsIn (trace : list Event) : nat :=
  List.length (filter (fun ev => match ev with
                                 | Requested _ _ => true
                                 | Slept _ => false
                                 end) trace).

(** The waits of fixed length in a trace, in order; the courtesy sleep
    before each request is jittered and is not among them. *)
Fixpoint fixedWaits (trace : list Event) : list Z :=
  match trace with
  | [] => []
  | Slept (Exactly ms) :: rest => ms :: fixedWaits rest
  | _ :: rest => fixedWaits rest
  end.

(** The client that [onError] leaves behind. *)
Definition clientAfter (out : Client * list Event * Step) : Client :=
  fst (fst out).

(** ** A calendar and listings for the worked examples *)

(** Midnight UTC of a few days, in milliseconds since the epoch. *)
Definition demoCalendar : list (string * JSDate) :=
  [ ("2023-11-20", 1700438400000); ("2023-12-01", 1701388800000);
    ("2024-01-15", 1705276800000); ("2024-02-10", 1707523200000);
    ("2024-04-02", 1712016000000) ].

Fixpoint lookupDate (s : string) (table : list (string * JSDate))
  : option JSDate :=
  match table with
  | [] => None
  | (k, d) :: rest => if (k =? s)%string then Some d else lookupDate s rest
  end.

(** A [moment] that knows the days of [demoCalendar] in the format
    [YYYY-MM-DD] and nothing else. *)
Definition demoMoment : Moment :=
  {| normalizeSpaces := fun s => s;
     moment_strict := fun s format =>
       if (format =? "YYYY-MM-DD")%string then lookupDate s demoCalendar
       else None;
     moment_natural := fun _ => None |}.

Definition demoReview (day : string) : ReviewData :=
  {| title := "Works well"; description := "Used daily by the team";
     date := Some day; rating := "4.5"; reviewer := "Anonymous" |}.

Definition undatedReview : ReviewData :=
  {| title := "No date shown"; description := "Fine so far";
     date := None; rating := "4.0"; reviewer := "Anonymous" |}.

(** The window 2024-01-01 .. 2024-03-31. *)
Definition demoStart : JSDate := 1704067200000.
Definition demoEnd : JSDate := 1711843200000.

Definition recentPage : list (option ReviewData) :=
  [ Some (demoReview "2024-02-10"); Some (demoReview "2024-01-15") ].

Definition oldPage : list (option ReviewData) :=
  [ Some (demoReview "2023-12-01"); Some (demoReview "2023-11-20") ].

Definition mixedPage : list (option ReviewData) :=
  [ Some (demoReview "2024-04-02"); Some (demoReview "2024-02-10");
    Some undatedReview; None; Some (demoReview "not a date");
    Some (demoReview "2023-12-01") ].

Definition loadedPage (reviewElements : list (option ReviewData))
  : SessionPage :=
  {| navigationSuccess := true; sessionElements := Some reviewElements;
     hasCaptcha := false; resolved := Normal true; settle := Normal tt |}.

Definition unreachablePage : SessionPage :=
  {| navigationSuccess := false; sessionElements := None;
     hasCaptcha := false; resolved := Normal false; settle := Normal tt |}.

(** Five pages, newest first: two inside the window, three before it. *)
Definition fivePages (n : nat) : list (option ReviewData) :=
  if (n <? 2)%nat then recentPage else oldPage.

(** One page of mixed records, then nothing. *)
Definition mixedListing (n : nat) : list (option ReviewData) :=
  match n with
  | O => mixedPage
  | _ => []
  end.

(** Scripted answers of a server: the listed outcomes in order, then
    timeouts. *)
Definition scripted (outcomes : list (Completion Response)) (attempt : nat)
  : Completion Response :=
  nth attempt outcomes (Throw (plainError "timeout of 15000ms exceeded")).

Definition rejected (code : Z) : Completion Response :=
  Throw {| message := "Request failed";
           response := Some {| status := code; data := Some "" |} |}.

Definition servedPage : Response :=
  {| status := 200; data := Some "<html><body>reviews</body></html>" |}.

(** [Math.random()] giving 0, and giving 3/4. *)
Definition randomZero : Random :=
  {| num := 0; den := 1; in_unit := eq_refl |}.

Definition randomThreeQuarters : Random :=
  {| num := 3; den := 4; in_unit := eq_refl |}.

(** A lower-casing that is right on ASCII text. *)
Definition lowerAscii (ch : Ascii.ascii) : Ascii.ascii :=
  let n := Ascii.nat_of_ascii ch in
  if ((65 <=? n) && (n <=? 90))%nat then Ascii.ascii_of_nat (n + 32) else ch.

Fixpoint lowerString (s : string) : string :=
  match s with
  | EmptyString => EmptyString
  | String ch rest => String (lowerAscii ch) (lowerString rest)
  end.

Definition demoCasing : Casing := {| toLowerCase := lowerString |}.

(** A page showing reviews, a page showing a challenge phrase, a page with
    a challenge widget, and a page that was closed under the scraper. *)
Definition reviewsView : PageView :=
  {| currentUrl := "https://www.g2.com/products/acme/reviews";
     queryOne := fun _ => Normal false;
     pageContent := Normal "<html><body>Great product</body></html>" |}.

Definition challengeView : PageView :=
  {| currentUrl := "https://www.g2.com/products/acme/reviews";
     queryOne := fun _ => Normal false;
     pageContent := Normal "<html><body>Verify You Are Human</body></html>" |}.

Definition widgetView : PageView :=
  {| currentUrl := "https://www.g2.com/products/acme/reviews";
     queryOne := fun selector => Normal (selector =? ".g-recaptcha")%string;
     pageContent := Normal "<html></html>" |}.

Definition closedView : PageView :=
  {| currentUrl := "about:blank";
     queryOne := fun _ =>
       Throw (plainError "Target page, context or browser has been closed");
     pageContent :=
       Throw (plainError "Target page, context or browser has been closed") |}.

(** A challenge that never clears, looked at every 2005 ms. *)
Definition stuckPoll : Poll :=
  {| firstTimer := Elapsed 0; seen := widgetView; spent := 5;
     secondTimer := Elapsed 0 |}.

(** Two connections to the same Chrome, as two calls of
    [connectOverCDP] return them. *)
Definition firstBrowser : Browser :=
  {| connection := 1;
     contexts := [ {| contextPages := [10%nat];
                      newPage := Normal 11%nat |} ] |}.

Definition secondBrowser : Browser :=
  {| connection := 2;
     contexts := [ {| contextPages := [20%nat];
                      newPage := Normal 21%nat |} ] |}.

Definition chromeAnswering (b : Browser) : Chrome :=
  {| firstAttach := Normal b;
     candidatePaths := ["/usr/bin/google-chrome"];
     accessible := fun _ => true;
     secondAttach := Normal b |}.

Definition chromeGone : Chrome :=
  {| firstAttach := Throw (plainError "connect ECONNREFUSED 127.0.0.1:9222");
     candidatePaths := ["/usr/bin/google-chrome"];
     accessible := fun _ => false;
     secondAttach :=
       Throw (plainError "connect ECONNREFUSED 127.0.0.1:9222") |}.

(** ** Vocabulary of the further properties *)

(** The elements iteration [n] tallies: those of the page it gets hold
    of, none when it gets no page. *)
Definition itemsAt (sessionPages : nat -> SessionPage)
  (httpPages : nat -> HttpPage) (src : Source) (n : nat)
  : list (option ReviewData) :=
  match pageItems sessionPages httpPages src n with
  | Some l => l
  | None => []
  end.

(** The in-window records of the first [k] iterations, in order. *)
Definition collected `{Moment} (startDate endDate : JSDate)
  (sessionPages : nat -> SessionPage) (httpPages : nat -> HttpPage)
  (src : Source) (k : nat) : list ReviewData :=
  flat_map (fun n => keptOf startDate endDate
                       (itemsAt sessionPages httpPages src n))
    (seq 0 k).

(** The number of courtesy sleeps -- [this.delay + Math.random() * 1000]
    -- in a trace of [safeRequest]. *)
Definition courtesySleepsIn (trace : list Event) : nat :=
  List.length (filter (fun ev => match ev with
                                 | Slept (Jittered _) => true
                                 | _ => false
                                 end) trace).

(** The delays that [setTimeout] keeps as they are: from 1 ms to
    2^31 - 1 ms.  Node replaces a longer one by 1 ms, so only within this
    range is the delay handed to [sleep] the length of the wait. *)
Definition timerHonours (ms : Z) : bool :=
  (1 <=? ms) && (ms <=? 2147483647).

(** ** Navigation *)

(** What the browser does during one [navigateToPage]. *)
Record Visit := mkVisit {
  gotoResult : Completion unit;   (* [page.goto(url, ...)] *)
  gotoTook : N;                   (* milliseconds it took *)
  renderTimer : Timer;            (* the [waitForTimeout(3000)] *)
  landed : PageView;              (* the page after that wait *)
  landedTook : N;                 (* milliseconds taken by looking at it *)
  laterPolls : nat -> Poll        (* what a wait for readiness then sees *)
}.

(** [navigateToPage(url, expectedUrlPattern)] (the same text in both
    classes), entered when [Date.now()] reads [now].  The whole body is
    inside [try], and [catch] returns [false]; with [this.page] still
    [null] the first statement already throws.  The result is [None] when
    the model's budget of waiting passes ran out, otherwise the value
    returned and the time of the return. *)
Definition navigateToPage (detect : option PageView -> Completion bool)
  (expectedUrlPattern : option string) (v : Visit) (s : Session)
  (now : Z) (fuel : nat) : option (bool * Z) :=
  match this_page s with
  | None => Some (false, now)
  | Some _ =>
      let t0 := now + Z.of_N (gotoTook v) in
      match gotoResult v with
      | Throw _ => Some (false, t0)
      | Normal _ =>
          match waitForTimeout 3000 (renderTimer v) t0 with
          | (Throw _, t1) => Some (false, t1)
          | (Normal _, t1) =>
              let t2 := t1 + Z.of_N (landedTook v) in
              let wait (budget : Z) :=
                match waitForPageReady detect expectedUrlPattern budget
                        (laterPolls v) t2 fuel with
                | None => None
                | Some (Normal ready, t3) => Some (ready, t3)
                | Some (Throw _, t3) => Some (false, t3)
                end in
              match detect (Some (landed v)) with
              | Throw _ => Some (false, t2)
              | Normal true => wait 60000
              | Normal false =>
                  match truthy expectedUrlPattern with
                  | Some pattern =>
                      if negb (includes (currentUrl (landed v)) pattern)
                      then wait 30000
                      else Some (true, t2)
                  | None => Some (true, t2)
                  end
              end
          end
      end
  end.

(** The page is seen without a challenge and at the expected place. *)
Definition seenReady (detect : option PageView -> Completion bool)
  (expectedUrlPattern : option string) (v : PageView) : Prop :=
  detect (Some v) = Normal false
  /\ match truthy expectedUrlPattern with
     | Some pattern => includes (currentUrl v) pattern = true
     | None => True
     end.

(** A visit that lands on a challenge that never clears. *)
Definition stuckVisit : Visit :=
  {| gotoResult := Normal tt; gotoTook := 800;
     renderTimer := Elapsed 0; landed := widgetView; landedTook := 5;
     laterPolls := fun _ => stuckPoll |}.

(** A visit that lands on the reviews. *)
Definition plainVisit : Visit :=
  {| gotoResult := Normal tt; gotoTook := 800;
     renderTimer := Elapsed 0; landed := reviewsView; landedTook := 5;
     laterPolls := fun _ => stuckPoll |}.

(** A poll of a page that was closed: both timers fail at once. *)
Definition closedPoll : Poll :=
  {| firstTimer := Failed 0; seen := closedView; spent := 0;
     secondTimer := Failed 0 |}.

(** A challenge that clears after two polls. *)
Definition clearingPolls (n : nat) : Poll :=
  if (n <? 2)%nat then stuckPoll
  else {| firstTimer := Elapsed 0; seen := reviewsView; spent := 5;
          secondTimer := Elapsed 0 |}.

(** ** The command-line run *)

(** The options of [main] that decide what is scraped. *)
Record Options := mkOptions {
  opt_company : string;
  opt_startDate : string;
  opt_endDate : string;
  opt_source : string
}.

(** The date checks at the start of [main]; [now] is what [moment()]
    reads.  [isAfter] compares the time values. *)
Definition checkDates `{Moment} (o : Options) (now : JSDate)
  : Completion (JSDate * JSDate) :=
  match moment_strict (opt_startDate o) "YYYY-MM-DD",
        moment_strict (opt_endDate o) "YYYY-MM-DD" with
  | Some startDate, Some endDate =>
      if startDate >? endDate then
        Throw (plainError "Start date must be before or equal to end date")
      else if startDate >? now then
        Throw (plainError "Start date cannot be in the future")
      else Normal (startDate, endDate)
  | _, _ =>
      Throw (plainError
               "Invalid date format. Use YYYY-MM-DD (e.g., 2024-01-15)")
  end.

(** [validSources.includes(options.source)] and [sourcesToScrape]. *)
Definition chooseSources (source : string) : Completion (list Source) :=
  if (source =? "g2")%string then Normal [G2]
  else if (source =? "capterra")%string then Normal [Capterra]
  else if (source =? "trustpilot")%string then Normal [TrustPilot]
  else if (source =? "all")%string then Normal [G2; Capterra; TrustPilot]
  else
    Throw (plainError
             "Invalid source. Choose from: g2, capterra, trustpilot, all").

(** An entry of [scrapingResults]. *)
Record SourceResult := mkSourceResult {
  success : bool;
  count : nat;
  error : option string
}.

(** The entry [main] writes for a source, from how its [scrapeReviews]
    ended. *)
Definition resultOf (outcome : Completion (list ReviewData))
  : SourceResult :=
  match outcome with
  | Normal reviews =>
      {| success := true; count := List.length reviews; error := None |}
  | Throw e =>
      {| success := false; count := 0; error := Some (message e) |}
  end.

(** The [for (const source of sourcesToScrape)] loop of [main]: [run] is
    what [scrapeReviews] of each source's scraper does.  The sources are
    distinct, so the keys of [scrapingResults] are an association list in
    the order of the loop. *)
Fixpoint scrapeSources (run : Source -> Completion (list ReviewData))
  (sources : list Source) (allReviews : list ReviewData)
  (scrapingResults : list (Source * SourceResult))
  : list ReviewData * list (Source * SourceResult) :=
  match sources with
  | [] => (allReviews, scrapingResults)
  | source :: rest =>
      match run source with
      | Normal reviews =>
          scrapeSources run rest (allReviews ++ reviews)
            (scrapingResults ++ [(source, resultOf (Normal reviews))])
      | Throw e =>
          scrapeSources run rest allReviews
            (scrapingResults ++ [(source, resultOf (Throw e))])
      end
  end.

(** [allReviews.sort(...)] with the comparator of [main], a black box:
    whatever the comparator does, sorting permutes the array. *)
Class ArraySort := {
  sortNewestFirst : list ReviewData -> list ReviewData;
  sort_permutes : forall l, Permutation (sortNewestFirst l) l
}.

(** The part of the output document that depends on the scraping. *)
Record Report := mkReport {
  total_reviews : nat;
  scraping_results : list (Source * SourceResult);
  reportReviews : list ReviewData
}.

(** How the process ends: [main] runs to its end, or [process.exit(1)]. *)
Inductive Ending := Completed | Exit1.

(** [main] from the date checks on.  [run] is the [scrapeReviews] of each
    source's scraper on the checked window, [writeFile] what
    [fs.writeFile] does.  The result is how the process ends and the
    document written, if one was. *)
Definition main `{Moment} `{ArraySort} (o : Options) (now : JSDate)
  (run : Source -> JSDate -> JSDate -> Completion (list ReviewData))
  (writeFile : Completion unit) : Ending * option Report :=
  match (dates <- checkDates o now ;;
         sources <- chooseSources (opt_source o) ;;
         Normal (dates, sources)) with
  | Throw _ => (Exit1, None)
  | Normal ((startDate, endDate), sourcesToScrape) =>
      let (allReviews, scrapingResults) :=
        scrapeSources (fun source => run source startDate endDate)
          sourcesToScrape [] [] in
      let outputData :=
        {| total_reviews := List.length allReviews;
           scraping_results := scrapingResults;
           reportReviews := sortNewestFirst allReviews |} in
      match writeFile with
      | Throw _ => (Exit1, None)
      | Normal _ =>
          if (List.length (sortNewestFirst allReviews) =? 0)%nat
          then (Exit1, Some outputData)
          else (Completed, Some outputData)
      end
  end.

(** The reviews of the sources that returned, in the order of the
    sources. *)
Definition gathered (run : Source -> Completion (list ReviewData))
  (sources : list Source) : list ReviewData :=
  flat_map (fun source => match run source with
                          | Normal reviews => reviews
                          | Throw _ => []
                          end) sources.

(** A sort that leaves the array as it is. *)
Definition demoSort : ArraySort :=
  {| sortNewestFirst := fun l => l;
     sort_permutes := fun l => Permutation_refl l |}.

Definition demoOptions : Options :=
  {| opt_company := "Acme"; opt_startDate := "2024-01-15";
     opt_endDate := "2024-02-10"; opt_source := "all" |}.

(** G2 cannot reach Chrome, Capterra finds nothing, TrustPilot returns
    two reviews. *)
Definition demoRun (source : Source) (startDate endDate : JSDate)
  : Completion (list ReviewData) :=
  match source with
  | G2 => Throw (plainError "Could not connect to Chrome")
  | Capterra => Normal []
  | TrustPilot => Normal [demoReview "2024-02-10"; demoReview "2024-01-15"]
  end.

(** ** The TrustPilot loop together with its requests *)

(** A JS integer in a template string. *)
Definition showZ (z : Z) : string := NilZero.string_of_int (Z.to_int z).

(** [page === 1 ? productUrl : `${productUrl}?page=${page}`] *)
Definition TrustPilot_pageUrl (productUrl : string) (page : Z) : string :=
  if page =? 1 then productUrl
  else (productUrl ++ "?page=" ++ showZ page)%string.

(** One iteration of [TrustPilotScraper.scrapeReviews] with the call of
    [safeRequest] in it (with the default of three attempts).  [served n]
    and [draws n] are what the server and [Math.random()] answer during
    iteration [n]; [extract] stands for [cheerio.load],
    [findReviewElements] and [extractReviewData] on each element.  The
    result is the client and the loop variables after the iteration and
    the trace of its request. *)
Definition TrustPilot_iteration `{Moment}
  (extract : Response -> list (option ReviewData))
  (startDate endDate : JSDate) (productUrl : string)
  (served : nat -> nat -> Completion Response)
  (draws : nat -> nat -> Random)
  (n : nat) (c : Client) (st : LoopState)
  : Completion (Client * LoopState * list Event) :=
  out <- safeRequest (TrustPilot_pageUrl productUrl (page st)) 3
           (served n) (draws n) c ;;
  let '(response, c', trace) := out in
  st' <- httpIteration startDate endDate (option_map extract response) st ;;
  Normal (c', st', trace).

(** The loop of [TrustPilotScraper.scrapeReviews] with its requests;
    [trace] gathers what the iterations did to the outside.  [None] when
    the model's budget of iterations ran out. *)
Fixpoint TrustPilot_fetchLoop `{Moment}
  (extract : Response -> list (option ReviewData))
  (startDate endDate : JSDate) (maxPages : Z) (productUrl : string)
  (served : nat -> nat -> Completion Response)
  (draws : nat -> nat -> Random)
  (fuel n : nat) (c : Client) (st : LoopState) (trace : list Event)
  : option (Completion (Client * LoopState * list Event)) :=
  if loopGuard TrustPilot maxPages st then
    match fuel with
    | O => None
    | S fuel' =>
        match TrustPilot_iteration extract startDate endDate productUrl
                served draws n c st with
        | Normal (c', st', sent) =>
            TrustPilot_fetchLoop extract startDate endDate maxPages
              productUrl served draws fuel' (S n) c' st' (trace ++ sent)
        | Throw e => Some (Throw e)
        end
    end
  else Some (Normal (c, st, trace)).

(** An extraction that finds nothing. *)
Definition noElements (r : Response) : list (option ReviewData) := [].

(* ===================================================================== *)
(** * Properties *)
(* ===================================================================== *)

(** ** The date window *)

Section Window.
Context `{Moment}.
Variables startDate endDate : JSDate.

Lemma isDateInRange_spec (od : option JSDate) :
  isDateInRange od startDate endDate = true <->
  exists d, od = Some d /\ startDate <= d <= endDate.
Proof.
  unfold isDateInRange. destruct od as [d|].
  - rewrite andb_true_iff, !Z.leb_le. split.
    + intros [? ?]. exists d. auto.
    + intros [d' [E ?]]. inversion E; subst. lia.
  - split; [discriminate | intros [d [E _]]; discriminate].
Qed.

Lemma inRange_not_before (x : option ReviewData) :
  inRange startDate endDate x = true -> beforeStart startDate x = false.
Proof.
  destruct x as [r|]; simpl; auto.
  intros Hin. apply isDateInRange_spec in Hin.
  destruct Hin as [d [-> ?]]. apply Z.ltb_ge. lia.
Qed.

Lemma keptOf_inWindow (l : list (option ReviewData)) :
  Forall (inWindow startDate endDate) (keptOf startDate endDate l).
Proof.
  induction l as [|[r|] l IH]; simpl; auto.
  destruct (isDateInRange _ _ _) eqn:E; auto.
  constructor; auto. apply isDateInRange_spec. exact E.
Qed.

Lemma countIf_cons f x l :
  countIf f (x :: l) = (if f x then 1 else 0) + countIf f l.
Proof.
  unfold countIf. cbn [filter].
  destruct (f x); cbn [List.length]; lia.
Qed.

Lemma countIf_nonneg f l : 0 <= countIf f l.
Proof. unfold countIf. lia. Qed.

(** What the [each] loop leaves in its three variables. *)
Lemma fold_tally (l : list (option ReviewData)) (t : Tally) :
  let t' := fold_left (tallyReview startDate endDate) l t in
  kept t' = kept t ++ keptOf startDate endDate l
  /\ pageReviews t' = pageReviews t + countIf (inRange startDate endDate) l
  /\ reviewsOutsideDateRange t' =
     reviewsOutsideDateRange t + countIf (beforeStart startDate) l.
Proof.
  revert t. induction l as [|x l IH]; intros t; cbn zeta.
  - simpl. rewrite app_nil_r. unfold countIf. simpl.
    repeat split; auto; lia.
  - cbn [fold_left]. specialize (IH (tallyReview startDate endDate t x)).
    cbn zeta in IH. destruct IH as (Hk & Hp & Ho).
    rewrite Hk, Hp, Ho, !countIf_cons. clear Hk Hp Ho.
    destruct x as [r|]; cbn [tallyReview inRange beforeStart keptOf].
    + destruct (isDateInRange _ _ _) eqn:E.
      * assert (B : beforeStart startDate (Some r) = false)
          by (apply inRange_not_before; exact E).
        cbn [beforeStart] in B. rewrite B.
        cbn [kept pageReviews reviewsOutsideDateRange].
        rewrite <- app_assoc. repeat split; auto; lia.
      * destruct (parseDate (date r)) as [d|];
          [destruct (d <? startDate)|];
          cbn [kept pageReviews reviewsOutsideDateRange];
          repeat split; auto; lia.
    + repeat split; auto; lia.
Qed.

Lemma tallyPage_spec rs (l : list (option ReviewData)) :
  let t := tallyPage startDate endDate rs l in
  kept t = rs ++ keptOf startDate endDate l
  /\ pageReviews t = countIf (inRange startDate endDate) l
  /\ reviewsOutsideDateRange t = countIf (beforeStart startDate) l.
Proof.
  pose proof (fold_tally l
    {| kept := rs; pageReviews := 0; reviewsOutsideDateRange := 0 |}) as F.
  cbn zeta in *. unfold tallyPage. simpl in F.
  destruct F as (-> & -> & ->). auto.
Qed.

(** [processPage] in terms of the page's counts. *)
Lemma processPage_spec (st : LoopState) (l : list (option ReviewData)) :
  processPage startDate endDate st l =
  let stop := (countIf (beforeStart startDate) l
                 >? countIf (inRange startDate endDate) l)
              && (page st >? 2) in
  ({| reviews := reviews st ++ keptOf startDate endDate l; page := page st;
      hasMorePages := if stop then false else hasMorePages st;
      consecutiveEmptyPages := 0 |}, stop).
Proof.
  unfold processPage.
  destruct (tallyPage_spec (reviews st) l) as (-> & -> & ->).
  cbn zeta. destruct (_ && _); reflexivity.
Qed.

End Window.

(** ** The pagination loops *)

(** A property of loop states that every iteration keeps holds wherever a
    run stops. *)
Lemma paginate_invariant (P : LoopState -> Prop) guard iteration :
  (forall n st st', P st -> iteration n st = Normal st' -> P st') ->
  forall fuel n st, P st ->
    forall st', stateOf (paginate guard iteration fuel n st) = Some st' ->
    P st'.
Proof.
  intros Hstep fuel. induction fuel as [|fuel IH]; intros n st HP st'.
  - simpl. destruct (guard st); simpl; intros E; inversion E; subst; auto.
  - simpl. destruct (guard st).
    + destruct (iteration n st) as [st1|e] eqn:Eit.
      * apply IH. eapply Hstep; eauto.
      * simpl. discriminate.
    + simpl. intros E; inversion E; subst; auto.
Qed.

(** A run never goes backwards in its count of iterations. *)
Lemma paginate_fetched_ge guard iteration fuel :
  forall n st, (n <= fetchedOf (paginate guard iteration fuel n st))%nat.
Proof.
  induction fuel as [|fuel IH]; intros n st; simpl.
  - destruct (guard st); simpl; lia.
  - destruct (guard st); simpl; [|lia].
    destruct (iteration n st) as [st1|e]; simpl; [|lia].
    specialize (IH (S n) st1). lia.
Qed.

Section Pagination.
Context `{Moment}.
Variables startDate endDate : JSDate.
Variable maxPages : Z.
Variable sessionPages : nat -> SessionPage.
Variable httpPages : nat -> HttpPage.

(** An iteration appends to [reviews] nothing but kept records of one
    page. *)
Lemma iteration_reviews src n st st' :
  iterationOf startDate endDate src sessionPages httpPages n st = Normal st' ->
  exists l, reviews st' = reviews st ++ keptOf startDate endDate l.
Proof.
  assert (Same : forall a b : LoopState, reviews a = reviews b ->
            exists l, reviews a = reviews b ++ keptOf startDate endDate l).
  { intros a b E. exists []. simpl. rewrite app_nil_r. exact E. }
  assert (Proc : forall l st1 stop,
            processPage startDate endDate st l = (st1, stop) ->
            reviews st1 = reviews st ++ keptOf startDate endDate l).
  { intros l st1 stop E. rewrite processPage_spec in E. cbn zeta in E.
    inversion E; subst. reflexivity. }
  unfold iterationOf.
  destruct src; [unfold sessionIteration .. | unfold httpIteration].
  1,2: destruct (navigationSuccess (sessionPages n)); simpl;
       [|intros E; inversion E; subst; apply Same; reflexivity];
       destruct (sessionElements (sessionPages n)) as [[|x l]|];
       [ destruct (hasCaptcha (sessionPages n));
         [destruct (resolved (sessionPages n)) as [[|]|]; simpl|];
         intros E; inversion E; subst; apply Same; reflexivity
       | destruct (processPage startDate endDate st (x :: l))
           as [st1 stop] eqn:EP;
         apply Proc in EP;
         destruct stop;
         [|destruct (settle (sessionPages n)); simpl];
         intros E; inversion E; subst; exists (x :: l); exact EP
       | intros E; inversion E; subst; apply Same; reflexivity ].
  destruct (httpPages n) as [[|x l]|].
  - intros E; inversion E; subst; apply Same; reflexivity.
  - destruct (processPage startDate endDate st (x :: l))
      as [st1 stop] eqn:EP.
    apply Proc in EP.
    destruct stop; intros E; inversion E; subst; exists (x :: l);
      exact EP.
  - intros E; inversion E; subst; apply Same; reflexivity.
Qed.

Lemma iteration_keeps_window src n st st' :
  Forall (inWindow startDate endDate) (reviews st) ->
  iterationOf startDate endDate src sessionPages httpPages n st = Normal st' ->
  Forall (inWindow startDate endDate) (reviews st').
Proof.
  intros HP E. apply iteration_reviews in E. destruct E as [l ->].
  apply Forall_app. split; auto. apply keptOf_inWindow.
Qed.

(** C1.  Whatever the pages answer, every record in the [reviews] array
    of [scrapeReviews] -- in the array it returns, and in the array at any
    earlier point of the loop -- has a date that parses to a [d] with
    [startDate <= d <= endDate]; a record whose date parses to [null] is
    therefore never in it.  This holds for the three sources. *)
Theorem scrapeReviews_within_window (src : Source) (companyName : string)
  (found : Completion (option string)) (fuel : nat) :
  (forall rs,
      scrapeReviews src companyName found startDate endDate maxPages
        sessionPages httpPages fuel = Some (Normal rs) ->
      Forall (inWindow startDate endDate) rs)
  /\ (forall st,
      stateOf (scrapeLoop src startDate endDate maxPages
                 sessionPages httpPages fuel) = Some st ->
      Forall (inWindow startDate endDate) (reviews st)
      /\ Forall (fun r => parseDate (date r) <> None) (reviews st)).
Proof.
  assert (Inv : forall st,
      stateOf (scrapeLoop src startDate endDate maxPages
                 sessionPages httpPages fuel) = Some st ->
      Forall (inWindow startDate endDate) (reviews st)).
  { intros st. unfold scrapeLoop.
    apply (paginate_invariant
             (fun s => Forall (inWindow startDate endDate) (reviews s))).
    - intros n s s'. apply iteration_keeps_window.
    - simpl. constructor. }
  split.
  - intros rs. unfold scrapeReviews.
    destruct (requireProductUrl src companyName found); [|discriminate].
    destruct (scrapeLoop _ _ _ _ _ _ _) as [k st|k e|k st] eqn:E;
      try discriminate.
    intros R. inversion R; subst. apply Inv. reflexivity.
  - intros st Hst. split; [apply Inv; exact Hst|].
    eapply Forall_impl; [|apply Inv; exact Hst].
    intros r [d [E _]]. rewrite E. discriminate.
Qed.

(** *** The early stop *)

Lemma paginate_stop guard it fuel n st :
  guard st = false -> paginate guard it fuel n st = Finished n st.
Proof. intros G. destruct fuel; simpl; rewrite G; reflexivity. Qed.

Lemma paginate_step guard it fuel n st st' :
  guard st = true -> it n st = Normal st' ->
  paginate guard it (S fuel) n st = paginate guard it fuel (S n) st'.
Proof. intros G E. simpl. rewrite G, E. reflexivity. Qed.

(** An iteration that gets a page with elements on it. *)
Lemma iteration_on_page src n st x l :
  pageItems sessionPages httpPages src n = Some (x :: l) ->
  iterationOf startDate endDate src sessionPages httpPages n st =
  let (st1, stop) := processPage startDate endDate st (x :: l) in
  if stop then Normal st1
  else match src with
       | G2 | Capterra => settle (sessionPages n) ;;; Normal (nextPage st1)
       | TrustPilot => Normal (nextPage st1)
       end.
Proof.
  unfold pageItems, iterationOf.
  destruct src; [unfold sessionIteration .. | unfold httpIteration].
  1,2: destruct (navigationSuccess (sessionPages n)); [|discriminate];
       intros ->; simpl negb; cbv iota;
       destruct (processPage _ _ _ _) as [st1 [|]]; reflexivity.
  intros ->. destruct (processPage _ _ _ _) as [st1 [|]]; reflexivity.
Qed.

Lemma count_all_inRange l :
  Forall (fun x => inRange startDate endDate x = true) l ->
  countIf (inRange startDate endDate) l = Z.of_nat (List.length l)
  /\ countIf (beforeStart startDate) l = 0.
Proof.
  induction 1 as [|x l Hx _ [IH1 IH2]].
  - split; reflexivity.
  - rewrite !countIf_cons, Hx, (inRange_not_before _ _ _ Hx), IH1, IH2.
    cbn [List.length]. lia.
Qed.

Lemma count_all_before l :
  Forall (fun x => beforeStart startDate x = true) l ->
  countIf (beforeStart startDate) l = Z.of_nat (List.length l)
  /\ countIf (inRange startDate endDate) l = 0
  /\ keptOf startDate endDate l = [].
Proof.
  induction 1 as [|x l Hx _ (IH1 & IH2 & IH3)].
  - repeat split; reflexivity.
  - assert (Hn : inRange startDate endDate x = false).
    { destruct (inRange startDate endDate x) eqn:E; auto.
      apply inRange_not_before in E. congruence. }
    rewrite !countIf_cons, Hx, Hn, IH1, IH2.
    cbn [List.length]. repeat split; try lia.
    destruct x as [r|]; cbn [keptOf]; auto.
    cbn [inRange] in Hn. rewrite Hn. exact IH3.
Qed.

(** C2.  For each source: (1) when an iteration on a page number above 2
    gets a page on which more records are dated strictly before
    [startDate] than inside the window, the loop ends with that
    iteration, on the same page number, and no further page is fetched;
    (2) on a listing whose first two pages hold only in-window records and
    whose third page holds only records dated before [startDate]
    (whatever pages 4 and 5 hold), with [maxPages] unbounded or at least
    3, the loop ends after fetching exactly three pages, on page number 3,
    with the in-window records of pages 1 and 2. *)
Theorem early_stop_halts (src : Source) :
  (forall n st l fuel,
      loopGuard src maxPages st = true ->
      2 < page st ->
      pageItems sessionPages httpPages src n = Some l ->
      countIf (inRange startDate endDate) l
        < countIf (beforeStart startDate) l ->
      paginate (loopGuard src maxPages)
        (iterationOf startDate endDate src sessionPages httpPages)
        (S fuel) n st =
      Finished (S n)
        {| reviews := reviews st ++ keptOf startDate endDate l;
           page := page st; hasMorePages := false;
           consecutiveEmptyPages := 0 |})
  /\ (forall p1 p2 p3 fuel,
      maxPages = -1 \/ 3 <= maxPages ->
      p1 <> [] -> p2 <> [] -> p3 <> [] ->
      Forall (fun x => inRange startDate endDate x = true) p1 ->
      Forall (fun x => inRange startDate endDate x = true) p2 ->
      Forall (fun x => beforeStart startDate x = true) p3 ->
      pageItems sessionPages httpPages src 0 = Some p1 ->
      pageItems sessionPages httpPages src 1 = Some p2 ->
      pageItems sessionPages httpPages src 2 = Some p3 ->
      settled sessionPages src 0 -> settled sessionPages src 1 ->
      scrapeLoop src startDate endDate maxPages sessionPages httpPages
        (3 + fuel) =
      Finished 3
        {| reviews := keptOf startDate endDate p1
                      ++ keptOf startDate endDate p2;
           page := 3; hasMorePages := false;
           consecutiveEmptyPages := 0 |}).
Proof.
  assert (Part1 : forall n st l fuel,
      loopGuard src maxPages st = true ->
      2 < page st ->
      pageItems sessionPages httpPages src n = Some l ->
      countIf (inRange startDate endDate) l
        < countIf (beforeStart startDate) l ->
      paginate (loopGuard src maxPages)
        (iterationOf startDate endDate src sessionPages httpPages)
        (S fuel) n st =
      Finished (S n)
        {| reviews := reviews st ++ keptOf startDate endDate l;
           page := page st; hasMorePages := false;
           consecutiveEmptyPages := 0 |}).
  { intros n st l fuel G Hp Hl Hc.
    destruct l as [|x l]; [unfold countIf in Hc; simpl in Hc; lia|].
    pose proof (iteration_on_page src n st x l Hl) as It.
    rewrite processPage_spec in It. cbn zeta in It.
    assert (Stop : (countIf (beforeStart startDate) (x :: l)
                      >? countIf (inRange startDate endDate) (x :: l))
                   && (page st >? 2) = true).
    { apply andb_true_iff. split; apply Z.gtb_lt; lia. }
    rewrite Stop in It.
    rewrite (paginate_step _ _ _ _ _ _ G It).
    apply paginate_stop. reflexivity. }
  split; [exact Part1|].
  intros p1 p2 p3 fuel HM N1 N2 N3 A1 A2 A3 I1 I2 I3 S1 S2.
  assert (Guard : forall st, hasMorePages st = true ->
                    page st <= 3 -> consecutiveEmptyPages st = 0 ->
                    loopGuard src maxPages st = true).
  { intros st Hh Hp Hc. unfold loopGuard. rewrite Hh, Hc.
    assert (((maxPages =? -1) || (page st <=? maxPages)) = true) as ->.
    { apply orb_true_iff. destruct HM as [->|HM]; [left; reflexivity|].
      right. apply Z.leb_le. lia. }
    destruct src; reflexivity. }
  assert (Go : forall n st l, l <> [] ->
            Forall (fun x => inRange startDate endDate x = true) l ->
            pageItems sessionPages httpPages src n = Some l ->
            settled sessionPages src n ->
            iterationOf startDate endDate src sessionPages httpPages n st =
            Normal {| reviews := reviews st ++ keptOf startDate endDate l;
                      page := page st + 1;
                      hasMorePages := hasMorePages st;
                      consecutiveEmptyPages := 0 |}).
  { intros n st l Hne Hall Hl Hs.
    destruct l as [|x l]; [congruence|].
    rewrite (iteration_on_page src n st x l Hl), processPage_spec.
    cbn zeta.
    destruct (count_all_inRange _ Hall) as [C1 C2]. rewrite C1, C2.
    assert ((0 >? Z.of_nat (List.length (x :: l))) = false) as ->
      by (rewrite Z.gtb_ltb; apply Z.ltb_ge; lia).
    cbn [andb]. unfold settled in Hs.
    destruct src; try rewrite Hs; reflexivity. }
  unfold scrapeLoop. change (3 + fuel)%nat with (S (S (S fuel))).
  erewrite paginate_step;
    [| apply Guard; simpl; auto; lia | apply (Go _ _ p1); assumption].
  erewrite paginate_step;
    [| apply Guard; simpl; auto; lia | apply (Go _ _ p2); assumption].
  destruct (count_all_before _ A3) as (C1 & C2 & K3).
  rewrite Part1 with (l := p3).
  - cbn [reviews page]. rewrite K3, app_nil_r. reflexivity.
  - apply Guard; simpl; auto; lia.
  - simpl. lia.
  - exact I3.
  - rewrite C1, C2. destruct p3; [congruence|]. cbn [List.length]. lia.
Qed.

(** *** Termination under a page limit *)

(** What one iteration does to the loop variables. *)
Lemma iteration_shape src n st st' :
  iterationOf startDate endDate src sessionPages httpPages n st = Normal st' ->
  (page st' = page st + 1
   /\ (consecutiveEmptyPages st' = consecutiveEmptyPages st + 1
       \/ consecutiveEmptyPages st' = 0))
  \/ (page st' = page st
      /\ consecutiveEmptyPages st' = consecutiveEmptyPages st + 1)
  \/ hasMorePages st' = false.
Proof.
  assert (Proc : forall l st1 stop,
            processPage startDate endDate st l = (st1, stop) ->
            page st1 = page st /\ consecutiveEmptyPages st1 = 0
            /\ (stop = true -> hasMorePages st1 = false)).
  { intros l st1 stop E. rewrite processPage_spec in E. cbn zeta in E.
    inversion E; subst. cbn. repeat split; auto. intros ->. reflexivity. }
  unfold iterationOf.
  destruct src; [unfold sessionIteration .. | unfold httpIteration].
  1,2: destruct (navigationSuccess (sessionPages n)); simpl;
       [|intros E; inversion E; subst; cbn; auto];
       destruct (sessionElements (sessionPages n)) as [[|x l]|];
       [ destruct (hasCaptcha (sessionPages n));
         [destruct (resolved (sessionPages n)) as [[|]|]; simpl|];
         intros E; inversion E; subst; cbn; auto
       | destruct (processPage startDate endDate st (x :: l))
           as [st1 stop] eqn:EP;
         apply Proc in EP; destruct EP as (P1 & P2 & P3);
         destruct stop;
         [|destruct (settle (sessionPages n)); simpl];
         intros E; inversion E; subst; cbn; auto;
         left; split; [congruence | auto]
       | intros E; inversion E; subst; cbn; auto ].
  destruct (httpPages n) as [[|x l]|].
  - intros E; inversion E; subst; cbn; auto.
  - destruct (processPage startDate endDate st (x :: l))
      as [st1 stop] eqn:EP.
    apply Proc in EP; destruct EP as (P1 & P2 & P3).
    destruct stop; intros E; inversion E; subst; cbn; auto.
    left; split; [congruence | auto].
  - intros E; inversion E; subst; cbn; auto.
Qed.

Lemma paginate_terminates guard it (mu : LoopState -> nat) :
  (forall n st st', guard st = true -> it n st = Normal st' ->
                    guard st' = true -> (mu st' < mu st)%nat) ->
  forall fuel n st, (mu st < fuel)%nat ->
    forall k st', paginate guard it fuel n st <> OutOfFuel k st'.
Proof.
  intros Dec fuel. induction fuel as [|fuel IH]; intros n st Hmu k st'.
  - lia.
  - simpl. destruct (guard st) eqn:G; [|discriminate].
    destruct (it n st) as [st1|e] eqn:E; [|discriminate].
    destruct (guard st1) eqn:G1.
    + apply IH. specialize (Dec n st st1 G E G1). lia.
    + rewrite paginate_stop by exact G1. discriminate.
Qed.

(** With a page limit, [scrapeReviews] comes to an end -- it returns or
    throws -- within a number of iterations fixed by the limit. *)
Lemma scrapeReviews_terminates src companyName found (fuel : nat) :
  maxPages <> -1 ->
  (budgetLeft maxPages src initialLoop < fuel)%nat ->
  scrapeReviews src companyName found startDate endDate maxPages
    sessionPages httpPages fuel <> None.
Proof.
  intros HM Hf. unfold scrapeReviews.
  destruct (requireProductUrl src companyName found); [|discriminate].
  destruct (scrapeLoop _ _ _ _ _ _ _) as [k st|k e|k st] eqn:E;
    try discriminate.
  exfalso. revert E. unfold scrapeLoop.
  apply (paginate_terminates _ _ (budgetLeft maxPages src)); [|exact Hf].
  clear st k. intros n st st' G It G'.
  apply iteration_shape in It.
  unfold loopGuard in G, G'.
  apply andb_true_iff in G; destruct G as [G Gc].
  apply andb_true_iff in G; destruct G as [Gh Gp].
  apply andb_true_iff in G'; destruct G' as [G' Gc'].
  apply andb_true_iff in G'; destruct G' as [Gh' Gp'].
  apply Z.ltb_lt in Gc, Gc'.
  apply orb_true_iff in Gp, Gp'.
  destruct Gp as [Gp|Gp]; [apply Z.eqb_eq in Gp; congruence|].
  destruct Gp' as [Gp'|Gp']; [apply Z.eqb_eq in Gp'; congruence|].
  apply Z.leb_le in Gp, Gp'.
  unfold budgetLeft.
  destruct It as [[Hp Hc]|[[Hp Hc]|Hh]]; [| |congruence];
    destruct src; cbn [emptyPageThreshold] in *; lia.
Qed.

End Pagination.

(** *** The empty-page threshold *)

Lemma paginate_runs_under_guard guard it fuel n st :
  (n < fetchedOf (paginate guard it fuel n st))%nat -> guard st = true.
Proof.
  destruct (guard st) eqn:G; auto.
  rewrite paginate_stop by exact G. simpl. lia.
Qed.

(** C3, as amended.  For each source the loop enters an iteration only
    while [consecutiveEmptyPages] is below the source's threshold; the
    threshold is 3 for TrustPilot and for G2, and 1 for Capterra. *)
Theorem empty_page_thresholds :
  (forall src maxPages it fuel n st,
      (n < fetchedOf (paginate (loopGuard src maxPages) it fuel n st))%nat ->
      consecutiveEmptyPages st < emptyPageThreshold src)
  /\ emptyPageThreshold TrustPilot = 3
  /\ emptyPageThreshold G2 = 3
  /\ emptyPageThreshold Capterra = 1.
Proof.
  split; [|repeat split].
  intros src maxPages it fuel n st Hrun.
  apply paginate_runs_under_guard in Hrun.
  unfold loopGuard in Hrun.
  apply andb_true_iff in Hrun. destruct Hrun as [_ Hc].
  apply Z.ltb_lt. exact Hc.
Qed.

(** C3 as stated fails: with the threshold 1 that the statement gives to
    every session-backed source, the loop of G2 would not run after one
    empty page, yet it does. *)
Lemma G2_threshold_is_not_one :
  ~ (forall src maxPages st,
        loopGuard src maxPages st = true ->
        consecutiveEmptyPages st < statedThreshold src).
Proof.
  intros C.
  specialize (C G2 15 (nextPage (countEmpty initialLoop)) eq_refl).
  vm_compute in C. discriminate.
Qed.

(** ** Worked examples *)

(** On a G2 listing whose pages all fail to load, three pages are tried
    before the loop gives up. *)
Example G2_gives_up_after_three :
  @scrapeLoop demoMoment G2 demoStart demoEnd 15
    (fun _ => unreachablePage) (fun _ => None) 10 =
  Finished 3 {| reviews := []; page := 4; hasMorePages := true;
                consecutiveEmptyPages := 3 |}.
Proof. reflexivity. Qed.

(** The same listing on Capterra: one page. *)
Example Capterra_gives_up_after_one :
  @scrapeLoop demoMoment Capterra demoStart demoEnd 15
    (fun _ => unreachablePage) (fun _ => None) 10 =
  Finished 1 {| reviews := []; page := 2; hasMorePages := true;
                consecutiveEmptyPages := 1 |}.
Proof. reflexivity. Qed.

(** A page with a record after the window, one inside it, one without a
    date, an element without a record, one with an unreadable date and one
    before the window: only the record inside the window is returned. *)
Example TrustPilot_mixed_page :
  @scrapeReviews demoMoment TrustPilot "Acme"
    (Normal (Some "https://www.trustpilot.com/review/acme.com"))
    demoStart demoEnd 10 (fun _ => unreachablePage)
    (fun n => Some (mixedListing n)) 20 =
  Some (Normal [demoReview "2024-02-10"]).
Proof. reflexivity. Qed.

Lemma scrapeReviews_within_window_witness :
  @scrapeReviews demoMoment G2 "Acme"
    (Normal (Some "https://www.g2.com/products/acme/reviews"))
    demoStart demoEnd 15 (fun n => loadedPage (mixedListing n))
    (fun _ => None) 20 =
  Some (Normal [demoReview "2024-02-10"])
  /\ Forall (@inWindow demoMoment demoStart demoEnd)
       [demoReview "2024-02-10"].
Proof.
  split; [reflexivity|].
  apply (proj1 (@scrapeReviews_within_window demoMoment demoStart demoEnd 15
                  (fun n => loadedPage (mixedListing n)) (fun _ => None)
                  G2 "Acme"
                  (Normal (Some "https://www.g2.com/products/acme/reviews"))
                  20)).
  reflexivity.
Defined.

Lemma early_stop_halts_witness :
  paginate (loopGuard Capterra 15)
    (@iterationOf demoMoment demoStart demoEnd Capterra
       (fun n => loadedPage (fivePages n)) (fun _ => None))
    1 7 {| reviews := []; page := 3; hasMorePages := true;
           consecutiveEmptyPages := 0 |} =
  Finished 8 {| reviews := []; page := 3; hasMorePages := false;
                consecutiveEmptyPages := 0 |}
  /\ @scrapeLoop demoMoment G2 demoStart demoEnd 15
       (fun n => loadedPage (fivePages n)) (fun _ => None) 5 =
     Finished 3
       {| reviews := [ demoReview "2024-02-10"; demoReview "2024-01-15";
                       demoReview "2024-02-10"; demoReview "2024-01-15" ];
          page := 3; hasMorePages := false; consecutiveEmptyPages := 0 |}.
Proof.
  split.
  - apply (proj1 (@early_stop_halts demoMoment demoStart demoEnd 15
                    (fun n => loadedPage (fivePages n)) (fun _ => None)
                    Capterra)
             7%nat {| reviews := []; page := 3; hasMorePages := true;
                      consecutiveEmptyPages := 0 |} oldPage 0%nat).
    + reflexivity.
    + simpl. lia.
    + reflexivity.
    + vm_compute. reflexivity.
  - apply (proj2 (@early_stop_halts demoMoment demoStart demoEnd 15
                    (fun n => loadedPage (fivePages n)) (fun _ => None) G2)
             recentPage recentPage oldPage 2%nat).
    + right. lia.
    + discriminate.
    + discriminate.
    + discriminate.
    + repeat constructor.
    + repeat constructor.
    + repeat constructor.
    + reflexivity.
    + reflexivity.
    + reflexivity.
    + reflexivity.
    + reflexivity.
Defined.

Lemma empty_page_thresholds_witness :
  (0 < fetchedOf (paginate (loopGuard G2 15)
                    (@iterationOf demoMoment demoStart demoEnd G2
                       (fun _ => unreachablePage) (fun _ => None))
                    10 0 initialLoop))%nat
  /\ consecutiveEmptyPages initialLoop < emptyPageThreshold G2.
Proof.
  assert (Hrun : (0 < fetchedOf (paginate (loopGuard G2 15)
                    (@iterationOf demoMoment demoStart demoEnd G2
                       (fun _ => unreachablePage) (fun _ => None))
                    10 0 initialLoop))%nat) by (vm_compute; lia).
  split; [exact Hrun|].
  exact (proj1 empty_page_thresholds G2 15 _ 10%nat 0%nat initialLoop Hrun).
Defined.

(** ** The retrying HTTP fetch *)

Section Fetch.
Variable url : string.
Variable maxRetries : nat.
Variable answers : nat -> Completion Response.
Variable randoms : nat -> Random.

(** [onError] only sleeps: it sends nothing. *)
Lemma onError_events attempt r c error :
  requestsIn (snd (fst (onError maxRetries attempt r c error))) = 0%nat
  /\ (forall x, snd (onError maxRetries attempt r c error) = Return x ->
                x = None
                /\ snd (fst (onError maxRetries attempt r c error)) = []
                /\ clientAfter (onError maxRetries attempt r c error) = c).
Proof.
  unfold onError, clientAfter, sleep.
  destruct (statusIs error 429); [|destruct (statusIs error 403);
    [|destruct (statusIs error 404);
      [|destruct (Z.of_nat attempt =? Z.of_nat maxRetries - 1)]]];
    cbn [fst snd];
    repeat match goal with
           | |- context [if ?b then _ else _] => destruct b
           end;
    cbn; (split; [reflexivity|]);
    intros ret E; inversion E; auto.
Qed.

(** One pass always completes; it returns nothing but [null] or a
    response of status 200, and what it adds to the trace are sleeps. *)
Lemma attemptOnce_normal attempt c :
  exists c' evs step,
    attemptOnce maxRetries answers randoms attempt c = Normal (c', evs, step)
    /\ requestsIn evs = 0%nat
    /\ (forall x, step = Return x ->
          evs = [] /\ c' = c
          /\ (x = None \/ exists resp, x = Some resp /\ status resp = 200)).
Proof.
  unfold attemptOnce, onAnswer.
  assert (Handler : forall error,
    exists c' evs step,
      Normal (onError maxRetries attempt (randoms attempt) c error)
        = Normal (c', evs, step)
      /\ requestsIn evs = 0%nat
      /\ (forall x, step = Return x ->
            evs = [] /\ c' = c
            /\ (x = None \/ exists resp, x = Some resp /\ status resp = 200))).
  { intros error.
    destruct (onError_events attempt (randoms attempt) c error) as [E1 E2].
    destruct (onError maxRetries attempt (randoms attempt) c error)
      as [[c' evs] step].
    exists c', evs, step. cbn [fst snd clientAfter] in *.
    split; [reflexivity|]. split; [exact E1|].
    intros x Hx. destruct (E2 x Hx) as (? & ? & ?). auto. }
  destruct (answers attempt) as [resp|error]; cbn [bind try_catch].
  - destruct (status resp =? 200) eqn:St.
    + unfold dataLength. destruct (data resp); cbn [bind try_catch].
      * exists c, [], (Return (Some resp)).
        split; [reflexivity|]. split; [reflexivity|].
        intros x E; inversion E; subst.
        split; [reflexivity|]. split; [reflexivity|].
        right. exists resp. split; auto. apply Z.eqb_eq. exact St.
      * apply Handler.
    + exists c, [], Continue.
      split; [reflexivity|]. split; [reflexivity|]. discriminate.
  - apply Handler.
Qed.

Lemma safeRequestFrom_total attempts c :
  exists r c' trace,
    safeRequestFrom url maxRetries answers randoms attempts c
      = Normal (r, c', trace)
    /\ (r = None \/ exists resp, r = Some resp /\ status resp = 200).
Proof.
  revert c. induction attempts as [|attempt rest IH]; intros c.
  - exists None, c, []. split; auto.
  - cbn [safeRequestFrom].
    destruct (attemptOnce_normal attempt c) as (c1 & evs & step & E & _ & R).
    rewrite E. cbn [bind]. destruct step as [x|].
    + eexists _, _, _. split; [reflexivity|].
      destruct (R x eq_refl) as (_ & _ & ?). assumption.
    + destruct (IH c1) as (r & c2 & later & E2 & Hr). rewrite E2. cbn [bind].
      eexists _, _, _. split; [reflexivity | exact Hr].
Qed.

(** C10.  Whatever the URL, the number of retries, the outcomes of the
    requests (responses of any status, with or without a body, and
    rejections of any kind) and the random draws, [safeRequest] completes
    normally -- it does not throw -- and what it returns is [null] or a
    response whose status is exactly 200. *)
Theorem safeRequest_total (c : Client) :
  exists r c' trace,
    safeRequest url maxRetries answers randoms c = Normal (r, c', trace)
    /\ (r = None \/ exists resp, r = Some resp /\ status resp = 200).
Proof. apply safeRequestFrom_total. Qed.

Lemma requestsIn_app (t1 t2 : list Event) :
  requestsIn (t1 ++ t2) = (requestsIn t1 + requestsIn t2)%nat.
Proof. unfold requestsIn. rewrite filter_app, length_app. reflexivity. Qed.

Lemma statusIs_unique error code code' :
  statusIs error code = true -> code' <> code -> statusIs error code' = false.
Proof.
  unfold statusIs. destruct (response error) as [r|]; [|discriminate].
  intros E Hne. apply Z.eqb_eq in E. apply Z.eqb_neq. congruence.
Qed.

(** *** 404 *)

Lemma attemptOnce_404 attempt c error :
  answers attempt = Throw error -> statusIs error 404 = true ->
  attemptOnce maxRetries answers randoms attempt c = Normal (c, [], Return None).
Proof.
  intros A E. unfold attemptOnce, onAnswer. rewrite A. cbn [bind try_catch].
  unfold onError.
  rewrite (statusIs_unique error 404 429 E) by lia.
  rewrite (statusIs_unique error 404 403 E) by lia.
  rewrite E. reflexivity.
Qed.

Lemma not_found_from (a : nat) error :
  (a < maxRetries)%nat ->
  answers a = Throw error -> statusIs error 404 = true ->
  (forall i c0, (i < a)%nat -> exists c1 evs,
      attemptOnce maxRetries answers randoms i c0 = Normal (c1, evs, Continue)) ->
  forall d k c, (k + d = a)%nat ->
  exists c' before,
    safeRequestFrom url maxRetries answers randoms
      (seq k (maxRetries - k)) c =
    Normal (None, c', before ++ [Requested url (userAgent c')])
    /\ requestsIn (before ++ [Requested url (userAgent c')]) = S d.
Proof.
  intros Ha A E Prev. induction d as [|d IH]; intros k c Hk.
  - assert (k = a) by lia. subst k.
    replace (maxRetries - a)%nat with (S (maxRetries - S a)) by lia.
    cbn [seq safeRequestFrom].
    rewrite (attemptOnce_404 a c error A E). cbn [bind].
    exists c, [Slept (sleep c None)]. split; reflexivity.
  - replace (maxRetries - k)%nat with (S (maxRetries - S k)) by lia.
    cbn [seq safeRequestFrom].
    destruct (Prev k c ltac:(lia)) as (c1 & evs & Ek). rewrite Ek.
    cbn [bind].
    destruct (IH (S k) c1 ltac:(lia)) as (c' & before & Er & Hn).
    rewrite Er. cbn [bind].
    exists c', ([Slept (sleep c None); Requested url (userAgent c)]
                ++ evs ++ before).
    split.
    + rewrite <- !app_assoc. reflexivity.
    + destruct (attemptOnce_normal k c) as (c1' & evs' & step' & E' & Hz & _).
      rewrite Ek in E'. inversion E'; subst.
      rewrite <- !app_assoc.
      rewrite requestsIn_app with (t1 := [_; _]).
      rewrite requestsIn_app, Hz, Hn. reflexivity.
Qed.

(** C4.  When attempt [a] -- any attempt the loop gets to, whatever the
    number of retries left -- is rejected with status 404, [safeRequest]
    returns [null] and sends nothing more: its trace ends with the request
    of attempt [a], with no wait after it, and holds exactly [a + 1]
    requests. *)
Theorem not_found_returns_at_once (c : Client) (a : nat) error :
  (a < maxRetries)%nat ->
  answers a = Throw error -> statusIs error 404 = true ->
  (forall i c0, (i < a)%nat -> exists c1 evs,
      attemptOnce maxRetries answers randoms i c0 = Normal (c1, evs, Continue)) ->
  exists c' before,
    safeRequest url maxRetries answers randoms c =
    Normal (None, c', before ++ [Requested url (userAgent c')])
    /\ requestsIn (before ++ [Requested url (userAgent c')]) = S a.
Proof.
  intros Ha A E Prev. unfold safeRequest.
  pose proof (not_found_from a error Ha A E Prev a 0%nat c eq_refl) as P.
  rewrite Nat.sub_0_r in P. exact P.
Qed.

(** *** 429 *)

Lemma attemptOnce_429 attempt c error :
  answers attempt = Throw error -> statusIs error 429 = true ->
  attemptOnce maxRetries answers randoms attempt c =
  Normal (c, [Slept (Exactly (2 ^ Z.of_nat attempt * 2000))], Continue).
Proof.
  intros A E. unfold attemptOnce, onAnswer. rewrite A. cbn [bind try_catch].
  unfold onError. rewrite E. unfold sleep.
  assert (0 < 2 ^ Z.of_nat attempt) by (apply Z.pow_pos_nonneg; lia).
  destruct (2 ^ Z.of_nat attempt * 2000 =? 0) eqn:Z0; [|reflexivity].
  apply Z.eqb_eq in Z0. lia.
Qed.

Lemma attemptOnce_200 attempt c r body :
  answers attempt = Normal r -> status r = 200 -> data r = Some body ->
  attemptOnce maxRetries answers randoms attempt c =
  Normal (c, [], Return (Some r)).
Proof.
  intros A S D. unfold attemptOnce, onAnswer, dataLength.
  rewrite A. cbn [bind try_catch]. rewrite S, D. reflexivity.
Qed.

(** C5.  When the first two requests are rejected with status 429 and the
    third is answered with status 200 (and a body), [safeRequest] sends
    three requests, waits twice for a fixed time -- 2^0 * 2000 ms after the
    first rejection and 2^1 * 2000 ms after the second, the second wait
    longer than the first -- and returns the one successful response; the
    only other sleeps are the jittered courtesy sleeps before each
    request. *)
Theorem backoff_429_429_200 (c : Client) e1 e2 r body :
  (3 <= maxRetries)%nat ->
  answers 0%nat = Throw e1 -> statusIs e1 429 = true ->
  answers 1%nat = Throw e2 -> statusIs e2 429 = true ->
  answers 2%nat = Normal r -> status r = 200 -> data r = Some body ->
  exists trace,
    safeRequest url maxRetries answers randoms c = Normal (Some r, c, trace)
    /\ trace =
       [ Slept (Jittered (delay c)); Requested url (userAgent c);
         Slept (Exactly 2000);
         Slept (Jittered (delay c)); Requested url (userAgent c);
         Slept (Exactly 4000);
         Slept (Jittered (delay c)); Requested url (userAgent c) ]
    /\ fixedWaits trace = [2 ^ 0 * 2000; 2 ^ 1 * 2000]
    /\ 2 ^ 0 * 2000 < 2 ^ 1 * 2000
    /\ requestsIn trace = 3%nat.
Proof.
  intros HM A0 E0 A1 E1 A2 S2 D2.
  destruct maxRetries as [|[|[|m]]] eqn:EM; try lia.
  eexists. split; [|split; [reflexivity|]].
  - unfold safeRequest. cbn [seq safeRequestFrom].
    rewrite <- EM.
    rewrite (attemptOnce_429 0 c e1 A0 E0). cbn [bind].
    rewrite (attemptOnce_429 1 c e2 A1 E1). cbn [bind].
    rewrite (attemptOnce_200 2 c r body A2 S2 D2). cbn [bind].
    reflexivity.
  - cbn. repeat split; lia.
Qed.

(** *** 403 *)

Lemma floorTimes_lt (r : Random) (n : nat) :
  (0 < n)%nat -> (floorTimes r n < n)%nat.
Proof.
  intros Hn. unfold floorTimes. destruct r as [p q U]. cbn [num den].
  apply andb_true_iff in U. destruct U as [U1 U2].
  apply Z.leb_le in U1. apply Z.ltb_lt in U2.
  apply Nat2Z.inj_lt. rewrite Z2Nat.id.
  - apply Z.div_lt_upper_bound; nia.
  - apply Z.div_pos; nia.
Qed.

Lemma getRandomUserAgent_in_pool (r : Random) :
  In (getRandomUserAgent r) userAgents.
Proof.
  unfold getRandomUserAgent. apply nth_In. apply floorTimes_lt.
  cbn. lia.
Qed.

(** A pass leaves the client alone unless its request is rejected with
    status 403. *)
Lemma attemptOnce_client attempt c c' evs step :
  attemptOnce maxRetries answers randoms attempt c = Normal (c', evs, step) ->
  (forall e, answers attempt = Throw e -> statusIs e 403 = false) ->
  c' = c.
Proof.
  unfold attemptOnce, onAnswer. intros E No.
  assert (Handler : forall error, statusIs error 403 = false ->
            clientAfter (onError maxRetries attempt (randoms attempt) c error)
            = c).
  { intros error F. unfold onError. rewrite F.
    repeat match goal with
           | |- context [if ?b then _ else _] => destruct b
           end; reflexivity. }
  destruct (answers attempt) as [resp|error]; cbn [bind try_catch] in E.
  - destruct (status resp =? 200).
    + unfold dataLength in E. destruct (data resp); cbn [bind try_catch] in E.
      * inversion E; reflexivity.
      * inversion E as [E'].
        match type of E' with
        | onError _ _ _ _ ?err = _ => pose proof (Handler err eq_refl) as Hh
        end.
        rewrite E' in Hh. exact Hh.
    + inversion E; reflexivity.
  - inversion E as [E'].
    pose proof (Handler error (No error eq_refl)) as Hh.
    rewrite E' in Hh. exact Hh.
Qed.

Lemma safeRequestFrom_client attempts :
  (forall i e, In i attempts -> answers i = Throw e ->
               statusIs e 403 = false) ->
  forall c r c' trace,
    safeRequestFrom url maxRetries answers randoms attempts c
      = Normal (r, c', trace) ->
    c' = c.
Proof.
  induction attempts as [|attempt rest IH]; intros No c r c' trace.
  - cbn. intros E; inversion E; reflexivity.
  - cbn [safeRequestFrom].
    destruct (attemptOnce maxRetries answers randoms attempt c)
      as [[[c1 evs] step]|e] eqn:E1; cbn [bind]; [|discriminate].
    assert (c1 = c).
    { eapply attemptOnce_client; [exact E1|].
      intros e. apply No. left; reflexivity. }
    subst c1. destruct step as [x|].
    + intros E; inversion E; reflexivity.
    + destruct (safeRequestFrom url maxRetries answers randoms rest c)
        as [[[r2 c2] later]|e] eqn:E2; cbn [bind]; [|discriminate].
      intros E; inversion E; subst.
      eapply IH; [|exact E2].
      intros i e Hi. apply No. right; exact Hi.
Qed.

(** Whatever a pass does, the client keeps its delay, and its agent is
    the one it had or the one drawn in this pass. *)
Lemma attemptOnce_agent attempt c c' evs step :
  attemptOnce maxRetries answers randoms attempt c = Normal (c', evs, step) ->
  delay c' = delay c
  /\ (userAgent c' = userAgent c
      \/ userAgent c' = getRandomUserAgent (randoms attempt)).
Proof.
  unfold attemptOnce, onAnswer. intros E.
  assert (Handler : forall error,
            Normal (onError maxRetries attempt (randoms attempt) c error)
            = Normal (c', evs, step) ->
            delay c' = delay c
            /\ (userAgent c' = userAgent c
                \/ userAgent c' = getRandomUserAgent (randoms attempt))).
  { intros error. unfold onError.
    repeat match goal with
           | |- context [if ?b then _ else _] => destruct b
           end; intros E'; inversion E'; subst; cbn; auto. }
  destruct (answers attempt) as [resp|error]; cbn [bind try_catch] in E.
  - destruct (status resp =? 200).
    + unfold dataLength in E. destruct (data resp); cbn [bind try_catch] in E.
      * inversion E; subst; auto.
      * eapply Handler; exact E.
    + inversion E; subst; auto.
  - eapply Handler; exact E.
Qed.

Lemma safeRequestFrom_agent attempts :
  forall c r c' trace,
    safeRequestFrom url maxRetries answers randoms attempts c
      = Normal (r, c', trace) ->
    delay c' = delay c
    /\ (userAgent c' = userAgent c \/ In (userAgent c') userAgents).
Proof.
  induction attempts as [|attempt rest IH]; intros c r c' trace.
  - cbn. intros E; inversion E; subst; auto.
  - cbn [safeRequestFrom].
    destruct (attemptOnce maxRetries answers randoms attempt c)
      as [[[c1 evs] step]|e] eqn:E1; cbn [bind]; [|discriminate].
    apply attemptOnce_agent in E1. destruct E1 as [D1 A1].
    assert (A1' : userAgent c1 = userAgent c \/ In (userAgent c1) userAgents).
    { destruct A1 as [A1|A1]; [left; exact A1|].
      right. rewrite A1. apply getRandomUserAgent_in_pool. }
    destruct step as [x|].
    + intros E; inversion E; subst; auto.
    + destruct (safeRequestFrom url maxRetries answers randoms rest c1)
        as [[[r2 c2] later]|e] eqn:E2; cbn [bind]; [|discriminate].
      intros E; inversion E; subst.
      apply IH in E2. destruct E2 as [D2 A2]. split; [congruence|].
      destruct A2 as [A2|A2]; [|right; exact A2].
      rewrite A2. exact A1'.
Qed.

(** A request rejected with status 403: the agent is drawn anew, the call
    sleeps 3000 ms, and the loop goes on. *)
Lemma attemptOnce_403 attempt c error :
  answers attempt = Throw error -> statusIs error 403 = true ->
  attemptOnce maxRetries answers randoms attempt c =
  Normal ({| delay := delay c;
             userAgent := getRandomUserAgent (randoms attempt) |},
          [Slept (Exactly 3000)], Continue).
Proof.
  intros A E. unfold attemptOnce, onAnswer. rewrite A. cbn [bind try_catch].
  unfold onError.
  rewrite (statusIs_unique error 403 429 E) by lia. rewrite E. reflexivity.
Qed.

(** What the loop does after attempt [k] went on: with an attempt left, it
    starts with the courtesy sleep and the request of attempt [k + 1], sent
    with the agent the client has then; with none left, it does nothing and
    the call returns [null]. *)
Lemma safeRequestFrom_next k c :
  exists r c' trace,
    safeRequestFrom url maxRetries answers randoms
      (seq (S k) (maxRetries - S k)) c = Normal (r, c', trace)
    /\ ((S k < maxRetries)%nat -> exists later,
          trace = Slept (Jittered (delay c))
                  :: Requested url (userAgent c) :: later)
    /\ ((maxRetries <= S k)%nat -> trace = [] /\ r = None /\ c' = c).
Proof.
  destruct (maxRetries - S k)%nat as [|m] eqn:M.
  - exists None, c, []. split; [reflexivity|]. split; [lia | auto].
  - cbn [seq safeRequestFrom].
    destruct (attemptOnce_normal (S k) c) as (c1 & evs & step & E & _).
    rewrite E. cbn [bind]. destruct step as [x|].
    + eexists _, _, _. split; [reflexivity|]. split; [|lia].
      intros _. eexists. reflexivity.
    + destruct (safeRequestFrom_total (seq (S (S k)) m) c1)
        as (r & c2 & later & E2 & _).
      rewrite E2. cbn [bind].
      eexists _, _, _. split; [reflexivity|]. split; [|lia].
      intros _. eexists. reflexivity.
Qed.

Lemma forbidden_from (a : nat) error :
  (a < maxRetries)%nat ->
  answers a = Throw error -> statusIs error 403 = true ->
  (forall i c0, (i < a)%nat -> exists c1 evs,
      attemptOnce maxRetries answers randoms i c0 = Normal (c1, evs, Continue)) ->
  forall d k c, (k + d = a)%nat ->
  exists r c' before agent after,
    safeRequestFrom url maxRetries answers randoms
      (seq k (maxRetries - k)) c =
    Normal (r, c',
            before ++ [Requested url agent; Slept (Exactly 3000)] ++ after)
    /\ requestsIn before = d
    /\ ((S a < maxRetries)%nat -> exists later,
          after = Slept (Jittered (delay c))
                  :: Requested url (getRandomUserAgent (randoms a)) :: later)
    /\ ((S a = maxRetries)%nat ->
          after = [] /\ r = None
          /\ c' = {| delay := delay c;
                     userAgent := getRandomUserAgent (randoms a) |}).
Proof.
  intros Ha A E Prev. induction d as [|d IH]; intros k c Hk.
  - assert (k = a) by lia. subst k.
    replace (maxRetries - a)%nat with (S (maxRetries - S a)) by lia.
    cbn [seq safeRequestFrom].
    rewrite (attemptOnce_403 a c error A E). cbn [bind].
    destruct (safeRequestFrom_next a
                {| delay := delay c;
                   userAgent := getRandomUserAgent (randoms a) |})
      as (r & c' & later & E2 & More & Last).
    rewrite E2. cbn [bind].
    exists r, c', [Slept (sleep c None)], (userAgent c), later.
    split; [reflexivity|]. split; [reflexivity|]. split.
    + intros Hm. exact (More Hm).
    + intros Hm. apply Last. lia.
  - replace (maxRetries - k)%nat with (S (maxRetries - S k)) by lia.
    cbn [seq safeRequestFrom].
    destruct (Prev k c ltac:(lia)) as (c1 & evs & Ek). rewrite Ek.
    cbn [bind].
    destruct (attemptOnce_agent k c c1 evs Continue Ek) as [D1 _].
    destruct (IH (S k) c1 ltac:(lia))
      as (r & c' & before & agent & after & Er & Hn & More & Last).
    rewrite Er. cbn [bind].
    exists r, c',
      ([Slept (sleep c None); Requested url (userAgent c)] ++ evs ++ before),
      agent, after.
    split; [rewrite <- !app_assoc; reflexivity|]. split.
    + destruct (attemptOnce_normal k c) as (c1' & evs' & step' & E' & Hz & _).
      rewrite Ek in E'. inversion E'; subst.
      rewrite requestsIn_app with (t1 := [_; _]).
      rewrite requestsIn_app, Hz. reflexivity.
    + rewrite <- D1. split; assumption.
Qed.

(** C6, as amended.  (1) When a request is rejected with status 403, the
    client's user agent becomes the entry of the fixed pool of four that
    [Math.random()] picks -- which may be the agent already in use -- and
    the call sleeps 3000 ms and leaves the [catch] block.  (2, 3) The agent
    stays on the client: a call of [safeRequest] in which no request is
    rejected with 403 hands the client back as it received it, and any
    call hands it back with the agent it came with or with an agent of the
    pool.  (4) In the call as a whole, the request of an attempt [a] that is
    rejected with 403 is followed by that wait of 3000 ms; when an attempt
    is left, the courtesy sleep and the next request follow, sent with the
    agent just drawn; when [a] was the last attempt, nothing follows: the
    call returns [null] with the drawn agent on the client and no request
    made with it. *)
Theorem rotation_draws_from_pool :
  (forall attempt r c error,
      statusIs error 403 = true ->
      onError maxRetries attempt r c error =
      ({| delay := delay c; userAgent := getRandomUserAgent r |},
       [Slept (Exactly 3000)], Continue)
      /\ In (getRandomUserAgent r) userAgents)
  /\ (forall c r c' trace,
      safeRequest url maxRetries answers randoms c = Normal (r, c', trace) ->
      (forall i e, (i < maxRetries)%nat -> answers i = Throw e ->
                   statusIs e 403 = false) ->
      c' = c)
  /\ (forall c r c' trace,
      safeRequest url maxRetries answers randoms c = Normal (r, c', trace) ->
      delay c' = delay c
      /\ (userAgent c' = userAgent c \/ In (userAgent c') userAgents))
  /\ (forall c a error,
      (a < maxRetries)%nat ->
      answers a = Throw error -> statusIs error 403 = true ->
      (forall i c0, (i < a)%nat -> exists c1 evs,
          attemptOnce maxRetries answers randoms i c0
          = Normal (c1, evs, Continue)) ->
      exists r c' before agent after,
        safeRequest url maxRetries answers randoms c =
        Normal (r, c',
                before ++ [Requested url agent; Slept (Exactly 3000)]
                       ++ after)
        /\ requestsIn before = a
        /\ ((S a < maxRetries)%nat -> exists later,
              after = Slept (Jittered (delay c))
                      :: Requested url (getRandomUserAgent (randoms a))
                      :: later)
        /\ ((S a = maxRetries)%nat ->
              after = [] /\ r = None
              /\ c' = {| delay := delay c;
                         userAgent := getRandomUserAgent (randoms a) |})).
Proof.
  split; [|split; [|split]].
  - intros attempt r c error E. split; [|apply getRandomUserAgent_in_pool].
    unfold onError.
    rewrite (statusIs_unique error 403 429 E) by lia. rewrite E.
    reflexivity.
  - intros c r c' trace E No. unfold safeRequest in E.
    eapply safeRequestFrom_client; [|exact E].
    intros i e Hi. apply No. apply in_seq in Hi. lia.
  - intros c r c' trace E. unfold safeRequest in E.
    eapply safeRequestFrom_agent; exact E.
  - intros c a error Ha A E Prev. unfold safeRequest.
    pose proof (forbidden_from a error Ha A E Prev a 0%nat c eq_refl) as P.
    rewrite Nat.sub_0_r in P. exact P.
Qed.

End Fetch.

(** C6 as stated fails: a rotation can select the agent already in use.
    On a fresh client, whose agent is the first of the pool, a draw of 0
    selects that same agent. *)
Lemma rotation_can_reselect_current_agent :
  ~ (forall maxRetries attempt r c error,
        statusIs error 403 = true ->
        userAgent (clientAfter (onError maxRetries attempt r c error))
        <> userAgent c).
Proof.
  intros C.
  apply (C 3%nat 0%nat randomZero (newClient 2500)
           {| message := "Request failed";
              response := Some {| status := 403; data := Some "" |} |}
           eq_refl).
  reflexivity.
Qed.

Example not_found_on_second_attempt :
  safeRequest "https://www.trustpilot.com/review/acme.com" 3
    (scripted [rejected 500; rejected 404; Normal servedPage])
    (fun _ => randomZero) (newClient 2500) =
  Normal (None, newClient 2500,
          [ Slept (Jittered 2500);
            Requested "https://www.trustpilot.com/review/acme.com"
              (userAgent (newClient 2500));
            Slept (Exactly 2000);
            Slept (Jittered 2500);
            Requested "https://www.trustpilot.com/review/acme.com"
              (userAgent (newClient 2500)) ]).
Proof. reflexivity. Qed.

Lemma not_found_returns_at_once_witness :
  exists c' before,
    safeRequest "https://www.trustpilot.com/review/acme.com" 3
      (scripted [rejected 500; rejected 404; Normal servedPage])
      (fun _ => randomZero) (newClient 2500) =
    Normal (None, c',
            before ++ [Requested "https://www.trustpilot.com/review/acme.com"
                         (userAgent c')])
    /\ requestsIn
         (before ++ [Requested "https://www.trustpilot.com/review/acme.com"
                       (userAgent c')]) = 2%nat.
Proof.
  apply (not_found_returns_at_once
           "https://www.trustpilot.com/review/acme.com" 3
           (scripted [rejected 500; rejected 404; Normal servedPage])
           (fun _ => randomZero) (newClient 2500) 1
           {| message := "Request failed";
              response := Some {| status := 404; data := Some "" |} |}).
  - lia.
  - reflexivity.
  - reflexivity.
  - intros i c0 Hi. assert (i = 0%nat) by lia. subst i.
    eexists _, _. reflexivity.
Defined.

Lemma backoff_429_429_200_witness :
  exists trace,
    safeRequest "https://www.trustpilot.com/review/acme.com" 3
      (scripted [rejected 429; rejected 429; Normal servedPage])
      (fun _ => randomZero) (newClient 2500) =
    Normal (Some servedPage, newClient 2500, trace)
    /\ trace =
       [ Slept (Jittered 2500);
         Requested "https://www.trustpilot.com/review/acme.com"
           (userAgent (newClient 2500));
         Slept (Exactly 2000);
         Slept (Jittered 2500);
         Requested "https://www.trustpilot.com/review/acme.com"
           (userAgent (newClient 2500));
         Slept (Exactly 4000);
         Slept (Jittered 2500);
         Requested "https://www.trustpilot.com/review/acme.com"
           (userAgent (newClient 2500)) ]
    /\ fixedWaits trace = [2 ^ 0 * 2000; 2 ^ 1 * 2000]
    /\ 2 ^ 0 * 2000 < 2 ^ 1 * 2000
    /\ requestsIn trace = 3%nat.
Proof.
  apply (backoff_429_429_200
           "https://www.trustpilot.com/review/acme.com" 3
           (scripted [rejected 429; rejected 429; Normal servedPage])
           (fun _ => randomZero) (newClient 2500)
           {| message := "Request failed";
              response := Some {| status := 429; data := Some "" |} |}
           {| message := "Request failed";
              response := Some {| status := 429; data := Some "" |} |}
           servedPage "<html><body>reviews</body></html>").
  - lia.
  - reflexivity.
  - reflexivity.
  - reflexivity.
  - reflexivity.
  - reflexivity.
  - reflexivity.
  - reflexivity.
Defined.

(** A 403 answered by a draw of 0 on a fresh client: the second request
    goes out with the agent of the first. *)
Example forbidden_then_same_agent :
  safeRequest "https://www.trustpilot.com/review/acme.com" 3
    (scripted [rejected 403; Normal servedPage])
    (fun _ => randomZero) (newClient 2500) =
  Normal (Some servedPage, newClient 2500,
          [ Slept (Jittered 2500);
            Requested "https://www.trustpilot.com/review/acme.com"
              (userAgent (newClient 2500));
            Slept (Exactly 3000);
            Slept (Jittered 2500);
            Requested "https://www.trustpilot.com/review/acme.com"
              (userAgent (newClient 2500)) ]).
Proof. reflexivity. Qed.

(** A 403 on the last attempt: the agent is drawn and the call sleeps
    3000 ms, then returns [null]; no request goes out with the new agent. *)
Example forbidden_on_last_attempt :
  safeRequest "https://www.trustpilot.com/review/acme.com" 1
    (scripted [rejected 403])
    (fun _ => randomThreeQuarters) (newClient 2500) =
  Normal (None,
          {| delay := 2500;
             userAgent := getRandomUserAgent randomThreeQuarters |},
          [ Slept (Jittered 2500);
            Requested "https://www.trustpilot.com/review/acme.com"
              (userAgent (newClient 2500));
            Slept (Exactly 3000) ]).
Proof. reflexivity. Qed.

Lemma rotation_draws_from_pool_witness :
  (onError 3 0 randomThreeQuarters (newClient 2500)
     {| message := "Request failed";
        response := Some {| status := 403; data := Some "" |} |} =
   ({| delay := 2500;
       userAgent := "Mozilla/5.0 (Macintosh; Intel Mac OS X 10_15_7) AppleWebKit/605.1.15 (KHTML, like Gecko) Version/17.1 Safari/605.1.15" |},
    [Slept (Exactly 3000)], Continue)
   /\ In (getRandomUserAgent randomThreeQuarters) userAgents
   /\ newClient 2500 = newClient 2500)
  /\ exists r c' before agent after,
       safeRequest "https://www.trustpilot.com/review/acme.com" 3
         (scripted [rejected 500; rejected 403; Normal servedPage])
         (fun _ => randomThreeQuarters) (newClient 2500) =
       Normal (r, c',
               before
               ++ [Requested "https://www.trustpilot.com/review/acme.com"
                     agent;
                   Slept (Exactly 3000)]
               ++ after)
       /\ requestsIn before = 1%nat
       /\ ((2 < 3)%nat -> exists later,
             after = Slept (Jittered (delay (newClient 2500)))
                     :: Requested "https://www.trustpilot.com/review/acme.com"
                          (getRandomUserAgent randomThreeQuarters)
                     :: later)
       /\ ((2 = 3)%nat ->
             after = [] /\ r = None
             /\ c' = {| delay := delay (newClient 2500);
                        userAgent :=
                          getRandomUserAgent randomThreeQuarters |}).
Proof.
  pose proof (rotation_draws_from_pool
                "https://www.trustpilot.com/review/acme.com" 3
                (scripted [rejected 429; rejected 429; Normal servedPage])
                (fun _ => randomZero)) as (Rot & Keep & _).
  pose proof (rotation_draws_from_pool
                "https://www.trustpilot.com/review/acme.com" 3
                (scripted [rejected 500; rejected 403; Normal servedPage])
                (fun _ => randomThreeQuarters)) as (_ & _ & _ & Next).
  split; [split; [|split]|].
  - exact (proj1 (Rot 0%nat randomThreeQuarters (newClient 2500)
                    {| message := "Request failed";
                       response := Some {| status := 403;
                                           data := Some "" |} |}
                    eq_refl)).
  - exact (proj2 (Rot 0%nat randomThreeQuarters (newClient 2500)
                    {| message := "Request failed";
                       response := Some {| status := 403;
                                           data := Some "" |} |}
                    eq_refl)).
  - symmetry.
    apply (Keep (newClient 2500) (Some servedPage) (newClient 2500)
             [ Slept (Jittered 2500);
               Requested "https://www.trustpilot.com/review/acme.com"
                 (userAgent (newClient 2500));
               Slept (Exactly 2000);
               Slept (Jittered 2500);
               Requested "https://www.trustpilot.com/review/acme.com"
                 (userAgent (newClient 2500));
               Slept (Exactly 4000);
               Slept (Jittered 2500);
               Requested "https://www.trustpilot.com/review/acme.com"
                 (userAgent (newClient 2500)) ]).
    + reflexivity.
    + intros i e Hi.
      destruct i as [|[|[|i]]]; try lia; cbn; intros E; inversion E;
        reflexivity.
  - apply (Next (newClient 2500) 1%nat
             {| message := "Request failed";
                response := Some {| status := 403; data := Some "" |} |}).
    + lia.
    + reflexivity.
    + reflexivity.
    + intros i c0 Hi. assert (i = 0%nat) by lia. subst i.
      eexists _, _. reflexivity.
Defined.

(** A response of status 200 whose body is [null], then a 204, then a
    network error: [null], without an exception. *)
Example safeRequest_absorbs_errors :
  safeRequest "https://www.trustpilot.com/review/acme.com" 3
    (scripted [ Normal {| status := 200; data := None |};
                Normal {| status := 204; data := Some "" |} ])
    (fun _ => randomZero) (newClient 2500) =
  Normal (None, newClient 2500,
          [ Slept (Jittered 2500);
            Requested "https://www.trustpilot.com/review/acme.com"
              (userAgent (newClient 2500));
            Slept (Exactly 2000);
            Slept (Jittered 2500);
            Requested "https://www.trustpilot.com/review/acme.com"
              (userAgent (newClient 2500));
            Slept (Jittered 2500);
            Requested "https://www.trustpilot.com/review/acme.com"
              (userAgent (newClient 2500)) ]).
Proof. reflexivity. Qed.

(** ** The browser session *)

(** An attach that is answered with a connection without a context, or
    with one whose first context has no page and opens none, counts as
    failed; [this.browser] is the new connection by then. *)
Lemma connectToExistingChrome_unusable b s :
  contexts b = []
  \/ (exists context others e,
        contexts b = context :: others
        /\ contextPages context = [] /\ newPage context = Throw e) ->
  connectToExistingChrome (Normal b) s =
  (false, {| this_browser := Some b; this_page := this_page s |}).
Proof.
  unfold connectToExistingChrome.
  intros [C|(context & others & e & C & P & N)]; rewrite C;
    [|rewrite P, N]; reflexivity.
Qed.

Lemma connectToExistingChrome_usable b s context others p :
  contexts b = context :: others ->
  (exists more, contextPages context = p :: more)
  \/ (contextPages context = [] /\ newPage context = Normal p) ->
  connectToExistingChrome (Normal b) s =
  (true, {| this_browser := Some b; this_page := Some p |}).
Proof.
  unfold connectToExistingChrome. intros C P. rewrite C.
  destruct P as [[more P]|[P N]]; rewrite P; [|rewrite N]; reflexivity.
Qed.

(** A failed attach leaves [this.page] as it was. *)
Lemma connectToExistingChrome_failed attach s :
  fst (connectToExistingChrome attach s) = false ->
  this_page (snd (connectToExistingChrome attach s)) = this_page s.
Proof.
  unfold connectToExistingChrome.
  destruct attach as [b|e]; [|reflexivity].
  destruct (contexts b) as [|context others]; [reflexivity|].
  destruct (contextPages context) as [|p more]; [|discriminate].
  destruct (newPage context); [discriminate | reflexivity].
Qed.

(** C7, as amended.  [initializeBrowser] attaches to Chrome anew on every
    call, whatever session the scraper holds.  An attach succeeds when it
    is answered with a connection that has a context whose first page
    exists or that opens a page on request.  (1) When the first attach
    succeeds, the scraper's browser becomes that connection and its page
    that page.  (2) When the first attach is rejected and either no Chrome
    executable is found or the second attach is rejected too, the call
    throws and the scraper's session is left as it was.  (3) When the first
    attach is answered but does not succeed, and again no executable is
    found or the second attach is rejected, the call throws; the scraper's
    page is as it was but its browser is the connection just answered.
    (4) When the first attach does not succeed, an executable is found and
    the second attach succeeds, the scraper's browser and page become those
    of the second attach.  (5) When the second attach is answered but does
    not succeed, the call throws; the page is as it was and the browser is
    the connection of the second attach. *)
Theorem initializeBrowser_reattaches :
  (forall w s b context others p,
      firstAttach w = Normal b ->
      contexts b = context :: others ->
      (exists more, contextPages context = p :: more)
      \/ (contextPages context = [] /\ newPage context = Normal p) ->
      initializeBrowser w s =
      (Normal true, {| this_browser := Some b; this_page := Some p |}))
  /\ (forall w s e1,
      firstAttach w = Throw e1 ->
      findChromeExecutable (candidatePaths w) (accessible w) = None
      \/ (exists e2, secondAttach w = Throw e2) ->
      initializeBrowser w s =
      (Throw (plainError "Could not connect to Chrome"), s))
  /\ (forall w s b,
      firstAttach w = Normal b ->
      contexts b = []
      \/ (exists context others e,
            contexts b = context :: others
            /\ contextPages context = [] /\ newPage context = Throw e) ->
      findChromeExecutable (candidatePaths w) (accessible w) = None
      \/ (exists e2, secondAttach w = Throw e2) ->
      initializeBrowser w s =
      (Throw (plainError "Could not connect to Chrome"),
       {| this_browser := Some b; this_page := this_page s |}))
  /\ (forall w s path b2 context others p,
      fst (connectToExistingChrome (firstAttach w) s) = false ->
      findChromeExecutable (candidatePaths w) (accessible w) = Some path ->
      secondAttach w = Normal b2 ->
      contexts b2 = context :: others ->
      (exists more, contextPages context = p :: more)
      \/ (contextPages context = [] /\ newPage context = Normal p) ->
      initializeBrowser w s =
      (Normal true, {| this_browser := Some b2; this_page := Some p |}))
  /\ (forall w s path b2,
      fst (connectToExistingChrome (firstAttach w) s) = false ->
      findChromeExecutable (candidatePaths w) (accessible w) = Some path ->
      secondAttach w = Normal b2 ->
      contexts b2 = []
      \/ (exists context others e,
            contexts b2 = context :: others
            /\ contextPages context = [] /\ newPage context = Throw e) ->
      initializeBrowser w s =
      (Throw (plainError "Could not connect to Chrome"),
       {| this_browser := Some b2; this_page := this_page s |})).
Proof.
  split; [|split; [|split; [|split]]].
  - intros w s b context others p A C P.
    unfold initializeBrowser, connectToExistingChrome. rewrite A, C.
    destruct P as [[more P]|[P N]]; rewrite P; [|rewrite N]; reflexivity.
  - intros w s e1 A F.
    unfold initializeBrowser, connectToExistingChrome. rewrite A.
    cbn [negb]. destruct F as [F|[e2 F]].
    + rewrite F. reflexivity.
    + rewrite F. destruct (findChromeExecutable _ _); reflexivity.
  - intros w s b A U F. unfold initializeBrowser.
    rewrite A, (connectToExistingChrome_unusable b s U). cbn [negb].
    destruct F as [F|[e2 F]].
    + rewrite F. reflexivity.
    + rewrite F. destruct (findChromeExecutable _ _); reflexivity.
  - intros w s path b2 context others p F1 X A2 C P.
    unfold initializeBrowser.
    destruct (connectToExistingChrome (firstAttach w) s) as [ok s1].
    cbn [fst] in F1. subst ok. cbn [negb]. rewrite X, A2.
    rewrite (connectToExistingChrome_usable b2 s1 context others p C P).
    reflexivity.
  - intros w s path b2 F1 X A2 U.
    pose proof (connectToExistingChrome_failed (firstAttach w) s F1) as Pg.
    unfold initializeBrowser.
    destruct (connectToExistingChrome (firstAttach w) s) as [ok s1].
    cbn [fst snd] in F1, Pg. subst ok. cbn [negb]. rewrite X, A2.
    rewrite (connectToExistingChrome_unusable b2 s1 U). cbn [negb].
    rewrite Pg. reflexivity.
Qed.

Lemma initializeBrowser_reattaches_witness :
  (initializeBrowser (chromeAnswering secondBrowser)
     {| this_browser := Some firstBrowser; this_page := Some 10%nat |} =
   (Normal true,
    {| this_browser := Some secondBrowser; this_page := Some 20%nat |})
   /\ initializeBrowser chromeGone
        {| this_browser := Some firstBrowser; this_page := Some 10%nat |} =
      (Throw (plainError "Could not connect to Chrome"),
       {| this_browser := Some firstBrowser; this_page := Some 10%nat |}))
  /\ initializeBrowser
       {| firstAttach := Normal {| connection := 3; contexts := [] |};
          candidatePaths := []; accessible := fun _ => false;
          secondAttach :=
            Throw (plainError "connect ECONNREFUSED 127.0.0.1:9222") |}
       {| this_browser := Some firstBrowser; this_page := Some 10%nat |} =
     (Throw (plainError "Could not connect to Chrome"),
      {| this_browser := Some {| connection := 3; contexts := [] |};
         this_page := Some 10%nat |})
  /\ initializeBrowser
       {| firstAttach :=
            Throw (plainError "connect ECONNREFUSED 127.0.0.1:9222");
          candidatePaths := ["/usr/bin/google-chrome"];
          accessible := fun _ => true;
          secondAttach := Normal secondBrowser |}
       {| this_browser := Some firstBrowser; this_page := Some 10%nat |} =
     (Normal true,
      {| this_browser := Some secondBrowser; this_page := Some 20%nat |})
  /\ initializeBrowser
       {| firstAttach :=
            Throw (plainError "connect ECONNREFUSED 127.0.0.1:9222");
          candidatePaths := ["/usr/bin/google-chrome"];
          accessible := fun _ => true;
          secondAttach :=
            Normal {| connection := 3;
                      contexts :=
                        [ {| contextPages := [];
                             newPage :=
                               Throw (plainError "Target closed") |} ] |} |}
       {| this_browser := Some firstBrowser; this_page := Some 10%nat |} =
     (Throw (plainError "Could not connect to Chrome"),
      {| this_browser :=
           Some {| connection := 3;
                   contexts :=
                     [ {| contextPages := [];
                          newPage :=
                            Throw (plainError "Target closed") |} ] |};
         this_page := Some 10%nat |}).
Proof.
  pose proof initializeBrowser_reattaches as (P1 & P2 & P3 & P4 & P5).
  split; [split|split; [|split]].
  - apply (P1 (chromeAnswering secondBrowser)
             {| this_browser := Some firstBrowser; this_page := Some 10%nat |}
             secondBrowser
             {| contextPages := [20%nat]; newPage := Normal 21%nat |}
             [] 20%nat).
    + reflexivity.
    + reflexivity.
    + left. exists []. reflexivity.
  - apply (P2 chromeGone
             {| this_browser := Some firstBrowser; this_page := Some 10%nat |}
             (plainError "connect ECONNREFUSED 127.0.0.1:9222")).
    + reflexivity.
    + left. reflexivity.
  - apply (P3 {| firstAttach := Normal {| connection := 3; contexts := [] |};
                 candidatePaths := []; accessible := fun _ => false;
                 secondAttach :=
                   Throw (plainError
                            "connect ECONNREFUSED 127.0.0.1:9222") |}
             {| this_browser := Some firstBrowser;
                this_page := Some 10%nat |}
             {| connection := 3; contexts := [] |}).
    + reflexivity.
    + left. reflexivity.
    + left. reflexivity.
  - apply (P4 {| firstAttach :=
                   Throw (plainError "connect ECONNREFUSED 127.0.0.1:9222");
                 candidatePaths := ["/usr/bin/google-chrome"];
                 accessible := fun _ => true;
                 secondAttach := Normal secondBrowser |}
             {| this_browser := Some firstBrowser;
                this_page := Some 10%nat |}
             "/usr/bin/google-chrome" secondBrowser
             {| contextPages := [20%nat]; newPage := Normal 21%nat |}
             [] 20%nat).
    + reflexivity.
    + reflexivity.
    + reflexivity.
    + reflexivity.
    + left. exists []. reflexivity.
  - apply (P5 {| firstAttach :=
                   Throw (plainError "connect ECONNREFUSED 127.0.0.1:9222");
                 candidatePaths := ["/usr/bin/google-chrome"];
                 accessible := fun _ => true;
                 secondAttach :=
                   Normal {| connection := 3;
                             contexts :=
                               [ {| contextPages := [];
                                    newPage :=
                                      Throw (plainError
                                               "Target closed") |} ] |} |}
             {| this_browser := Some firstBrowser;
                this_page := Some 10%nat |}
             "/usr/bin/google-chrome").
    + reflexivity.
    + reflexivity.
    + reflexivity.
    + right.
      exists {| contextPages := [];
                newPage := Throw (plainError "Target closed") |}, [],
             (plainError "Target closed").
      repeat split.
Defined.

(** C7 as stated fails: a scraper that holds a session does not get it
    back unchanged from [initializeBrowser].  Here the second call attaches
    again and the scraper ends up with the new connection and its page. *)
Lemma session_acquisition_is_not_idempotent :
  ~ (forall w s b p,
        this_browser s = Some b -> this_page s = Some p ->
        initializeBrowser w s = (Normal true, s)).
Proof.
  intros C.
  specialize (C (chromeAnswering secondBrowser)
                {| this_browser := Some firstBrowser;
                   this_page := Some 10%nat |}
                firstBrowser 10%nat eq_refl eq_refl).
  vm_compute in C. discriminate.
Qed.

(** The start of [CapterraScraper.scrapeReviews] acquires twice; the
    session in use afterwards is the one of the second attach. *)
Example Capterra_session_is_the_second :
  Capterra_acquire (chromeAnswering firstBrowser)
    (chromeAnswering secondBrowser) noSession =
  (Normal true,
   {| this_browser := Some secondBrowser; this_page := Some 20%nat |}).
Proof. reflexivity. Qed.

(** With Chrome gone, a scraper that holds a session gets an exception. *)
Example session_lost_when_chrome_is_gone :
  fst (initializeBrowser chromeGone
         {| this_browser := Some firstBrowser; this_page := Some 10%nat |}) =
  Throw (plainError "Could not connect to Chrome").
Proof. reflexivity. Qed.

(** ** The challenge detector *)

Section Detector.
Context `{Casing}.
Variable captchaText : list string.

(** C9.  [detectCaptcha] (of G2 and of Capterra: any list of phrases)
    completes normally on every page state, and whenever a step of its
    inspection throws -- a selector query, reading the content, or using a
    page that is [null] -- it answers [false]. *)
Theorem detectCaptcha_never_throws (pg : option PageView) :
  (exists blocked, detectCaptcha captchaText pg = Normal blocked)
  /\ (forall e, inspectPage captchaText pg = Throw e ->
                detectCaptcha captchaText pg = Normal false).
Proof.
  unfold detectCaptcha.
  destruct (inspectPage captchaText pg) as [b|e]; cbn [try_catch]; split.
  - exists b. reflexivity.
  - discriminate.
  - exists false. reflexivity.
  - reflexivity.
Qed.

(** Where the inspection throws: at the first selector whose query throws,
    when no earlier selector matched. *)
Lemma anySelector_throws (v : PageView) before selector after e :
  (forall s, In s before -> queryOne v s = Normal false) ->
  queryOne v selector = Throw e ->
  anySelector v (before ++ selector :: after) = Throw e.
Proof.
  induction before as [|s before IH]; intros Hb Hq; cbn [app anySelector].
  - rewrite Hq. reflexivity.
  - rewrite (Hb s (or_introl eq_refl)). cbn [bind].
    apply IH; auto. intros s' Hs'. apply Hb. right; exact Hs'.
Qed.

Lemma anySelector_none (v : PageView) selectors :
  (forall s, In s selectors -> queryOne v s = Normal false) ->
  anySelector v selectors = Normal false.
Proof.
  induction selectors as [|s rest IH]; intros Hq; cbn [anySelector]; auto.
  rewrite (Hq s (or_introl eq_refl)). cbn [bind].
  apply IH. intros s' Hs'. apply Hq. right; exact Hs'.
Qed.

(** A selector query that throws before any selector matched makes the
    detector answer [false]; so does a content read that throws after no
    selector matched. *)
Lemma detectCaptcha_fails_open (v : PageView) :
  (forall before selector after e,
      captchaSelectors = before ++ selector :: after ->
      (forall s, In s before -> queryOne v s = Normal false) ->
      queryOne v selector = Throw e ->
      detectCaptcha captchaText (Some v) = Normal false)
  /\ (forall e,
      (forall s, In s captchaSelectors -> queryOne v s = Normal false) ->
      pageContent v = Throw e ->
      detectCaptcha captchaText (Some v) = Normal false).
Proof.
  split.
  - intros before selector after e Split Hb Hq.
    unfold detectCaptcha, inspectPage. rewrite Split.
    rewrite (anySelector_throws v before selector after e Hb Hq).
    reflexivity.
  - intros e Hq Hc. unfold detectCaptcha, inspectPage.
    rewrite (anySelector_none v captchaSelectors Hq). cbn [bind].
    rewrite Hc. reflexivity.
Qed.

End Detector.

Lemma detectCaptcha_never_throws_witness :
  (exists blocked,
      @detectCaptcha demoCasing G2_captchaText (Some closedView)
      = Normal blocked)
  /\ @detectCaptcha demoCasing G2_captchaText (Some closedView)
     = Normal false.
Proof.
  split.
  - exact (proj1 (@detectCaptcha_never_throws demoCasing G2_captchaText
                    (Some closedView))).
  - apply (proj2 (@detectCaptcha_never_throws demoCasing G2_captchaText
                    (Some closedView))
             (plainError "Target page, context or browser has been closed")).
    reflexivity.
Defined.

Example detector_on_null_page :
  @G2_detectCaptcha demoCasing None = Normal false
  /\ @Capterra_detectCaptcha demoCasing None = Normal false.
Proof. split; reflexivity. Qed.

Example detector_sees_phrase_and_widget :
  @G2_detectCaptcha demoCasing (Some challengeView) = Normal true
  /\ @G2_detectCaptcha demoCasing (Some widgetView) = Normal true
  /\ @G2_detectCaptcha demoCasing (Some reviewsView) = Normal false.
Proof. repeat split; vm_compute; reflexivity. Qed.

(** ** The page-ready waiter *)

Section Waiter.
Variable detect : option PageView -> Completion bool.
Variable expectedUrlPattern : option string.
Variable maxWaitTime : Z.
Variable polls : nat -> Poll.
Variable startTime : Z.

(** Looking at the page ends the wait only with [true]. *)
Lemma lookAtPage_true_only (p : Poll) (b : bool) :
  lookAtPage detect expectedUrlPattern p = Normal (Some b) -> b = true.
Proof.
  unfold lookAtPage. destruct (detect (Some (seen p))) as [[|]|e];
    cbn [bind negb]; try discriminate.
  destruct (truthy expectedUrlPattern) as [pattern|].
  - destruct (includes _ _); intros E; inversion E; reflexivity.
  - intros E; inversion E; reflexivity.
Qed.

(** Whatever the page does: [false] comes only from the loop test, hence
    no earlier than [maxWaitTime] after the start; [true] comes only from a
    pass that found the page ready. *)
Lemma waitLoop_verdict (fuel : nat) :
  forall k now b t,
    waitLoop detect expectedUrlPattern maxWaitTime polls startTime
      fuel k now = Some (Normal b, t) ->
    (b = false -> maxWaitTime <= t - startTime)
    /\ (b = true -> exists j,
          lookAtPage detect expectedUrlPattern (polls j) = Normal (Some true)).
Proof.
  assert (Late : forall now b t,
            (now - startTime <? maxWaitTime) = false ->
            Some (Normal false, now) = Some (Normal b, t) ->
            (b = false -> maxWaitTime <= t - startTime)
            /\ (b = true -> exists j,
                  lookAtPage detect expectedUrlPattern (polls j)
                  = Normal (Some true))).
  { intros now b t G E. inversion E; subst. apply Z.ltb_ge in G.
    split; [intros _; exact G | discriminate]. }
  induction fuel as [|fuel IH]; intros k now b t; cbn [waitLoop];
    destruct (now - startTime <? maxWaitTime) eqn:G;
    try (apply Late; exact G); [discriminate|].
  cbv zeta.
  destruct (firstTimer (polls k)) as [extra|after]; cbn [waitForTimeout].
  - destruct (lookAtPage detect expectedUrlPattern (polls k))
      as [[b'|]|e] eqn:L.
    + pose proof (lookAtPage_true_only _ _ L) as Hb. subst b'.
      intros E; inversion E; subst.
      split; [discriminate | intros _; exists k; exact L].
    + apply IH.
    + destruct (secondTimer (polls k)); cbn [waitForTimeout];
        [apply IH | discriminate].
  - destruct (secondTimer (polls k)); cbn [waitForTimeout];
      [apply IH | discriminate].
Qed.

(** The challenge is reported on every poll. *)
Hypothesis blocked : forall k, detect (Some (seen (polls k))) = Normal true.

Lemma lookAtPage_blocked (k : nat) :
  lookAtPage detect expectedUrlPattern (polls k) = Normal None.
Proof. unfold lookAtPage. rewrite blocked. reflexivity. Qed.

(** With working timers every pass takes 2000 ms or more, so the wait
    ends, by the loop test. *)
Lemma waitLoop_times_out :
  (forall k after, firstTimer (polls k) = Failed after ->
                   exists extra, secondTimer (polls k) = Elapsed extra) ->
  forall fuel k now,
    maxWaitTime - (now - startTime) <= 2000 * Z.of_nat fuel ->
    exists t,
      waitLoop detect expectedUrlPattern maxWaitTime polls startTime
        fuel k now = Some (Normal false, t)
      /\ maxWaitTime <= t - startTime.
Proof.
  intros Timers fuel. induction fuel as [|fuel IH]; intros k now Hf;
    cbn [waitLoop]; destruct (now - startTime <? maxWaitTime) eqn:G.
  - apply Z.ltb_lt in G. lia.
  - exists now. apply Z.ltb_ge in G. auto.
  - cbv zeta.
    destruct (firstTimer (polls k)) as [extra|after] eqn:FT;
      cbn [waitForTimeout].
    + rewrite lookAtPage_blocked. apply IH. lia.
    + destruct (Timers k after FT) as [extra ->]. cbn [waitForTimeout].
      apply IH. lia.
  - exists now. apply Z.ltb_ge in G. auto.
Qed.

End Waiter.

Section WaiterOfScraper.
Context `{Casing}.
Variable captchaText : list string.
Variable expectedUrlPattern : option string.
Variable maxWaitTime : Z.
Variable polls : nat -> Poll.
Variable startTime : Z.

(** C8.  For every budget [maxWaitTime]: when [detectCaptcha] reports a
    challenge on every poll, [waitForPageReady] never answers [true], and
    an answer [false] comes at a time [t] with
    [maxWaitTime <= t - startTime], never before the budget has elapsed.
    With timers that do not fail twice in one pass it does answer, after at
    most [maxWaitTime / 2000] passes rounded up. *)
Theorem waiter_times_out_no_earlier :
  (forall k, detectCaptcha captchaText (Some (seen (polls k)))
             = Normal true) ->
  (forall fuel b t,
      waitForPageReady (detectCaptcha captchaText) expectedUrlPattern
        maxWaitTime polls startTime fuel = Some (Normal b, t) ->
      b = false /\ maxWaitTime <= t - startTime)
  /\ ((forall k after, firstTimer (polls k) = Failed after ->
                       exists extra, secondTimer (polls k) = Elapsed extra) ->
      forall fuel,
        maxWaitTime <= 2000 * Z.of_nat fuel ->
        exists t,
          waitForPageReady (detectCaptcha captchaText) expectedUrlPattern
            maxWaitTime polls startTime fuel = Some (Normal false, t)
          /\ maxWaitTime <= t - startTime).
Proof.
  intros Blocked. split.
  - intros fuel b t E. unfold waitForPageReady in E.
    apply waitLoop_verdict in E. destruct E as [Efalse Etrue].
    destruct b.
    + destruct (Etrue eq_refl) as [j L].
      rewrite lookAtPage_blocked in L by exact Blocked. discriminate.
    + split; [reflexivity | apply Efalse; reflexivity].
  - intros Timers fuel Hf. unfold waitForPageReady.
    apply waitLoop_times_out; auto. lia.
Qed.

End WaiterOfScraper.

Lemma waiter_times_out_no_earlier_witness :
  waitForPageReady (@detectCaptcha demoCasing G2_captchaText)
    (Some "/products/") 6000 (fun _ => stuckPoll) 1700000000000 3 =
  Some (Normal false, 1700000006015)
  /\ 6000 <= 1700000006015 - 1700000000000.
Proof.
  assert (Blocked : forall k : nat,
             @detectCaptcha demoCasing G2_captchaText
               (Some (seen ((fun _ => stuckPoll) k))) = Normal true)
    by (intros k; reflexivity).
  pose proof (@waiter_times_out_no_earlier demoCasing G2_captchaText
                (Some "/products/") 6000 (fun _ => stuckPoll)
                1700000000000 Blocked) as [Safe Live].
  assert (E : waitForPageReady (@detectCaptcha demoCasing G2_captchaText)
                (Some "/products/") 6000 (fun _ => stuckPoll)
                1700000000000 3 = Some (Normal false, 1700000006015))
    by (vm_compute; reflexivity).
  split; [exact E|].
  exact (proj2 (Safe 3%nat false 1700000006015 E)).
Defined.

(** A budget that is not a multiple of the polling interval is overrun:
    the timeout of a 5000 ms budget comes after 6015 ms. *)
Example waiter_overruns_budget :
  waitForPageReady (@detectCaptcha demoCasing G2_captchaText)
    None 5000 (fun _ => stuckPoll) 0 10 = Some (Normal false, 6015).
Proof. vm_compute. reflexivity. Qed.

(** A page that was closed under the waiter: the timer fails in [try] and
    again in [catch], and [waitForPageReady] throws. *)
Example waiter_throws_on_closed_page :
  waitForPageReady (@detectCaptcha demoCasing G2_captchaText)
    None 60000
    (fun _ => {| firstTimer := Failed 0; seen := closedView; spent := 0;
                 secondTimer := Failed 0 |}) 0 10 =
  Some (Throw (plainError "Target page, context or browser has been closed"),
        0).
Proof. vm_compute. reflexivity. Qed.

(** When no product page is found, [scrapeReviews] throws before any page
    is fetched. *)
Example scrapeReviews_without_product_page :
  @scrapeReviews demoMoment Capterra "Acme" (Normal None)
    demoStart demoEnd 15 (fun n => loadedPage (fivePages n))
    (fun _ => None) 0 =
  Some (Throw (plainError "Could not find Capterra product page for Acme")).
Proof. reflexivity. Qed.

(* ===================================================================== *)
(** * Further properties of the code *)
(* ===================================================================== *)

(** ** Pagination *)

Lemma loopGuard_true src maxPages st :
  hasMorePages st = true ->
  maxPages = -1 \/ page st <= maxPages ->
  consecutiveEmptyPages st < emptyPageThreshold src ->
  loopGuard src maxPages st = true.
Proof.
  intros Hh Hp Hc. unfold loopGuard. rewrite Hh. cbn [andb].
  apply andb_true_iff. split.
  - apply orb_true_iff. destruct Hp as [->|Hp]; [left; reflexivity|].
    right. apply Z.leb_le. exact Hp.
  - apply Z.ltb_lt. exact Hc.
Qed.

Lemma loopGuard_inv src maxPages st :
  loopGuard src maxPages st = true ->
  hasMorePages st = true
  /\ (maxPages = -1 \/ page st <= maxPages)
  /\ consecutiveEmptyPages st < emptyPageThreshold src.
Proof.
  unfold loopGuard. intros G.
  apply andb_true_iff in G. destruct G as [G Gc].
  apply andb_true_iff in G. destruct G as [Gh Gp].
  apply orb_true_iff in Gp. apply Z.ltb_lt in Gc.
  repeat split; auto.
  destruct Gp as [Gp|Gp]; [left; apply Z.eqb_eq | right; apply Z.leb_le];
    exact Gp.
Qed.

Section PaginationMore.
Context `{Moment}.
Variables startDate endDate : JSDate.
Variable maxPages : Z.
Variable sessionPages : nat -> SessionPage.
Variable httpPages : nat -> HttpPage.

(** An iteration that gets no page counts it as empty and moves on. *)
Lemma iteration_no_page src n st :
  pageItems sessionPages httpPages src n = None ->
  iterationOf startDate endDate src sessionPages httpPages n st =
  Normal (nextPage (countEmpty st)).
Proof.
  unfold pageItems, iterationOf.
  destruct src; [unfold sessionIteration .. | unfold httpIteration].
  1,2: destruct (navigationSuccess (sessionPages n)); cbn [negb];
       [intros ->|]; reflexivity.
  intros ->. reflexivity.
Qed.

(** What an iteration appends to [reviews], exactly. *)
Lemma iteration_appends src n st st' :
  iterationOf startDate endDate src sessionPages httpPages n st = Normal st' ->
  reviews st' =
  reviews st ++ keptOf startDate endDate
                  (itemsAt sessionPages httpPages src n).
Proof.
  unfold itemsAt.
  destruct (pageItems sessionPages httpPages src n) as [[|x l]|] eqn:P.
  - cbn [keptOf]. rewrite app_nil_r. revert P.
    unfold pageItems, iterationOf.
    destruct src; [unfold sessionIteration .. | unfold httpIteration].
    1,2: destruct (navigationSuccess (sessionPages n)); [|discriminate];
         intros ->; cbn [negb];
         destruct (hasCaptcha (sessionPages n));
         [destruct (resolved (sessionPages n)) as [[|]|]|];
         cbn [bind]; intros E; inversion E; reflexivity.
    intros ->. intros E; inversion E; reflexivity.
  - rewrite (iteration_on_page _ _ _ _ src n st x l P), processPage_spec.
    cbn zeta.
    destruct (_ && _);
      [|destruct src; [destruct (settle (sessionPages n)) ..|]];
      cbn [bind]; intros E; inversion E; reflexivity.
  - rewrite (iteration_no_page src n st P). cbn [keptOf].
    rewrite app_nil_r. intros E; inversion E; reflexivity.
Qed.

Lemma collected_S src k :
  collected startDate endDate sessionPages httpPages src (S k) =
  collected startDate endDate sessionPages httpPages src k
  ++ keptOf startDate endDate (itemsAt sessionPages httpPages src k).
Proof.
  unfold collected. rewrite seq_S, flat_map_app. cbn [flat_map plus].
  rewrite app_nil_r. reflexivity.
Qed.

Lemma paginate_collects src fuel :
  forall n st,
    reviews st = collected startDate endDate sessionPages httpPages src n ->
    forall st',
      stateOf (paginate (loopGuard src maxPages)
                 (iterationOf startDate endDate src sessionPages httpPages)
                 fuel n st) = Some st' ->
      reviews st' =
      collected startDate endDate sessionPages httpPages src
        (fetchedOf (paginate (loopGuard src maxPages)
                      (iterationOf startDate endDate src
                         sessionPages httpPages)
                      fuel n st)).
Proof.
  induction fuel as [|fuel IH]; intros n st Hst st'; cbn [paginate];
    destruct (loopGuard src maxPages st);
    try (cbn; intros E; inversion E; subst; exact Hst).
  destruct (iterationOf startDate endDate src sessionPages httpPages n st)
    as [st1|e] eqn:It; [|discriminate].
  apply IH. rewrite (iteration_appends src n st st1 It), Hst.
  symmetry. apply collected_S.
Qed.

(** X1.  The array that [scrapeReviews] returns holds exactly the
    in-window records of the pages its iterations got hold of, page after
    page and in page order: none is lost, none is doubled, none is
    reordered. *)
Theorem scrapeReviews_collects (src : Source) (companyName : string)
  (found : Completion (option string)) (fuel : nat) (rs : list ReviewData) :
  scrapeReviews src companyName found startDate endDate maxPages
    sessionPages httpPages fuel = Some (Normal rs) ->
  rs = collected startDate endDate sessionPages httpPages src
         (fetchedOf (scrapeLoop src startDate endDate maxPages
                       sessionPages httpPages fuel)).
Proof.
  unfold scrapeReviews.
  destruct (requireProductUrl src companyName found); [|discriminate].
  destruct (scrapeLoop src startDate endDate maxPages sessionPages
              httpPages fuel) as [k st|k e|k st] eqn:E; try discriminate.
  intros R. inversion R; subst.
  pose proof (paginate_collects src fuel 0%nat initialLoop eq_refl st) as C.
  unfold scrapeLoop in E. rewrite E in C. apply C. reflexivity.
Qed.

(** X2.  An iteration that gets a page with elements on it clears
    [hasMorePages] exactly when the page number is above 2 and the page
    holds more records dated before [startDate] than records in the
    window; then the page number stays.  Otherwise the page number goes up
    by one.  Either way the empty-page counter is back at 0. *)
Theorem early_stop_exactly_when (src : Source) (n : nat)
  (st st' : LoopState) x l :
  pageItems sessionPages httpPages src n = Some (x :: l) ->
  hasMorePages st = true ->
  iterationOf startDate endDate src sessionPages httpPages n st = Normal st' ->
  (hasMorePages st' = false <->
     countIf (inRange startDate endDate) (x :: l)
       < countIf (beforeStart startDate) (x :: l)
     /\ 2 < page st)
  /\ (hasMorePages st' = false -> page st' = page st)
  /\ (hasMorePages st' = true -> page st' = page st + 1)
  /\ consecutiveEmptyPages st' = 0.
Proof.
  intros P Hh.
  rewrite (iteration_on_page _ _ _ _ src n st x l P), processPage_spec.
  cbn zeta.
  destruct ((countIf (beforeStart startDate) (x :: l)
               >? countIf (inRange startDate endDate) (x :: l))
            && (page st >? 2)) eqn:Stop.
  - intros E; inversion E; subst; cbn.
    apply andb_true_iff in Stop. destruct Stop as [S1 S2].
    apply Z.gtb_lt in S1, S2.
    repeat split; auto; discriminate.
  - assert (No : ~ (countIf (inRange startDate endDate) (x :: l)
                      < countIf (beforeStart startDate) (x :: l)
                    /\ 2 < page st)).
    { intros [S1 S2]. apply andb_false_iff in Stop.
      destruct Stop as [Stop|Stop]; rewrite Z.gtb_ltb in Stop;
        apply Z.ltb_ge in Stop; lia. }
    destruct src; [destruct (settle (sessionPages n)) ..|];
      cbn [bind]; intros E; inversion E; subst; cbn; rewrite Hh;
      repeat split; auto; try discriminate; intros; tauto.
Qed.

(** X3.  On a listing none of whose pages can be got hold of, the loop
    gives up after exactly as many iterations as the source's threshold --
    three for G2 and TrustPilot, one for Capterra -- and [scrapeReviews]
    returns the empty array. *)
Theorem unreachable_listing_gives_up (src : Source) (fuel : nat) :
  maxPages = -1 \/ emptyPageThreshold src <= maxPages ->
  (forall n, pageItems sessionPages httpPages src n = None) ->
  (Z.to_nat (emptyPageThreshold src) <= fuel)%nat ->
  scrapeLoop src startDate endDate maxPages sessionPages httpPages fuel =
  Finished (Z.to_nat (emptyPageThreshold src))
    {| reviews := []; page := 1 + emptyPageThreshold src;
       hasMorePages := true;
       consecutiveEmptyPages := emptyPageThreshold src |}.
Proof.
  intros HM None Hf. unfold scrapeLoop.
  assert (Step : forall f n st,
            hasMorePages st = true ->
            maxPages = -1 \/ page st <= maxPages ->
            consecutiveEmptyPages st < emptyPageThreshold src ->
            paginate (loopGuard src maxPages)
              (iterationOf startDate endDate src sessionPages httpPages)
              (S f) n st =
            paginate (loopGuard src maxPages)
              (iterationOf startDate endDate src sessionPages httpPages)
              f (S n) (nextPage (countEmpty st))).
  { intros f n st Hh Hp Hc. apply paginate_step.
    - apply loopGuard_true; assumption.
    - apply iteration_no_page. apply None. }
  assert (Stop : forall f n st,
            consecutiveEmptyPages st = emptyPageThreshold src ->
            paginate (loopGuard src maxPages)
              (iterationOf startDate endDate src sessionPages httpPages)
              f n st = Finished n st).
  { intros f n st Hc. apply paginate_stop. unfold loopGuard.
    rewrite Hc, Z.ltb_irrefl. apply andb_false_r. }
  destruct src; cbn [emptyPageThreshold] in *.
  - destruct fuel as [|[|[|f]]]; try (cbn in Hf; lia).
    rewrite !Step by (cbn; auto; lia). apply Stop. reflexivity.
  - destruct fuel as [|f]; try (cbn in Hf; lia).
    rewrite !Step by (cbn; auto; lia). apply Stop. reflexivity.
  - destruct fuel as [|[|[|f]]]; try (cbn in Hf; lia).
    rewrite !Step by (cbn; auto; lia). apply Stop. reflexivity.
Qed.

(** X4.  A window whose end lies before its start matches nothing:
    whatever the pages hold, the array [scrapeReviews] returns is empty. *)
Theorem inverted_window_returns_nothing (src : Source)
  (companyName : string) (found : Completion (option string))
  (fuel : nat) (rs : list ReviewData) :
  endDate < startDate ->
  scrapeReviews src companyName found startDate endDate maxPages
    sessionPages httpPages fuel = Some (Normal rs) ->
  rs = [].
Proof.
  intros Inv.
  assert (K : forall l, keptOf startDate endDate l = []).
  { induction l as [|[r|] l IH]; cbn [keptOf]; auto.
    destruct (isDateInRange _ _ _) eqn:E; auto.
    apply isDateInRange_spec in E. destruct E as [d [_ ?]]. lia. }
  unfold scrapeReviews.
  destruct (requireProductUrl src companyName found); [|discriminate].
  destruct (scrapeLoop src startDate endDate maxPages sessionPages
              httpPages fuel) as [k st|k e|k st] eqn:E; try discriminate.
  intros R. inversion R; subst.
  unfold scrapeLoop in E.
  apply (paginate_invariant (fun s => reviews s = [])
           (loopGuard src maxPages)
           (iterationOf startDate endDate src sessionPages httpPages))
    with (fuel := fuel) (n := 0%nat) (st := initialLoop).
  - intros n s s' Hs It. apply iteration_appends in It.
    rewrite It, Hs, K. reflexivity.
  - reflexivity.
  - rewrite E. reflexivity.
Qed.

End PaginationMore.

Lemma paginate_fetched_le guard it fuel :
  forall n st, (fetchedOf (paginate guard it fuel n st) <= n + fuel)%nat.
Proof.
  induction fuel as [|fuel IH]; intros n st; cbn [paginate].
  - destruct (guard st); cbn; lia.
  - destruct (guard st); [|cbn; lia].
    destruct (it n st) as [st1|e]; [|cbn; lia].
    specialize (IH (S n) st1). lia.
Qed.

(** More iterations allowed do not change a run that came to an end. *)
Lemma paginate_more_fuel guard it fuel :
  forall n st extra,
    (forall k s, paginate guard it fuel n st <> OutOfFuel k s) ->
    paginate guard it (fuel + extra) n st = paginate guard it fuel n st.
Proof.
  induction fuel as [|fuel IH]; intros n st extra Hend.
  - cbn [paginate] in Hend. cbn [plus].
    destruct (guard st) eqn:G.
    + exfalso. apply (Hend n st). reflexivity.
    + rewrite !paginate_stop by exact G. reflexivity.
  - cbn [plus paginate] in *. destruct (guard st); [|reflexivity].
    destruct (it n st) as [st1|e]; [|reflexivity].
    apply IH. exact Hend.
Qed.

Section PaginationBounds.
Context `{Moment}.
Variables startDate endDate : JSDate.
Variable maxPages : Z.
Variable sessionPages : nat -> SessionPage.
Variable httpPages : nat -> HttpPage.

(** An iteration of the HTTP loop either moves to the next page number or
    stops on the current one. *)
Lemma http_iteration_cases n st st' :
  iterationOf startDate endDate TrustPilot sessionPages httpPages n st
    = Normal st' ->
  hasMorePages st = true ->
  (hasMorePages st' = true /\ page st' = page st + 1)
  \/ (hasMorePages st' = false /\ page st' = page st).
Proof.
  cbn [iterationOf]. unfold httpIteration. intros E Hh.
  destruct (httpPages n) as [[|x l]|].
  - inversion E; subst; cbn; auto.
  - rewrite processPage_spec in E. cbn zeta in E.
    destruct (_ && _); inversion E; subst; cbn; auto.
  - inversion E; subst; cbn; auto.
Qed.

Lemma http_paginate_pages fuel :
  forall n st,
    page st = (if hasMorePages st then 1 + Z.of_nat n else Z.of_nat n) ->
    (0 <= maxPages -> Z.of_nat n <= maxPages) ->
    forall st',
      stateOf (paginate (loopGuard TrustPilot maxPages)
                 (iterationOf startDate endDate TrustPilot
                    sessionPages httpPages) fuel n st) = Some st' ->
      let k := Z.of_nat
                 (fetchedOf (paginate (loopGuard TrustPilot maxPages)
                               (iterationOf startDate endDate TrustPilot
                                  sessionPages httpPages) fuel n st)) in
      page st' = (if hasMorePages st' then 1 + k else k)
      /\ (0 <= maxPages -> k <= maxPages).
Proof.
  assert (Done : forall n st st',
            page st = (if hasMorePages st then 1 + Z.of_nat n
                       else Z.of_nat n) ->
            (0 <= maxPages -> Z.of_nat n <= maxPages) ->
            Some st = Some st' ->
            page st' = (if hasMorePages st' then 1 + Z.of_nat n
                        else Z.of_nat n)
            /\ (0 <= maxPages -> Z.of_nat n <= maxPages)).
  { intros n st st' Hp Hb E. inversion E; subst. auto. }
  induction fuel as [|fuel IH]; intros n st Hp Hb st'; cbn [paginate];
    destruct (loopGuard TrustPilot maxPages st) eqn:G;
    cbn [stateOf fetchedOf]; cbv zeta;
    [apply Done; assumption | apply Done; assumption |
    | apply Done; assumption].
  destruct (iterationOf startDate endDate TrustPilot sessionPages
              httpPages n st) as [st1|e] eqn:It;
    [|cbn [stateOf]; discriminate].
  apply loopGuard_inv in G. destruct G as (Gh & Gp & _).
  rewrite Gh in Hp.
  apply IH.
  - destruct (http_iteration_cases n st st1 It Gh) as [[-> ->]|[-> ->]];
      lia.
  - intros Hm. destruct Gp as [Gp|Gp]; lia.
Qed.

(** X5.  The loop of [TrustPilotScraper.scrapeReviews] asks for the page
    numbers 1, 2, 3, ... in turn, each once: after [k] iterations the page
    number is [k + 1], or [k] when the early stop fired on the last page.
    With a page limit [maxPages >= 0] it runs at most [maxPages]
    iterations. *)
Theorem TrustPilot_pages_in_turn (fuel : nat) (st : LoopState) :
  stateOf (scrapeLoop TrustPilot startDate endDate maxPages
             sessionPages httpPages fuel) = Some st ->
  page st =
    (if hasMorePages st
     then 1 + Z.of_nat (fetchedOf (scrapeLoop TrustPilot startDate endDate
                                     maxPages sessionPages httpPages fuel))
     else Z.of_nat (fetchedOf (scrapeLoop TrustPilot startDate endDate
                                 maxPages sessionPages httpPages fuel)))
  /\ (0 <= maxPages ->
      Z.of_nat (fetchedOf (scrapeLoop TrustPilot startDate endDate
                             maxPages sessionPages httpPages fuel))
      <= maxPages).
Proof.
  unfold scrapeLoop. intros E.
  apply (http_paginate_pages fuel 0%nat initialLoop);
    [reflexivity | cbn; lia | exact E].
Qed.

(** X6.  With a page limit ([maxPages] other than -1) every source's
    [scrapeReviews] comes to an end -- it returns or throws -- after at
    most [maxPages * (threshold + 1) + threshold + 1] iterations, where
    [threshold] is the source's empty-page threshold. *)
Theorem scrapeReviews_ends_under_page_limit (src : Source)
  (companyName : string) (found : Completion (option string))
  (fuel : nat) :
  maxPages <> -1 ->
  (budgetLeft maxPages src initialLoop < fuel)%nat ->
  (exists out,
      scrapeReviews src companyName found startDate endDate maxPages
        sessionPages httpPages fuel = Some out)
  /\ (fetchedOf (scrapeLoop src startDate endDate maxPages
                   sessionPages httpPages fuel)
      <= S (budgetLeft maxPages src initialLoop))%nat
  /\ budgetLeft maxPages src initialLoop =
     Z.to_nat (maxPages * (emptyPageThreshold src + 1)
               + emptyPageThreshold src).
Proof.
  intros HM Hf. split; [|split].
  - pose proof (scrapeReviews_terminates startDate endDate maxPages
                  sessionPages httpPages src companyName found fuel HM Hf)
      as T.
    destruct (scrapeReviews src companyName found startDate endDate
                maxPages sessionPages httpPages fuel) as [out|];
      [exists out; reflexivity | congruence].
  - assert (End : forall k s,
              scrapeLoop src startDate endDate maxPages sessionPages
                httpPages (S (budgetLeft maxPages src initialLoop))
              <> OutOfFuel k s).
    { intros k s E.
      pose proof (scrapeReviews_terminates startDate endDate maxPages
                    sessionPages httpPages src "" (Normal (Some "x"))
                    (S (budgetLeft maxPages src initialLoop)) HM
                    ltac:(lia)) as T.
      apply T. unfold scrapeReviews, requireProductUrl. cbn [bind].
      rewrite E. reflexivity. }
    unfold scrapeLoop in *.
    replace fuel with (S (budgetLeft maxPages src initialLoop)
                       + (fuel - S (budgetLeft maxPages src initialLoop)))%nat
      by lia.
    rewrite paginate_more_fuel by exact End.
    pose proof (paginate_fetched_le (loopGuard src maxPages)
                  (iterationOf startDate endDate src sessionPages httpPages)
                  (S (budgetLeft maxPages src initialLoop)) 0%nat
                  initialLoop).
    lia.
  - unfold budgetLeft. cbn [page consecutiveEmptyPages initialLoop].
    f_equal. lia.
Qed.

(** An iteration on a page that cannot be got hold of, or that has no
    review elements, counts one more empty page. *)
Lemma iteration_counts_empty src n st st' :
  pageItems sessionPages httpPages src n = None
  \/ pageItems sessionPages httpPages src n = Some [] ->
  iterationOf startDate endDate src sessionPages httpPages n st = Normal st' ->
  consecutiveEmptyPages st' = consecutiveEmptyPages st + 1.
Proof.
  intros [P|P].
  - rewrite (iteration_no_page startDate endDate sessionPages httpPages
               src n st P).
    intros E; inversion E; reflexivity.
  - revert P. unfold pageItems, iterationOf.
    destruct src; [unfold sessionIteration .. | unfold httpIteration].
    1,2: destruct (navigationSuccess (sessionPages n)); [|discriminate];
         intros ->; cbn [negb];
         destruct (hasCaptcha (sessionPages n));
         [destruct (resolved (sessionPages n)) as [[|]|]|];
         cbn [bind]; intros E; inversion E; reflexivity.
    intros ->. intros E; inversion E; reflexivity.
Qed.

Lemma Capterra_paginate_stops (k : nat) fuel :
  pageItems sessionPages httpPages Capterra k = None
  \/ pageItems sessionPages httpPages Capterra k = Some [] ->
  forall n st,
    (n <= k)%nat -> 0 <= consecutiveEmptyPages st ->
    (fetchedOf (paginate (loopGuard Capterra maxPages)
                  (iterationOf startDate endDate Capterra
                     sessionPages httpPages) fuel n st) <= S k)%nat.
Proof.
  intros Empty. induction fuel as [|fuel IH]; intros n st Hn Hc;
    cbn [paginate];
    destruct (loopGuard Capterra maxPages st) eqn:G; try (cbn; lia).
  destruct (iterationOf startDate endDate Capterra sessionPages
              httpPages n st) as [st1|e] eqn:It; [|cbn; lia].
  destruct (loopGuard Capterra maxPages st1) eqn:G1;
    [|rewrite paginate_stop by exact G1; cbn; lia].
  apply loopGuard_inv in G1. destruct G1 as (Gh1 & _ & Gc1).
  cbn [emptyPageThreshold] in Gc1.
  destruct (Nat.eq_dec n k) as [->|Hne].
  - pose proof (iteration_counts_empty Capterra k st st1 Empty It). lia.
  - apply IH; [lia|].
    destruct (iteration_shape startDate endDate sessionPages httpPages
                Capterra n st st1 It) as [[_ [C|C]]|[[_ C]|C]];
      try lia. congruence.
Qed.

(** X7.  The loop of [CapterraScraper.scrapeReviews] never goes past the
    first page that it cannot get hold of or that has no review elements:
    when that is the page of iteration [k], the loop runs at most [k + 1]
    iterations.  In particular a page is never fetched again after a
    challenge was waited out on it. *)
Theorem Capterra_stops_at_first_empty_page (k fuel : nat) :
  pageItems sessionPages httpPages Capterra k = None
  \/ pageItems sessionPages httpPages Capterra k = Some [] ->
  (fetchedOf (scrapeLoop Capterra startDate endDate maxPages
                sessionPages httpPages fuel) <= S k)%nat.
Proof.
  intros Empty. unfold scrapeLoop.
  apply Capterra_paginate_stops; [exact Empty | lia | cbn; lia].
Qed.

End PaginationBounds.

(** *** Worked examples of the pagination properties *)

Lemma scrapeReviews_collects_witness :
  @scrapeReviews demoMoment G2 "Acme"
    (Normal (Some "https://www.g2.com/products/acme/reviews"))
    demoStart demoEnd 15 (fun n => loadedPage (fivePages n))
    (fun _ => None) 5 =
  Some (Normal [ demoReview "2024-02-10"; demoReview "2024-01-15";
                 demoReview "2024-02-10"; demoReview "2024-01-15" ])
  /\ [ demoReview "2024-02-10"; demoReview "2024-01-15";
       demoReview "2024-02-10"; demoReview "2024-01-15" ] =
     @collected demoMoment demoStart demoEnd
       (fun n => loadedPage (fivePages n)) (fun _ => None) G2 3.
Proof.
  split; [reflexivity|].
  apply (@scrapeReviews_collects demoMoment demoStart demoEnd 15
           (fun n => loadedPage (fivePages n)) (fun _ => None) G2 "Acme"
           (Normal (Some "https://www.g2.com/products/acme/reviews"))
           5%nat).
  reflexivity.
Defined.

Lemma early_stop_exactly_when_witness :
  (hasMorePages {| reviews := []; page := 3; hasMorePages := false;
                   consecutiveEmptyPages := 0 |} = false <->
   @countIf (@inRange demoMoment demoStart demoEnd) oldPage
     < @countIf (@beforeStart demoMoment demoStart) oldPage
   /\ 2 < 3)
  /\ (hasMorePages {| reviews := []; page := 2; hasMorePages := true;
                      consecutiveEmptyPages := 0 |} = true ->
      page {| reviews := []; page := 2; hasMorePages := true;
              consecutiveEmptyPages := 0 |} = 1 + 1).
Proof.
  split.
  - apply (@early_stop_exactly_when demoMoment demoStart demoEnd
             (fun n => loadedPage (fivePages n)) (fun _ => None)
             Capterra 2%nat
             {| reviews := []; page := 3; hasMorePages := true;
                consecutiveEmptyPages := 2 |}
             {| reviews := []; page := 3; hasMorePages := false;
                consecutiveEmptyPages := 0 |}
             (Some (demoReview "2023-12-01"))
             [Some (demoReview "2023-11-20")]).
    + reflexivity.
    + reflexivity.
    + reflexivity.
  - apply (@early_stop_exactly_when demoMoment demoStart demoEnd
             (fun _ => unreachablePage) (fun _ => Some oldPage)
             TrustPilot 0%nat
             {| reviews := []; page := 1; hasMorePages := true;
                consecutiveEmptyPages := 1 |}
             {| reviews := []; page := 2; hasMorePages := true;
                consecutiveEmptyPages := 0 |}
             (Some (demoReview "2023-12-01"))
             [Some (demoReview "2023-11-20")]).
    + reflexivity.
    + reflexivity.
    + reflexivity.
Defined.

Lemma unreachable_listing_gives_up_witness :
  @scrapeLoop demoMoment TrustPilot demoStart demoEnd (-1)
    (fun _ => unreachablePage) (fun _ => None) 7 =
  Finished 3 {| reviews := []; page := 4; hasMorePages := true;
                consecutiveEmptyPages := 3 |}.
Proof.
  apply (@unreachable_listing_gives_up demoMoment demoStart demoEnd (-1)
           (fun _ => unreachablePage) (fun _ => None) TrustPilot 7%nat).
  - left. reflexivity.
  - intros n. reflexivity.
  - cbn. lia.
Defined.

Lemma inverted_window_returns_nothing_witness :
  @scrapeReviews demoMoment TrustPilot "Acme"
    (Normal (Some "https://www.trustpilot.com/review/acme.com"))
    demoEnd demoStart 10 (fun _ => unreachablePage)
    (fun n => Some (mixedListing n)) 20 = Some (Normal [])
  /\ ([] : list ReviewData) = [].
Proof.
  split; [reflexivity|].
  apply (@inverted_window_returns_nothing demoMoment demoEnd demoStart 10
           (fun _ => unreachablePage) (fun n => Some (mixedListing n))
           TrustPilot "Acme"
           (Normal (Some "https://www.trustpilot.com/review/acme.com"))
           20%nat []).
  - vm_compute. reflexivity.
  - reflexivity.
Defined.

Lemma TrustPilot_pages_in_turn_witness :
  page {| reviews := [ demoReview "2024-02-10"; demoReview "2024-01-15";
                       demoReview "2024-02-10"; demoReview "2024-01-15" ];
          page := 3; hasMorePages := false; consecutiveEmptyPages := 0 |}
  = 3
  /\ (0 <= 10 -> 3 <= 10).
Proof.
  apply (@TrustPilot_pages_in_turn demoMoment demoStart demoEnd 10
           (fun _ => unreachablePage) (fun n => Some (fivePages n)) 8%nat
           {| reviews := [ demoReview "2024-02-10"; demoReview "2024-01-15";
                           demoReview "2024-02-10"; demoReview "2024-01-15" ];
              page := 3; hasMorePages := false;
              consecutiveEmptyPages := 0 |}).
  reflexivity.
Defined.

Lemma scrapeReviews_ends_under_page_limit_witness :
  (exists out,
      @scrapeReviews demoMoment G2 "Acme"
        (Normal (Some "https://www.g2.com/products/acme/reviews"))
        demoStart demoEnd 2 (fun n => loadedPage (fivePages n))
        (fun _ => None) 12 = Some out)
  /\ (fetchedOf (@scrapeLoop demoMoment G2 demoStart demoEnd 2
                   (fun n => loadedPage (fivePages n)) (fun _ => None) 12)
      <= S (budgetLeft 2 G2 initialLoop))%nat
  /\ budgetLeft 2 G2 initialLoop = Z.to_nat (2 * (3 + 1) + 3).
Proof.
  apply (@scrapeReviews_ends_under_page_limit demoMoment demoStart demoEnd 2
           (fun n => loadedPage (fivePages n)) (fun _ => None) G2 "Acme"
           (Normal (Some "https://www.g2.com/products/acme/reviews"))
           12%nat).
  - lia.
  - vm_compute. lia.
Defined.

Lemma Capterra_stops_at_first_empty_page_witness :
  (fetchedOf (@scrapeLoop demoMoment Capterra demoStart demoEnd 15
                (fun n => loadedPage (mixedListing n)) (fun _ => None) 9)
   <= 2)%nat.
Proof.
  apply (@Capterra_stops_at_first_empty_page demoMoment demoStart demoEnd 15
           (fun n => loadedPage (mixedListing n)) (fun _ => None)
           1%nat 9%nat).
  right. reflexivity.
Defined.

(** ** The retrying HTTP fetch, further *)

Section FetchMore.
Variable url : string.
Variable maxRetries : nat.
Variable answers : nat -> Completion Response.
Variable randoms : nat -> Random.

Lemma courtesySleepsIn_app (t1 t2 : list Event) :
  courtesySleepsIn (t1 ++ t2)
  = (courtesySleepsIn t1 + courtesySleepsIn t2)%nat.
Proof.
  unfold courtesySleepsIn. rewrite filter_app, length_app. reflexivity.
Qed.

Lemma sleep_fixed (c : Client) (ms : Z) :
  ms <> 0 -> sleep c (Some ms) = Exactly ms.
Proof.
  intros Hne. unfold sleep. destruct (ms =? 0) eqn:E; [|reflexivity].
  apply Z.eqb_eq in E. contradiction.
Qed.

(** The waits of [onError] are of fixed length. *)
Lemma onError_waits attempt r c error :
  courtesySleepsIn (snd (fst (onError maxRetries attempt r c error)))
  = 0%nat.
Proof.
  assert (0 < 2 ^ Z.of_nat attempt) by (apply Z.pow_pos_nonneg; lia).
  unfold onError.
  repeat match goal with
         | |- context [if ?b then _ else _] => destruct b
         end; cbn [fst snd]; try reflexivity;
    rewrite sleep_fixed by lia; reflexivity.
Qed.

Lemma attemptOnce_waits attempt c c' evs step :
  attemptOnce maxRetries answers randoms attempt c = Normal (c', evs, step) ->
  courtesySleepsIn evs = 0%nat /\ requestsIn evs = 0%nat.
Proof.
  intros E.
  destruct (attemptOnce_normal maxRetries answers randoms attempt c)
    as (c1 & evs1 & step1 & E1 & R1 & _).
  rewrite E in E1. inversion E1; subst. split; [|exact R1].
  revert E. unfold attemptOnce, onAnswer.
  destruct (answers attempt) as [resp|error]; cbn [bind try_catch].
  - destruct (status resp =? 200).
    + unfold dataLength. destruct (data resp); cbn [bind try_catch];
        intros E; inversion E as [E'].
      * reflexivity.
      * pose proof (onError_waits attempt (randoms attempt) c
                      (plainError
                         "Cannot read properties of null (reading 'length')"))
          as W.
        rewrite E' in W. exact W.
    + intros E; inversion E; reflexivity.
  - intros E; inversion E as [E'].
    pose proof (onError_waits attempt (randoms attempt) c error) as W.
    rewrite E' in W. exact W.
Qed.

Lemma requestsIn_attempt (c : Client) (t : list Event) :
  requestsIn (Slept (Jittered (delay c)) :: Requested url (userAgent c) :: t)
  = S (requestsIn t)
  /\ courtesySleepsIn
       (Slept (Jittered (delay c)) :: Requested url (userAgent c) :: t)
     = S (courtesySleepsIn t).
Proof. split; reflexivity. Qed.

Lemma safeRequestFrom_counts attempts :
  forall c r c' trace,
    safeRequestFrom url maxRetries answers randoms attempts c
      = Normal (r, c', trace) ->
    (requestsIn trace <= List.length attempts)%nat
    /\ courtesySleepsIn trace = requestsIn trace.
Proof.
  induction attempts as [|attempt rest IH]; intros c r c' trace.
  - cbn. intros E; inversion E; subst. cbn. split; [lia | reflexivity].
  - cbn [safeRequestFrom].
    destruct (attemptOnce maxRetries answers randoms attempt c)
      as [[[c1 evs] step]|e] eqn:E1; cbn [bind]; [|discriminate].
    destruct (attemptOnce_waits attempt c c1 evs step E1) as [W R].
    destruct step as [x|].
    + intros E. injection E as _ _ <-.
      destruct (requestsIn_attempt c evs) as [-> ->].
      rewrite W, R. cbn [List.length]. split; [lia | reflexivity].
    + destruct (safeRequestFrom url maxRetries answers randoms rest c1)
        as [[[r2 c2] later]|e] eqn:E2; cbn [bind]; [|discriminate].
      intros E. injection E as _ _ <-.
      destruct (IH c1 r2 c2 later E2) as [B C].
      destruct (requestsIn_attempt c (evs ++ later)) as [-> ->].
      rewrite requestsIn_app, courtesySleepsIn_app, W, R, C.
      cbn [List.length plus]. split; [lia | reflexivity].
Qed.

(** X8.  A call of [safeRequest] sends at most [maxRetries] requests,
    and before each of them -- and at no other time -- it sleeps the
    jittered courtesy delay. *)
Theorem safeRequest_sends_at_most_maxRetries (c : Client) r c' trace :
  safeRequest url maxRetries answers randoms c = Normal (r, c', trace) ->
  (requestsIn trace <= maxRetries)%nat
  /\ courtesySleepsIn trace = requestsIn trace.
Proof.
  intros E. unfold safeRequest in E.
  apply safeRequestFrom_counts in E. rewrite length_seq in E. exact E.
Qed.

(** A pass returns a response only when the request was answered with
    status 200 and a body; it then adds nothing to the trace. *)
Lemma attemptOnce_returns_response attempt c c' evs resp :
  attemptOnce maxRetries answers randoms attempt c
    = Normal (c', evs, Return (Some resp)) ->
  answers attempt = Normal resp /\ status resp = 200
  /\ data resp <> None /\ evs = [] /\ c' = c.
Proof.
  unfold attemptOnce, onAnswer.
  assert (Handler : forall error,
            snd (onError maxRetries attempt (randoms attempt) c error)
            <> Return (Some resp)).
  { intros error. unfold onError.
    repeat match goal with
           | |- context [if ?b then _ else _] => destruct b
           end; cbn [snd]; discriminate. }
  destruct (answers attempt) as [r|error]; cbn [bind try_catch].
  - destruct (status r =? 200) eqn:S.
    + unfold dataLength. destruct (data r) eqn:D; cbn [bind try_catch].
      * intros E; inversion E; subst. apply Z.eqb_eq in S.
        rewrite D. repeat split; auto. discriminate.
      * intros E; inversion E as [E']. exfalso.
        eapply Handler. rewrite E'. reflexivity.
    + discriminate.
  - intros E; inversion E as [E']. exfalso.
    eapply Handler. rewrite E'. reflexivity.
Qed.

Lemma safeRequestFrom_returns_last m :
  forall k c resp c' trace,
    safeRequestFrom url maxRetries answers randoms (seq k m) c
      = Normal (Some resp, c', trace) ->
    exists a before,
      (k <= a < k + m)%nat
      /\ answers a = Normal resp /\ status resp = 200
      /\ data resp <> None
      /\ requestsIn trace = S (a - k)
      /\ trace = before ++ [Requested url (userAgent c')].
Proof.
  induction m as [|m IH]; intros k c resp c' trace.
  - cbn. discriminate.
  - cbn [seq safeRequestFrom].
    destruct (attemptOnce maxRetries answers randoms k c)
      as [[[c1 evs] step]|e] eqn:E1; cbn [bind]; [|discriminate].
    destruct step as [x|].
    + intros E. injection E as -> -> <-.
      apply attemptOnce_returns_response in E1.
      destruct E1 as (A & S & D & -> & Ec).
      exists k, [Slept (sleep c None)]. rewrite Ec.
      repeat split; auto; try lia.
      rewrite Nat.sub_diag. reflexivity.
    + destruct (safeRequestFrom url maxRetries answers randoms
                  (seq (S k) m) c1)
        as [[[r2 c2] later]|e] eqn:E2; cbn [bind]; [|discriminate].
      intros E. injection E as -> -> <-.
      destruct (IH (S k) c1 resp c' later E2)
        as (a & before & Ha & A & S & D & N & T).
      destruct (attemptOnce_waits k c c1 evs Continue E1) as [_ R].
      exists a, ([Slept (sleep c None); Requested url (userAgent c)]
                 ++ evs ++ before).
      repeat split; auto; try lia.
      * cbn [app sleep].
        destruct (requestsIn_attempt c (evs ++ later)) as [-> _].
        rewrite requestsIn_app, R, N. cbn [plus]. lia.
      * rewrite T, <- !app_assoc. reflexivity.
Qed.

(** X9.  A response that [safeRequest] returns is the answer to the last
    request it sent: that request was answered with status 200 and a body
    that is not [null], the call sent nothing before it but the requests of
    the earlier attempts, and did nothing after it. *)
Theorem returned_response_is_last_answer (c : Client) resp c' trace :
  safeRequest url maxRetries answers randoms c
    = Normal (Some resp, c', trace) ->
  exists a before,
    (a < maxRetries)%nat
    /\ answers a = Normal resp /\ status resp = 200 /\ data resp <> None
    /\ requestsIn trace = S a
    /\ trace = before ++ [Requested url (userAgent c')].
Proof.
  intros E. unfold safeRequest in E.
  apply safeRequestFrom_returns_last in E.
  destruct E as (a & before & Ha & A & S & D & N & T).
  exists a, before. rewrite Nat.sub_0_r in N.
  repeat split; auto. lia.
Qed.

(** What each attempt leaves in the trace when every request meets the
    same kind of outcome. *)
Lemma safeRequestFrom_uniform (c : Client)
  (after : nat -> list Event) (last : nat -> bool) m :
  (forall a, (a < maxRetries)%nat ->
     attemptOnce maxRetries answers randoms a c =
     Normal (c, after a, if last a then Return None else Continue)) ->
  (forall a, last a = true -> (maxRetries <= S a)%nat) ->
  forall k, (k + m = maxRetries)%nat ->
    safeRequestFrom url maxRetries answers randoms (seq k m) c =
    Normal (None, c,
            flat_map (fun a => [Slept (sleep c None);
                                Requested url (userAgent c)] ++ after a)
              (seq k m)).
Proof.
  intros Each Last. induction m as [|m IH]; intros k Hk.
  - reflexivity.
  - cbn [seq safeRequestFrom flat_map].
    rewrite (Each k) by lia. cbn [bind].
    destruct (last k) eqn:L.
    + apply Last in L. assert (m = 0%nat) by lia. subst m.
      cbn [seq flat_map]. rewrite app_nil_r. reflexivity.
    + rewrite (IH (S k)) by lia. cbn [bind].
      rewrite <- !app_assoc. reflexivity.
Qed.

(** X10.  A response whose status is not 200 -- another 2xx status -- is
    not returned and not waited on: when every request is answered that
    way, [safeRequest] sends [maxRetries] requests one after the other,
    with only the courtesy sleep before each, and returns [null]. *)
Theorem other_success_status_is_retried_at_once (c : Client) :
  (forall a, (a < maxRetries)%nat ->
     exists resp, answers a = Normal resp /\ status resp <> 200) ->
  safeRequest url maxRetries answers randoms c =
  Normal (None, c,
          flat_map (fun _ => [Slept (Jittered (delay c));
                              Requested url (userAgent c)])
            (seq 0 maxRetries)).
Proof.
  intros All. unfold safeRequest.
  assert (Same :
    flat_map (fun a : nat => [Slept (sleep c None);
                              Requested url (userAgent c)] ++ [])
      (seq 0 maxRetries) =
    flat_map (fun _ => [Slept (Jittered (delay c));
                        Requested url (userAgent c)])
      (seq 0 maxRetries))
    by (apply flat_map_ext; intros a; exact (app_nil_r _)).
  rewrite <- Same.
  apply (safeRequestFrom_uniform c (fun _ => []) (fun _ => false)).
  - intros a Ha. destruct (All a Ha) as (resp & A & S).
    unfold attemptOnce, onAnswer. rewrite A. cbn [bind try_catch].
    apply Z.eqb_neq in S. rewrite S. reflexivity.
  - discriminate.
  - lia.
Qed.

Lemma fixedWaits_app (t1 t2 : list Event) :
  fixedWaits (t1 ++ t2) = fixedWaits t1 ++ fixedWaits t2.
Proof.
  induction t1 as [|[[ms|base]|u agent] t1 IH]; cbn [app fixedWaits];
    rewrite ?IH; reflexivity.
Qed.

Lemma fixedWaits_flat_map (P : Z -> Prop) (f : nat -> list Event) l :
  (forall a, In a l -> Forall P (fixedWaits (f a))) ->
  Forall P (fixedWaits (flat_map f l)).
Proof.
  induction l as [|a l IH]; intros Each; cbn [flat_map].
  - constructor.
  - rewrite fixedWaits_app. apply Forall_app. split.
    + apply Each. left; reflexivity.
    + apply IH. intros a' Ha'. apply Each. right; exact Ha'.
Qed.

(** X11.  Errors that are no 429, 403 or 404 -- network errors, other
    statuses -- are retried with a wait that grows linearly: after attempt
    [a] the call waits [2000 * (a + 1)] ms, except after the last attempt,
    where it returns [null] at once.  The number of retries is such that
    the longest of these waits, [2000 * (maxRetries - 1)] ms, is one the
    timer keeps: every wait of the trace is then the time slept. *)
Theorem other_errors_back_off_linearly (c : Client) :
  2000 * (Z.of_nat maxRetries - 1) <= 2147483647 ->
  (forall a, (a < maxRetries)%nat ->
     exists error, answers a = Throw error
       /\ statusIs error 429 = false /\ statusIs error 403 = false
       /\ statusIs error 404 = false) ->
  exists trace,
    safeRequest url maxRetries answers randoms c = Normal (None, c, trace)
    /\ trace =
       flat_map (fun a =>
                   [Slept (Jittered (delay c));
                    Requested url (userAgent c)]
                   ++ (if (S a =? maxRetries)%nat then []
                       else [Slept (Exactly (2000 * (Z.of_nat a + 1)))]))
         (seq 0 maxRetries)
    /\ Forall (fun ms => timerHonours ms = true) (fixedWaits trace).
Proof.
  intros Bound All. eexists. split; [|split; [reflexivity|]].
  - unfold safeRequest.
    apply (safeRequestFrom_uniform c
             (fun a => if (S a =? maxRetries)%nat then []
                       else [Slept (Exactly (2000 * (Z.of_nat a + 1)))])
             (fun a => (S a =? maxRetries)%nat)).
    + intros a Ha. destruct (All a Ha) as (error & A & E1 & E2 & E3).
      unfold attemptOnce, onAnswer. rewrite A. cbn [bind try_catch].
      unfold onError. rewrite E1, E2, E3.
      destruct (S a =? maxRetries)%nat eqn:L.
      * apply Nat.eqb_eq in L.
        assert ((Z.of_nat a =? Z.of_nat maxRetries - 1) = true) as ->
          by (apply Z.eqb_eq; lia).
        reflexivity.
      * apply Nat.eqb_neq in L.
        assert ((Z.of_nat a =? Z.of_nat maxRetries - 1) = false) as ->
          by (apply Z.eqb_neq; lia).
        rewrite sleep_fixed by lia. reflexivity.
    + intros a L. apply Nat.eqb_eq in L. lia.
    + lia.
  - apply fixedWaits_flat_map. intros a Ha. apply in_seq in Ha.
    cbn [app fixedWaits].
    destruct (S a =? maxRetries)%nat eqn:L; cbn [fixedWaits];
      constructor; [|constructor].
    apply Nat.eqb_neq in L. unfold timerHonours.
    apply andb_true_iff. split; [apply Z.leb_le | apply Z.leb_le]; lia.
Qed.

(** X12.  When every request is rejected with status 429, [safeRequest]
    waits [2 ^ a * 2000] ms after each attempt [a] -- also after the last
    one, although no request follows -- and then returns [null].  With at
    most 21 retries the longest of these waits is [2 ^ 20 * 2000] ms, the
    last of the sequence that the timer keeps: every wait of the trace is
    then the time slept. *)
Theorem rate_limit_throughout (c : Client) :
  (maxRetries <= 21)%nat ->
  (forall a, (a < maxRetries)%nat ->
     exists error, answers a = Throw error /\ statusIs error 429 = true) ->
  exists trace,
    safeRequest url maxRetries answers randoms c = Normal (None, c, trace)
    /\ trace =
       flat_map (fun a =>
                   [Slept (Jittered (delay c));
                    Requested url (userAgent c);
                    Slept (Exactly (2 ^ Z.of_nat a * 2000))])
         (seq 0 maxRetries)
    /\ Forall (fun ms => timerHonours ms = true) (fixedWaits trace).
Proof.
  intros Bound All. eexists. split; [|split; [reflexivity|]].
  - unfold safeRequest.
    apply (safeRequestFrom_uniform c
             (fun a => [Slept (Exactly (2 ^ Z.of_nat a * 2000))])
             (fun _ => false)).
    + intros a Ha. destruct (All a Ha) as (error & A & E).
      apply (attemptOnce_429 maxRetries answers randoms a c error A E).
    + discriminate.
    + lia.
  - apply fixedWaits_flat_map. intros a Ha. apply in_seq in Ha.
    cbn [fixedWaits]. constructor; [|constructor].
    assert (0 < 2 ^ Z.of_nat a) by (apply Z.pow_pos_nonneg; lia).
    assert (2 ^ Z.of_nat a <= 2 ^ 20)
      by (apply Z.pow_le_mono_r; lia).
    change (2 ^ 20) with 1048576 in *.
    unfold timerHonours.
    apply andb_true_iff. split; [apply Z.leb_le | apply Z.leb_le]; lia.
Qed.

(** The bounds of X11 and X12 are the last ones: the wait that one more
    retry would ask for is beyond the timer's range. *)
Example longer_waits_are_not_kept :
  timerHonours (2000 * (1073740 + 1)) = true
  /\ timerHonours (2000 * (1073741 + 1)) = false
  /\ timerHonours (2 ^ 20 * 2000) = true
  /\ timerHonours (2 ^ 21 * 2000) = false.
Proof. vm_compute. repeat split. Qed.

End FetchMore.

Lemma safeRequest_sends_at_most_maxRetries_witness :
  (requestsIn
     [ Slept (Jittered 2500);
       Requested "https://www.trustpilot.com/review/acme.com"
         (userAgent (newClient 2500));
       Slept (Exactly 2000);
       Slept (Jittered 2500);
       Requested "https://www.trustpilot.com/review/acme.com"
         (userAgent (newClient 2500)) ] <= 3)%nat
  /\ courtesySleepsIn
       [ Slept (Jittered 2500);
         Requested "https://www.trustpilot.com/review/acme.com"
           (userAgent (newClient 2500));
         Slept (Exactly 2000);
         Slept (Jittered 2500);
         Requested "https://www.trustpilot.com/review/acme.com"
           (userAgent (newClient 2500)) ]
     = requestsIn
         [ Slept (Jittered 2500);
           Requested "https://www.trustpilot.com/review/acme.com"
             (userAgent (newClient 2500));
           Slept (Exactly 2000);
           Slept (Jittered 2500);
           Requested "https://www.trustpilot.com/review/acme.com"
             (userAgent (newClient 2500)) ].
Proof.
  apply (safeRequest_sends_at_most_maxRetries
           "https://www.trustpilot.com/review/acme.com" 3
           (scripted [rejected 500; rejected 404; Normal servedPage])
           (fun _ => randomZero) (newClient 2500) None (newClient 2500)).
  reflexivity.
Defined.

Lemma returned_response_is_last_answer_witness :
  exists a before,
    (a < 3)%nat
    /\ scripted [rejected 429; rejected 403; Normal servedPage] a
       = Normal servedPage
    /\ status servedPage = 200 /\ data servedPage <> None
    /\ requestsIn
         [ Slept (Jittered 2500);
           Requested "https://www.trustpilot.com/review/acme.com"
             (userAgent (newClient 2500));
           Slept (Exactly 2000);
           Slept (Jittered 2500);
           Requested "https://www.trustpilot.com/review/acme.com"
             (userAgent (newClient 2500));
           Slept (Exactly 3000);
           Slept (Jittered 2500);
           Requested "https://www.trustpilot.com/review/acme.com"
             (getRandomUserAgent randomThreeQuarters) ] = S a
    /\ [ Slept (Jittered 2500);
         Requested "https://www.trustpilot.com/review/acme.com"
           (userAgent (newClient 2500));
         Slept (Exactly 2000);
         Slept (Jittered 2500);
         Requested "https://www.trustpilot.com/review/acme.com"
           (userAgent (newClient 2500));
         Slept (Exactly 3000);
         Slept (Jittered 2500);
         Requested "https://www.trustpilot.com/review/acme.com"
           (getRandomUserAgent randomThreeQuarters) ]
       = before
         ++ [Requested "https://www.trustpilot.com/review/acme.com"
               (userAgent
                  {| delay := 2500;
                     userAgent :=
                       getRandomUserAgent randomThreeQuarters |})].
Proof.
  apply (returned_response_is_last_answer
           "https://www.trustpilot.com/review/acme.com" 3
           (scripted [rejected 429; rejected 403; Normal servedPage])
           (fun _ => randomThreeQuarters) (newClient 2500) servedPage
           {| delay := 2500;
              userAgent := getRandomUserAgent randomThreeQuarters |}).
  reflexivity.
Defined.

Lemma other_success_status_is_retried_at_once_witness :
  safeRequest "https://www.trustpilot.com/review/acme.com" 2
    (fun _ => Normal {| status := 204; data := Some "" |})
    (fun _ => randomZero) (newClient 2500) =
  Normal (None, newClient 2500,
          flat_map (fun _ =>
                      [Slept (Jittered (delay (newClient 2500)));
                       Requested "https://www.trustpilot.com/review/acme.com"
                         (userAgent (newClient 2500))])
            (seq 0 2)).
Proof.
  apply (other_success_status_is_retried_at_once
           "https://www.trustpilot.com/review/acme.com" 2
           (fun _ => Normal {| status := 204; data := Some "" |})
           (fun _ => randomZero) (newClient 2500)).
  intros a _. exists {| status := 204; data := Some "" |}.
  split; [reflexivity | cbn; lia].
Defined.

Lemma other_errors_back_off_linearly_witness :
  exists trace,
    safeRequest "https://www.trustpilot.com/review/acme.com" 3
      (scripted []) (fun _ => randomZero) (newClient 2500) =
    Normal (None, newClient 2500, trace)
    /\ trace =
       flat_map (fun a =>
                   [Slept (Jittered (delay (newClient 2500)));
                    Requested "https://www.trustpilot.com/review/acme.com"
                      (userAgent (newClient 2500))]
                   ++ (if (S a =? 3)%nat then []
                       else [Slept (Exactly (2000 * (Z.of_nat a + 1)))]))
         (seq 0 3)
    /\ Forall (fun ms => timerHonours ms = true) (fixedWaits trace).
Proof.
  apply (other_errors_back_off_linearly
           "https://www.trustpilot.com/review/acme.com" 3
           (scripted []) (fun _ => randomZero) (newClient 2500)).
  - lia.
  - intros a _. exists (plainError "timeout of 15000ms exceeded").
    split; [destruct a as [|[|a]]; reflexivity | repeat split].
Defined.

Lemma rate_limit_throughout_witness :
  exists trace,
    safeRequest "https://www.trustpilot.com/review/acme.com" 3
      (fun _ => rejected 429) (fun _ => randomZero) (newClient 2500) =
    Normal (None, newClient 2500, trace)
    /\ trace =
       flat_map (fun a =>
                   [Slept (Jittered (delay (newClient 2500)));
                    Requested "https://www.trustpilot.com/review/acme.com"
                      (userAgent (newClient 2500));
                    Slept (Exactly (2 ^ Z.of_nat a * 2000))])
         (seq 0 3)
    /\ Forall (fun ms => timerHonours ms = true) (fixedWaits trace).
Proof.
  apply (rate_limit_throughout
           "https://www.trustpilot.com/review/acme.com" 3
           (fun _ => rejected 429) (fun _ => randomZero) (newClient 2500)).
  - lia.
  - intros a _.
    exists {| message := "Request failed";
              response := Some {| status := 429; data := Some "" |} |}.
    split; reflexivity.
Defined.

(** ** The browser session, further *)

(** What an attach leaves behind. *)
Lemma connectToExistingChrome_cases attach s ok s' :
  connectToExistingChrome attach s = (ok, s') ->
  (ok = true /\ exists b context others p,
      attach = Normal b /\ contexts b = context :: others
      /\ ((exists more, contextPages context = p :: more)
          \/ (contextPages context = [] /\ newPage context = Normal p))
      /\ s' = {| this_browser := Some b; this_page := Some p |})
  \/ (ok = false /\ this_page s' = this_page s).
Proof.
  unfold connectToExistingChrome.
  destruct attach as [b|e]; [|intros E; inversion E; subst; auto].
  destruct (contexts b) as [|context others] eqn:C;
    [intros E; inversion E; subst; auto|].
  destruct (contextPages context) as [|p more] eqn:P.
  - destruct (newPage context) as [p|e] eqn:N;
      intros E; inversion E; subst; auto.
    left. split; auto. exists b, context, others, p. auto 6.
  - intros E; inversion E; subst.
    left. split; auto. exists b, context, others, p.
    repeat split; auto. left. exists more. exact P.
Qed.

(** X13.  [initializeBrowser] returns [true] or throws 'Could not connect
    to Chrome', nothing else.  When it returns, the scraper holds a browser
    and a page, and the page is the first page of the first context of that
    browser (or one the context opened), the browser being one an attach
    of this call returned.  When it throws, [this.page] is what it was
    before the call. *)
Theorem initializeBrowser_outcome (w : Chrome) (s : Session) r s' :
  initializeBrowser w s = (r, s') ->
  (r = Normal true /\ exists b context others p,
      (firstAttach w = Normal b \/ secondAttach w = Normal b)
      /\ contexts b = context :: others
      /\ ((exists more, contextPages context = p :: more)
          \/ (contextPages context = [] /\ newPage context = Normal p))
      /\ s' = {| this_browser := Some b; this_page := Some p |})
  \/ (r = Throw (plainError "Could not connect to Chrome")
      /\ this_page s' = this_page s).
Proof.
  unfold initializeBrowser.
  destruct (connectToExistingChrome (firstAttach w) s)
    as [ok1 s1] eqn:E1.
  apply connectToExistingChrome_cases in E1.
  destruct E1 as [[-> (b & context & others & p & A & C & P & ->)]
                 |[-> P1]]; cbn [negb].
  - intros E; inversion E; subst. left. split; auto.
    exists b, context, others, p. auto.
  - destruct (findChromeExecutable (candidatePaths w) (accessible w)).
    + destruct (connectToExistingChrome (secondAttach w) s1)
        as [ok2 s2] eqn:E2.
      apply connectToExistingChrome_cases in E2.
      destruct E2 as [[-> (b & context & others & p & A & C & P & ->)]
                     |[-> P2]]; cbn [negb];
        intros E; inversion E; subst.
      * left. split; auto. exists b, context, others, p. auto.
      * right. split; auto. congruence.
    + cbn [negb]. intros E; inversion E; subst. right. auto.
Qed.

Lemma initializeBrowser_outcome_witness :
  (Normal true = Normal true /\ exists b context others p,
      (firstAttach (chromeAnswering secondBrowser) = Normal b
       \/ secondAttach (chromeAnswering secondBrowser) = Normal b)
      /\ contexts b = context :: others
      /\ ((exists more, contextPages context = p :: more)
          \/ (contextPages context = [] /\ newPage context = Normal p))
      /\ {| this_browser := Some secondBrowser; this_page := Some 20%nat |}
         = {| this_browser := Some b; this_page := Some p |})
  \/ (Normal true = Throw (plainError "Could not connect to Chrome")
      /\ this_page {| this_browser := Some secondBrowser;
                      this_page := Some 20%nat |}
         = this_page noSession).
Proof.
  apply (initializeBrowser_outcome (chromeAnswering secondBrowser)
           noSession (Normal true)
           {| this_browser := Some secondBrowser;
              this_page := Some 20%nat |}).
  reflexivity.
Defined.

(** X14.  [findChromeExecutable] returns the first path of the list that
    can be accessed -- the paths before it cannot -- and [null] exactly
    when none can. *)
Theorem findChromeExecutable_first (paths : list string)
  (acc : string -> bool) :
  (forall p, findChromeExecutable paths acc = Some p ->
     exists before after,
       paths = before ++ p :: after /\ acc p = true
       /\ forall q, In q before -> acc q = false)
  /\ (findChromeExecutable paths acc = None <->
      forall q, In q paths -> acc q = false).
Proof.
  unfold findChromeExecutable. split.
  - induction paths as [|q paths IH]; intros p; cbn [find].
    + discriminate.
    + destruct (acc q) eqn:A.
      * intros E; inversion E; subst.
        exists [], paths. repeat split; auto. intros ? [].
      * intros E. destruct (IH p E) as (before & after & -> & Ap & Hb).
        exists (q :: before), after. repeat split; auto.
        intros q' [<-|Hq]; auto.
  - split.
    + intros E q Hq. apply (find_none _ _ E q Hq).
    + intros No. induction paths as [|q paths IH]; cbn [find]; auto.
      rewrite (No q (or_introl eq_refl)).
      apply IH. intros q' Hq'. apply No. right; exact Hq'.
Qed.

Lemma findChromeExecutable_first_witness :
  exists before after,
    [ "/usr/bin/google-chrome"; "/usr/bin/google-chrome-stable";
      "/usr/bin/chromium-browser"; "/usr/bin/chromium";
      "/snap/bin/chromium" ]
    = before ++ "/usr/bin/chromium-browser" :: after
    /\ (fun p => String.prefix "/usr/bin/chromium" p
                 || (p =? "/snap/bin/chromium")%string)
         "/usr/bin/chromium-browser" = true
    /\ forall q, In q before ->
         (fun p => String.prefix "/usr/bin/chromium" p
                   || (p =? "/snap/bin/chromium")%string) q = false.
Proof.
  apply (proj1 (findChromeExecutable_first
                  [ "/usr/bin/google-chrome"; "/usr/bin/google-chrome-stable";
                    "/usr/bin/chromium-browser"; "/usr/bin/chromium";
                    "/snap/bin/chromium" ]
                  (fun p => String.prefix "/usr/bin/chromium" p
                            || (p =? "/snap/bin/chromium")%string))
           "/usr/bin/chromium-browser").
  reflexivity.
Defined.

(** ** The challenge detector, further *)

Section DetectorMore.
Context `{Casing}.
Variable captchaText : list string.

(** How the selector loop ends. *)
Lemma anySelector_true (v : PageView) selectors :
  anySelector v selectors = Normal true <->
  exists before selector after,
    selectors = before ++ selector :: after
    /\ (forall s, In s before -> queryOne v s = Normal false)
    /\ queryOne v selector = Normal true.
Proof.
  induction selectors as [|s rest IH]; cbn [anySelector].
  - split; [discriminate|].
    intros (before & selector & after & E & _). destruct before; discriminate.
  - destruct (queryOne v s) as [[|]|e] eqn:Q; cbn [bind].
    + split; auto. intros _. exists [], s, rest.
      repeat split; auto. intros ? [].
    + rewrite IH. split.
      * intros (before & selector & after & -> & Hb & Hq).
        exists (s :: before), selector, after. repeat split; auto.
        intros s' [<-|Hs']; auto.
      * intros (before & selector & after & E & Hb & Hq).
        destruct before as [|s0 before]; cbn in E; inversion E; subst.
        -- congruence.
        -- exists before, selector, after. repeat split; auto.
           intros s' Hs'. apply Hb. right; exact Hs'.
    + split; [discriminate|].
      intros (before & selector & after & E & Hb & Hq).
      destruct before as [|s0 before]; cbn in E; inversion E; subst.
      * congruence.
      * rewrite (Hb s0 (or_introl eq_refl)) in Q. discriminate.
Qed.

Lemma anySelector_false (v : PageView) selectors :
  anySelector v selectors = Normal false <->
  forall s, In s selectors -> queryOne v s = Normal false.
Proof.
  split; [|apply anySelector_none].
  induction selectors as [|s rest IH]; cbn [anySelector].
  - intros _ ? [].
  - destruct (queryOne v s) as [[|]|e] eqn:Q; cbn [bind];
      try discriminate.
    intros E s' [<-|Hs']; auto.
Qed.

(** X15.  [detectCaptcha] answers [true] in exactly two cases: a selector
    of its list matches and every selector before it was queried without a
    match and without an error; or no selector matches, the content can be
    read, and its lower-cased text contains one of the phrases.  The
    content is not looked at when a selector matched. *)
Theorem detectCaptcha_true_iff (pg : option PageView) :
  detectCaptcha captchaText pg = Normal true <->
  exists v, pg = Some v
    /\ ((exists before selector after,
           captchaSelectors = before ++ selector :: after
           /\ (forall s, In s before -> queryOne v s = Normal false)
           /\ queryOne v selector = Normal true)
        \/ ((forall s, In s captchaSelectors -> queryOne v s = Normal false)
            /\ exists content text,
                 pageContent v = Normal content
                 /\ In text captchaText
                 /\ includes (toLowerCase content) text = true)).
Proof.
  unfold detectCaptcha, inspectPage. destruct pg as [v|]; cbn [try_catch].
  - destruct (anySelector v captchaSelectors) as [[|]|e] eqn:A;
      cbn [bind try_catch].
    + split; auto. intros _. exists v. split; auto. left.
      apply anySelector_true. exact A.
    + pose proof (proj1 (anySelector_false v captchaSelectors) A) as F.
      destruct (pageContent v) as [content|e] eqn:C; cbn [bind try_catch].
      * split.
        -- intros E. injection E as E'. apply existsb_exists in E'.
           destruct E' as (text & Ht & Hi).
           exists v. split; auto. right. split; auto.
           exists content, text. auto.
        -- intros (v' & Ev & [Sel|(_ & content' & text & Ec & Ht & Hi)]);
             inversion Ev; subst v'.
           ++ apply anySelector_true in Sel. congruence.
           ++ assert (content' = content) by congruence. subst content'.
              f_equal. apply existsb_exists. exists text. auto.
      * split; [discriminate|].
        intros (v' & Ev & [Sel|(_ & content' & text & Ec & _)]);
          inversion Ev; subst v'.
        -- apply anySelector_true in Sel. congruence.
        -- congruence.
    + split; [discriminate|].
      intros (v' & Ev & [Sel|(F & _)]); inversion Ev; subst v'.
      * apply anySelector_true in Sel. congruence.
      * apply anySelector_false in F. congruence.
  - split; [discriminate|]. intros (v & Ev & _). discriminate.
Qed.

End DetectorMore.

Lemma detectCaptcha_true_iff_witness :
  exists v, Some challengeView = Some v
    /\ ((exists before selector after,
           captchaSelectors = before ++ selector :: after
           /\ (forall s, In s before -> queryOne v s = Normal false)
           /\ queryOne v selector = Normal true)
        \/ ((forall s, In s captchaSelectors -> queryOne v s = Normal false)
            /\ exists content text,
                 pageContent v = Normal content
                 /\ In text Capterra_captchaText
                 /\ includes (@toLowerCase demoCasing content) text = true)).
Proof.
  apply (proj1 (@detectCaptcha_true_iff demoCasing Capterra_captchaText
                  (Some challengeView))).
  vm_compute. reflexivity.
Defined.

(** ** The page-ready waiter and navigation, further *)

Section WaiterMore.
Variable detect : option PageView -> Completion bool.
Variable expectedUrlPattern : option string.

Lemma lookAtPage_ready (p : Poll) :
  lookAtPage detect expectedUrlPattern p = Normal (Some true) <->
  seenReady detect expectedUrlPattern (seen p).
Proof.
  unfold lookAtPage, seenReady.
  destruct (detect (Some (seen p))) as [[|]|e]; cbn [bind negb].
  - split; [discriminate | intros [? _]; discriminate].
  - destruct (truthy expectedUrlPattern) as [pattern|].
    + destruct (includes (currentUrl (seen p)) pattern).
      * split; auto.
      * split; [discriminate | intros [_ ?]; discriminate].
    + split; auto.
  - split; [discriminate | intros [? _]; discriminate].
Qed.

(** An exception leaves the waiting loop only from the timer inside
    [catch]. *)
Lemma waitLoop_throws maxWaitTime polls startTime (fuel : nat) :
  forall k now e t,
    waitLoop detect expectedUrlPattern maxWaitTime polls startTime
      fuel k now = Some (Throw e, t) ->
    exists j after,
      secondTimer (polls j) = Failed after
      /\ ((exists after1, firstTimer (polls j) = Failed after1)
          \/ exists e', lookAtPage detect expectedUrlPattern (polls j)
                        = Throw e').
Proof.
  induction fuel as [|fuel IH]; intros k now e t; cbn [waitLoop];
    destruct (now - startTime <? maxWaitTime); try discriminate.
  cbv zeta.
  destruct (firstTimer (polls k)) as [extra|after1] eqn:F1;
    cbn [waitForTimeout].
  - destruct (lookAtPage detect expectedUrlPattern (polls k))
      as [[b|]|e'] eqn:L.
    + discriminate.
    + apply IH.
    + destruct (secondTimer (polls k)) as [extra2|after2] eqn:F2;
        cbn [waitForTimeout]; [apply IH|].
      intros _. exists k, after2. split; auto. right. exists e'. exact L.
  - destruct (secondTimer (polls k)) as [extra2|after2] eqn:F2;
      cbn [waitForTimeout]; [apply IH|].
    intros _. exists k, after2. split; auto. left. exists after1. exact F1.
Qed.

End WaiterMore.

Section NavigationOfScraper.
Context `{Casing}.
Variable captchaText : list string.
Variable expectedUrlPattern : option string.

Lemma detectCaptcha_normal (pg : option PageView) :
  exists blocked, detectCaptcha captchaText pg = Normal blocked.
Proof.
  unfold detectCaptcha.
  destruct (inspectPage captchaText pg) as [b|e]; cbn [try_catch];
    eexists; reflexivity.
Qed.

(** X16.  [waitForPageReady] answers [true] only when one of its polls
    saw the page ready: [detectCaptcha] reported no challenge and, when a
    pattern is expected, the URL of the page contained it. *)
Theorem waiter_true_means_seen_ready (maxWaitTime : Z)
  (polls : nat -> Poll) (startTime : Z) (fuel : nat) (t : Z) :
  waitForPageReady (detectCaptcha captchaText) expectedUrlPattern
    maxWaitTime polls startTime fuel = Some (Normal true, t) ->
  exists k, seenReady (detectCaptcha captchaText) expectedUrlPattern
              (seen (polls k)).
Proof.
  unfold waitForPageReady. intros E.
  apply waitLoop_verdict in E. destruct E as [_ Et].
  destruct (Et eq_refl) as [j L]. exists j.
  apply lookAtPage_ready. exact L.
Qed.

(** X17.  [waitForPageReady] throws only when, in one and the same pass,
    the timer at the top of [try] and the timer inside [catch] both
    failed. *)
Theorem waiter_throws_only_on_two_failed_timers (maxWaitTime : Z)
  (polls : nat -> Poll) (startTime : Z) (fuel : nat) e (t : Z) :
  waitForPageReady (detectCaptcha captchaText) expectedUrlPattern
    maxWaitTime polls startTime fuel = Some (Throw e, t) ->
  exists k after1 after2,
    firstTimer (polls k) = Failed after1
    /\ secondTimer (polls k) = Failed after2.
Proof.
  unfold waitForPageReady. intros E.
  apply waitLoop_throws in E.
  destruct E as (j & after2 & F2 & [[after1 F1]|[e' L]]).
  - exists j, after1, after2. auto.
  - exfalso. revert L. unfold lookAtPage.
    destruct (detectCaptcha_normal (Some (seen (polls j)))) as [b ->].
    cbn [bind]. destruct b; cbn [negb]; [discriminate|].
    destruct (truthy expectedUrlPattern);
      [destruct (includes _ _)|]; discriminate.
Qed.

(** X18.  [navigateToPage] answers [true] only for a scraper that holds a
    page, after a [goto] that did not throw, and only when the page was
    seen ready: right after the initial wait, or by a poll of the wait
    that followed. *)
Theorem navigateToPage_true_means_ready (v : Visit) (s : Session)
  (now : Z) (fuel : nat) (t : Z) :
  navigateToPage (detectCaptcha captchaText) expectedUrlPattern v s now fuel
    = Some (true, t) ->
  this_page s <> None
  /\ gotoResult v = Normal tt
  /\ (seenReady (detectCaptcha captchaText) expectedUrlPattern (landed v)
      \/ exists k, seenReady (detectCaptcha captchaText) expectedUrlPattern
                     (seen (laterPolls v k))).
Proof.
  unfold navigateToPage.
  destruct (this_page s) as [p|]; [|discriminate].
  destruct (gotoResult v) as [[]|e]; [|discriminate].
  destruct (renderTimer v) as [extra|after]; cbn [waitForTimeout];
    [|discriminate].
  cbv zeta.
  assert (Wait : forall budget start,
    match waitForPageReady (detectCaptcha captchaText) expectedUrlPattern
            budget (laterPolls v) start fuel with
    | None => None
    | Some (Normal ready, t3) => Some (ready, t3)
    | Some (Throw _, t3) => Some (false, t3)
    end = Some (true, t) ->
    exists k, seenReady (detectCaptcha captchaText) expectedUrlPattern
                (seen (laterPolls v k))).
  { intros budget start.
    destruct (waitForPageReady (detectCaptcha captchaText)
                expectedUrlPattern budget (laterPolls v) start fuel)
      as [[[ready|e] t3]|] eqn:W; try discriminate.
    intros E. injection E as -> ->.
    unfold waitForPageReady in W. apply waitLoop_verdict in W.
    destruct W as [_ Wt]. destruct (Wt eq_refl) as [j L]. exists j.
    apply lookAtPage_ready. exact L. }
  destruct (detectCaptcha captchaText (Some (landed v))) as [[|]|e] eqn:D;
    try discriminate.
  - intros E. repeat split; try discriminate. right.
    eapply Wait. exact E.
  - destruct (truthy expectedUrlPattern) as [pattern|] eqn:T.
    + destruct (includes (currentUrl (landed v)) pattern) eqn:I;
        cbn [negb].
      * intros _. repeat split; try discriminate. left.
        unfold seenReady. rewrite D, T. auto.
      * intros E. repeat split; try discriminate. right.
        eapply Wait. exact E.
    + intros _. repeat split; try discriminate. left.
      unfold seenReady. rewrite D, T. auto.
Qed.

(** X19.  When the page right after the initial wait shows a challenge and
    every later poll still shows it, [navigateToPage] answers [false], and
    no sooner than 63 seconds after it was entered (3 for the initial
    wait, 60 for the challenge). *)
Theorem navigateToPage_gives_up_on_challenge (v : Visit) (s : Session)
  (now : Z) (fuel : nat) p extra :
  this_page s = Some p ->
  gotoResult v = Normal tt ->
  renderTimer v = Elapsed extra ->
  detectCaptcha captchaText (Some (landed v)) = Normal true ->
  (forall k, detectCaptcha captchaText (Some (seen (laterPolls v k)))
             = Normal true) ->
  (forall k after, firstTimer (laterPolls v k) = Failed after ->
     exists extra', secondTimer (laterPolls v k) = Elapsed extra') ->
  (30 <= fuel)%nat ->
  exists t,
    navigateToPage (detectCaptcha captchaText) expectedUrlPattern
      v s now fuel = Some (false, t)
    /\ 63000 <= t - now.
Proof.
  intros P G R D Blocked Timers Hf.
  unfold navigateToPage. rewrite P, G, R. cbn [waitForTimeout]. cbv zeta.
  rewrite D. unfold waitForPageReady.
  destruct (waitLoop_times_out (detectCaptcha captchaText)
              expectedUrlPattern 60000 (laterPolls v)
              (now + Z.of_N (gotoTook v) + 3000 + Z.of_N extra
               + Z.of_N (landedTook v))
              Blocked Timers fuel 0%nat
              (now + Z.of_N (gotoTook v) + 3000 + Z.of_N extra
               + Z.of_N (landedTook v)) ltac:(lia))
    as (t & -> & Ht).
  exists t. split; [reflexivity | lia].
Qed.

End NavigationOfScraper.

Lemma waiter_true_means_seen_ready_witness :
  exists k,
    seenReady (@detectCaptcha demoCasing G2_captchaText)
      (Some "/products/") (seen (clearingPolls k)).
Proof.
  apply (@waiter_true_means_seen_ready demoCasing G2_captchaText
           (Some "/products/") 60000 clearingPolls
           1700000000000 30%nat 1700000006015).
  vm_compute. reflexivity.
Defined.

Lemma waiter_throws_only_on_two_failed_timers_witness :
  exists k after1 after2,
    firstTimer ((fun _ : nat => closedPoll) k) = Failed after1
    /\ secondTimer ((fun _ : nat => closedPoll) k) = Failed after2.
Proof.
  apply (@waiter_throws_only_on_two_failed_timers demoCasing G2_captchaText
           None 60000 (fun _ : nat => closedPoll) 0 10%nat
           (plainError "Target page, context or browser has been closed")
           0).
  vm_compute. reflexivity.
Defined.

Lemma navigateToPage_true_means_ready_witness :
  this_page {| this_browser := Some firstBrowser;
               this_page := Some 10%nat |} <> None
  /\ gotoResult plainVisit = Normal tt
  /\ (seenReady (@detectCaptcha demoCasing G2_captchaText)
        (Some "/products/") (landed plainVisit)
      \/ exists k, seenReady (@detectCaptcha demoCasing G2_captchaText)
                     (Some "/products/") (seen (laterPolls plainVisit k))).
Proof.
  apply (@navigateToPage_true_means_ready demoCasing G2_captchaText
           (Some "/products/") plainVisit
           {| this_browser := Some firstBrowser; this_page := Some 10%nat |}
           1700000000000 5%nat 1700000003805).
  vm_compute. reflexivity.
Defined.

Lemma navigateToPage_gives_up_on_challenge_witness :
  exists t,
    navigateToPage (@detectCaptcha demoCasing G2_captchaText)
      (Some "/products/") stuckVisit
      {| this_browser := Some firstBrowser; this_page := Some 10%nat |}
      1700000000000 30 = Some (false, t)
    /\ 63000 <= t - 1700000000000.
Proof.
  apply (@navigateToPage_gives_up_on_challenge demoCasing G2_captchaText
           (Some "/products/") stuckVisit
           {| this_browser := Some firstBrowser; this_page := Some 10%nat |}
           1700000000000 30%nat 10%nat 0%N).
  - reflexivity.
  - reflexivity.
  - reflexivity.
  - reflexivity.
  - intros k. reflexivity.
  - intros k after F. exists 0%N. reflexivity.
  - lia.
Defined.

(** A scraper that holds no page gets [false] from [navigateToPage], at
    once and without an exception. *)
Example navigateToPage_without_session :
  navigateToPage (@detectCaptcha demoCasing G2_captchaText)
    (Some "/products/") plainVisit noSession 1700000000000 5 =
  Some (false, 1700000000000).
Proof. reflexivity. Qed.

(** ** The command-line run *)

Section Run.
Context `{Moment} `{ArraySort}.

(** X20.  The window that [main] hands to the scrapers is well formed:
    both dates were given in the strict format [YYYY-MM-DD], the start is
    not after the end, and the start is not in the future.  (The end may
    be.) *)
Theorem checkDates_window (o : Options) (now startDate endDate : JSDate) :
  checkDates o now = Normal (startDate, endDate) ->
  startDate <= endDate /\ startDate <= now
  /\ moment_strict (opt_startDate o) "YYYY-MM-DD" = Some startDate
  /\ moment_strict (opt_endDate o) "YYYY-MM-DD" = Some endDate.
Proof.
  unfold checkDates.
  destruct (moment_strict (opt_startDate o) "YYYY-MM-DD") as [s|];
    [|discriminate].
  destruct (moment_strict (opt_endDate o) "YYYY-MM-DD") as [e|];
    [|discriminate].
  destruct (s >? e) eqn:G1; [discriminate|].
  destruct (s >? now) eqn:G2; [discriminate|].
  intros E; inversion E; subst.
  rewrite Z.gtb_ltb in G1, G2. apply Z.ltb_ge in G1, G2. auto.
Qed.

Lemma scrapeSources_spec run sources :
  forall allReviews scrapingResults,
    scrapeSources run sources allReviews scrapingResults =
    (allReviews ++ gathered run sources,
     scrapingResults ++ map (fun source => (source, resultOf (run source)))
                          sources).
Proof.
  induction sources as [|source rest IH]; intros allReviews scrapingResults.
  - cbn. rewrite !app_nil_r. reflexivity.
  - cbn [scrapeSources gathered flat_map map].
    destruct (run source) as [reviews|e]; rewrite IH;
      rewrite <- !app_assoc; reflexivity.
Qed.

Lemma gathered_length run sources :
  List.length (gathered run sources) =
  list_sum (map (fun source => count (resultOf (run source))) sources).
Proof.
  induction sources as [|source rest IH]; cbn [gathered flat_map map list_sum];
    auto.
  rewrite length_app. fold (gathered run rest). rewrite IH.
  destruct (run source); reflexivity.
Qed.

(** X21.  The loop over the sources keeps the sources apart: the reviews
    gathered are those of the sources whose [scrapeReviews] returned, in
    the order of the sources; a source that threw adds nothing, takes
    nothing away, and is recorded with [success = false], count 0 and its
    error message; every source gets its entry; and the counts of the
    entries add up to the number of reviews gathered. *)
Theorem scrapeSources_keeps_sources_apart
  (run : Source -> Completion (list ReviewData)) (sources : list Source) :
  scrapeSources run sources [] [] =
  (gathered run sources,
   map (fun source => (source, resultOf (run source))) sources)
  /\ List.length (gathered run sources) =
     list_sum (map (fun entry => count (snd entry))
                 (snd (scrapeSources run sources [] [])))
  /\ (forall source e, run source = Throw e ->
        resultOf (run source) =
        {| success := false; count := 0; error := Some (message e) |}).
Proof.
  rewrite scrapeSources_spec. cbn [app snd]. split; [reflexivity|]. split.
  - rewrite map_map. cbn [snd]. apply gathered_length.
  - intros source e ->. reflexivity.
Qed.

Lemma length_zero_iff_nil {A : Type} (l : list A) :
  (List.length l =? 0)%nat = true <-> l = [].
Proof.
  destruct l; cbn; split; auto; discriminate.
Qed.

Lemma gathered_nonempty run sources :
  gathered run sources <> [] <->
  exists source reviews,
    In source sources /\ run source = Normal reviews /\ reviews <> [].
Proof.
  induction sources as [|source rest IH]; cbn [gathered flat_map].
  - split; [congruence | intros (? & ? & [] & _)].
  - fold (gathered run rest). split.
    + intros Ne.
      destruct (run source) as [[|r reviews]|e] eqn:R; cbn [app] in Ne.
      * apply IH in Ne. destruct Ne as (src & l & Hin & Hr & Hl).
        exists src, l. repeat split; auto. right; exact Hin.
      * exists source, (r :: reviews). repeat split; auto.
        -- left; reflexivity.
        -- discriminate.
      * apply IH in Ne. destruct Ne as (src & l & Hin & Hr & Hl).
        exists src, l. repeat split; auto. right; exact Hin.
    + intros (src & l & [<-|Hin] & Hr & Hl).
      * rewrite Hr. destruct l; [congruence | discriminate].
      * intros E. apply app_eq_nil in E. destruct E as [_ E].
        revert E. apply IH. exists src, l. auto.
Qed.

(** X22.  [main] runs to its end -- the process does not exit with
    status 1 -- exactly when the dates pass their checks, the source name
    is one of g2, capterra, trustpilot and all, the output file can be
    written, and at least one of the chosen sources returned at least one
    review. *)
Theorem main_completes_iff (o : Options) (now : JSDate)
  (run : Source -> JSDate -> JSDate -> Completion (list ReviewData))
  (writeFile : Completion unit) :
  fst (main o now run writeFile) = Completed <->
  exists startDate endDate sources,
    checkDates o now = Normal (startDate, endDate)
    /\ chooseSources (opt_source o) = Normal sources
    /\ writeFile = Normal tt
    /\ exists source reviews,
         In source sources
         /\ run source startDate endDate = Normal reviews
         /\ reviews <> [].
Proof.
  unfold main.
  destruct (checkDates o now) as [[s e]|err] eqn:D; cbn [bind].
  - destruct (chooseSources (opt_source o)) as [sources|err] eqn:C;
      cbn [bind].
    + rewrite scrapeSources_spec. cbn [app].
      destruct writeFile as [[]|err].
      * destruct (List.length _ =? 0)%nat eqn:L; cbn [fst].
        -- apply length_zero_iff_nil in L.
           assert (G : gathered (fun source => run source s e) sources = []).
           { apply Permutation_nil.
             rewrite <- L. apply sort_permutes. }
           split; [discriminate|].
           intros (s' & e' & sources' & Ed & Ec & _ & Some).
           inversion Ed; inversion Ec; subst.
           exfalso. revert G.
           apply (gathered_nonempty (fun source => run source s' e')).
           exact Some.
        -- split; auto. intros _. exists s, e, sources.
           repeat split; auto.
           apply (gathered_nonempty (fun source => run source s e)).
           intros G. rewrite G in L.
           assert (N : sortNewestFirst [] = []).
           { apply Permutation_nil. symmetry. apply sort_permutes. }
           rewrite N in L. discriminate.
      * cbn [fst]. split; [discriminate|].
        intros (? & ? & ? & _ & _ & W & _). discriminate.
    + cbn [fst]. split; [discriminate|].
      intros (? & ? & ? & _ & Ec & _). discriminate.
  - cbn [fst]. split; [discriminate|].
    intros (? & ? & ? & Ed & _). discriminate.
Qed.

(** X23.  Whenever [main] writes its document, the reviews in it are the
    reviews gathered from the sources that returned, in some order;
    [total_reviews] is their number and the sum of the counts recorded per
    source.  The document is written also when no review was found, just
    before the process exits with status 1. *)
Theorem main_report_is_consistent (o : Options) (now : JSDate)
  (run : Source -> JSDate -> JSDate -> Completion (list ReviewData))
  (writeFile : Completion unit) ending report :
  main o now run writeFile = (ending, Some report) ->
  exists startDate endDate sources,
    checkDates o now = Normal (startDate, endDate)
    /\ chooseSources (opt_source o) = Normal sources
    /\ Permutation (reportReviews report)
         (gathered (fun source => run source startDate endDate) sources)
    /\ total_reviews report = List.length (reportReviews report)
    /\ total_reviews report =
       list_sum (map (fun entry => count (snd entry))
                   (scraping_results report))
    /\ map fst (scraping_results report) = sources
    /\ (ending = Exit1 <-> reportReviews report = []).
Proof.
  unfold main.
  destruct (checkDates o now) as [[s e]|err] eqn:D; cbn [bind];
    [|discriminate].
  destruct (chooseSources (opt_source o)) as [sources|err] eqn:C;
    cbn [bind]; [|discriminate].
  rewrite scrapeSources_spec. cbn [app].
  destruct writeFile as [[]|err]; [|discriminate].
  intros E. exists s, e, sources.
  assert (R : report =
    {| total_reviews :=
         List.length (gathered (fun source => run source s e) sources);
       scraping_results :=
         map (fun source => (source, resultOf (run source s e))) sources;
       reportReviews :=
         sortNewestFirst (gathered (fun source => run source s e) sources)
    |}).
  { destruct (List.length _ =? 0)%nat; inversion E; reflexivity. }
  assert (En : ending = Exit1 <->
               sortNewestFirst
                 (gathered (fun source => run source s e) sources) = []).
  { destruct (List.length _ =? 0)%nat eqn:L; inversion E; subst.
    - apply length_zero_iff_nil in L. tauto.
    - split; [discriminate|]. intros N. rewrite N in L. discriminate. }
  subst report. cbn [total_reviews scraping_results reportReviews].
  repeat split; auto.
  - apply sort_permutes.
  - symmetry. apply Permutation_length. apply sort_permutes.
  - rewrite map_map. cbn [snd].
    apply (gathered_length (fun source => run source s e)).
  - rewrite map_map. cbn [fst]. apply map_id.
  - apply En.
  - apply En.
Qed.

End Run.

Lemma checkDates_window_witness :
  1705276800000 <= 1707523200000 /\ 1705276800000 <= 1762041600000
  /\ @moment_strict demoMoment (opt_startDate demoOptions) "YYYY-MM-DD"
     = Some 1705276800000
  /\ @moment_strict demoMoment (opt_endDate demoOptions) "YYYY-MM-DD"
     = Some 1707523200000.
Proof.
  apply (@checkDates_window demoMoment demoOptions 1762041600000
           1705276800000 1707523200000).
  reflexivity.
Defined.

Lemma main_completes_iff_witness :
  fst (@main demoMoment demoSort demoOptions 1762041600000 demoRun
         (Normal tt)) = Completed.
Proof.
  apply (proj2 (@main_completes_iff demoMoment demoSort demoOptions
                  1762041600000 demoRun (Normal tt))).
  exists 1705276800000, 1707523200000, [G2; Capterra; TrustPilot].
  repeat split; try reflexivity.
  exists TrustPilot, [demoReview "2024-02-10"; demoReview "2024-01-15"].
  repeat split.
  - right; right; left; reflexivity.
  - discriminate.
Defined.

Lemma main_report_is_consistent_witness :
  exists startDate endDate sources,
    @checkDates demoMoment demoOptions 1762041600000
      = Normal (startDate, endDate)
    /\ chooseSources (opt_source demoOptions) = Normal sources
    /\ Permutation
         (reportReviews
            {| total_reviews := 2;
               scraping_results :=
                 [ (G2, {| success := false; count := 0;
                           error := Some "Could not connect to Chrome" |});
                   (Capterra, {| success := true; count := 0;
                                 error := None |});
                   (TrustPilot, {| success := true; count := 2;
                                   error := None |}) ];
               reportReviews := [ demoReview "2024-02-10";
                                  demoReview "2024-01-15" ] |})
         (gathered (fun source => demoRun source startDate endDate) sources)
    /\ 2%nat = 2%nat
    /\ 2%nat = list_sum [0; 0; 2]%nat
    /\ [G2; Capterra; TrustPilot] = sources
    /\ (Completed = Exit1 <->
        [ demoReview "2024-02-10"; demoReview "2024-01-15" ] = []).
Proof.
  apply (@main_report_is_consistent demoMoment demoSort demoOptions
           1762041600000 demoRun (Normal tt) Completed
           {| total_reviews := 2;
              scraping_results :=
                [ (G2, {| success := false; count := 0;
                          error := Some "Could not connect to Chrome" |});
                  (Capterra, {| success := true; count := 0;
                                error := None |});
                  (TrustPilot, {| success := true; count := 2;
                                  error := None |}) ];
              reportReviews := [ demoReview "2024-02-10";
                                 demoReview "2024-01-15" ] |}).
  reflexivity.
Defined.

(** An unknown source name ends the run before anything is scraped or
    written; so does a start date after the end date. *)
Example main_rejects_bad_options :
  @main demoMoment demoSort
    {| opt_company := "Acme"; opt_startDate := "2024-01-15";
       opt_endDate := "2024-02-10"; opt_source := "yelp" |}
    1762041600000 demoRun (Normal tt) = (Exit1, None)
  /\ @main demoMoment demoSort
       {| opt_company := "Acme"; opt_startDate := "2024-02-10";
          opt_endDate := "2024-01-15"; opt_source := "all" |}
       1762041600000 demoRun (Normal tt) = (Exit1, None).
Proof. split; reflexivity. Qed.

(** ** Parsing dates *)

Section Parsing.
Context `{Moment}.

Lemma firstValid_first s before format after d :
  (forall g, In g before -> moment_strict s g = None) ->
  moment_strict s format = Some d ->
  firstValid s (before ++ format :: after) = Some d.
Proof.
  induction before as [|g before IH]; intros Hb Hf; cbn [app firstValid].
  - rewrite Hf. reflexivity.
  - rewrite (Hb g (or_introl eq_refl)).
    apply IH; auto. intros g' Hg'. apply Hb. right; exact Hg'.
Qed.

Lemma firstValid_none s fs :
  (forall g, In g fs -> moment_strict s g = None) ->
  firstValid s fs = None.
Proof.
  induction fs as [|g fs IH]; intros Hb; cbn [firstValid]; auto.
  rewrite (Hb g (or_introl eq_refl)).
  apply IH. intros g' Hg'. apply Hb. right; exact Hg'.
Qed.

(** X24.  For a date string other than the empty string, 'Unknown' and
    'No date', [parseDate] takes the first of its eight formats, in their
    order, under which the cleaned string is strictly valid -- so the
    day-first reading [DD/MM/YYYY] wins over [MM/DD/YYYY] -- and falls back
    on [moment]'s free parsing only when none is. *)
Theorem parseDate_takes_first_format (s : string) :
  s <> "" -> s <> "Unknown" -> s <> "No date" ->
  (forall before format after d,
      formats = before ++ format :: after ->
      (forall g, In g before ->
         moment_strict (normalizeSpaces s) g = None) ->
      moment_strict (normalizeSpaces s) format = Some d ->
      parseDate (Some s) = Some d)
  /\ ((forall g, In g formats ->
         moment_strict (normalizeSpaces s) g = None) ->
      parseDate (Some s) = moment_natural (normalizeSpaces s)).
Proof.
  intros N1 N2 N3. unfold parseDate.
  apply String.eqb_neq in N1, N2, N3. rewrite N1, N2, N3. cbn [orb].
  split.
  - intros before format after d -> Hb Hf.
    rewrite (firstValid_first _ before format after d Hb Hf). reflexivity.
  - intros Hn. rewrite (firstValid_none _ formats Hn). reflexivity.
Qed.

End Parsing.

Lemma parseDate_takes_first_format_witness :
  @parseDate demoMoment (Some "2024-01-15") = Some 1705276800000.
Proof.
  apply (proj1 (@parseDate_takes_first_format demoMoment "2024-01-15"
                  ltac:(discriminate) ltac:(discriminate)
                  ltac:(discriminate))
           [] "YYYY-MM-DD"
           [ "MMMM DD, YYYY"; "MMM DD, YYYY"; "DD/MM/YYYY"; "MM/DD/YYYY";
             "YYYY/MM/DD"; "DD MMM YYYY"; "MMM DD YYYY" ]
           1705276800000).
  - reflexivity.
  - intros g [].
  - reflexivity.
Defined.

(** ** The TrustPilot loop together with its requests *)

Section TrustPilotRequests.
Context `{Moment}.
Variable extract : Response -> list (option ReviewData).
Variables startDate endDate : JSDate.
Variable maxPages : Z.
Variable productUrl : string.
Variable served : nat -> nat -> Completion Response.
Variable draws : nat -> nat -> Random.

(** What an iteration does to the page number, and how much it sends. *)
Lemma TrustPilot_iteration_cases n c st c' st' sent :
  TrustPilot_iteration extract startDate endDate productUrl served draws
    n c st = Normal (c', st', sent) ->
  hasMorePages st = true ->
  ((hasMorePages st' = true /\ page st' = page st + 1)
   \/ (hasMorePages st' = false /\ page st' = page st))
  /\ (requestsIn sent <= 3)%nat
  /\ courtesySleepsIn sent = requestsIn sent.
Proof.
  unfold TrustPilot_iteration. intros E Hh.
  destruct (safeRequest (TrustPilot_pageUrl productUrl (page st)) 3
              (served n) (draws n) c) as [[[response c1] trace]|e] eqn:R;
    cbn [bind] in E; [|discriminate].
  destruct (httpIteration startDate endDate (option_map extract response) st)
    as [st1|e] eqn:It; cbn [bind] in E; [|discriminate].
  injection E as <- <- <-.
  split.
  - apply (http_iteration_cases startDate endDate (fun _ => unreachablePage)
             (fun _ => option_map extract response) n st st1 It Hh).
  - unfold safeRequest in R. apply safeRequestFrom_counts in R.
    rewrite length_seq in R. exact R.
Qed.

Lemma TrustPilot_fetchLoop_budget fuel :
  forall n c st trace c' st' trace',
    page st = (if hasMorePages st then 1 + Z.of_nat n else Z.of_nat n) ->
    Z.of_nat n <= maxPages ->
    (requestsIn trace <= 3 * n)%nat ->
    courtesySleepsIn trace = requestsIn trace ->
    TrustPilot_fetchLoop extract startDate endDate maxPages productUrl
      served draws fuel n c st trace = Some (Normal (c', st', trace')) ->
    (requestsIn trace' <= 3 * Z.to_nat maxPages)%nat
    /\ courtesySleepsIn trace' = requestsIn trace'.
Proof.
  induction fuel as [|fuel IH];
    intros n c st trace c' st' trace' Hp Hn Hr Hc;
    cbn [TrustPilot_fetchLoop];
    destruct (loopGuard TrustPilot maxPages st) eqn:G;
    try discriminate;
    try (intros E; injection E as <- <- <-; split; [lia | exact Hc]).
  destruct (TrustPilot_iteration extract startDate endDate productUrl
              served draws n c st) as [[[c1 st1] sent]|e] eqn:It;
    [|discriminate].
  apply loopGuard_inv in G. destruct G as (Gh & Gp & _).
  rewrite Gh in Hp.
  destruct (TrustPilot_iteration_cases n c st c1 st1 sent It Gh)
    as (Cases & R3 & C3).
  apply IH.
  - destruct Cases as [[-> ->]|[-> ->]]; lia.
  - destruct Gp as [Gp|Gp]; lia.
  - rewrite requestsIn_app. lia.
  - rewrite requestsIn_app, courtesySleepsIn_app. lia.
Qed.

(** An iteration of the TrustPilot loop does not throw: [safeRequest]
    returns whatever the server does, and the rest reads no page. *)
Lemma TrustPilot_iteration_normal n c st :
  exists c' st' sent,
    TrustPilot_iteration extract startDate endDate productUrl served draws
      n c st = Normal (c', st', sent).
Proof.
  unfold TrustPilot_iteration.
  destruct (safeRequest_total (TrustPilot_pageUrl productUrl (page st)) 3
              (served n) (draws n) c) as (r & c1 & trace & E & _).
  rewrite E. cbn [bind]. unfold httpIteration.
  destruct (option_map extract r) as [[|element elements]|];
    try (eexists _, _, _; reflexivity).
  destruct (processPage startDate endDate st (element :: elements))
    as [st1 stop].
  destruct stop; eexists _, _, _; reflexivity.
Qed.

(** With a page limit, the loop is over once the iterations left under the
    limit are done. *)
Lemma TrustPilot_fetchLoop_returns fuel :
  forall n c st trace,
    page st = (if hasMorePages st then 1 + Z.of_nat n else Z.of_nat n) ->
    0 <= maxPages ->
    (Z.to_nat maxPages - n <= fuel)%nat ->
    exists c' st' trace',
      TrustPilot_fetchLoop extract startDate endDate maxPages productUrl
        served draws fuel n c st trace = Some (Normal (c', st', trace')).
Proof.
  induction fuel as [|fuel IH]; intros n c st trace Hp HM Hf;
    cbn [TrustPilot_fetchLoop];
    destruct (loopGuard TrustPilot maxPages st) eqn:G;
    try (eexists _, _, _; reflexivity).
  - apply loopGuard_inv in G. destruct G as (Gh & Gp & _).
    rewrite Gh in Hp. destruct Gp as [Gp|Gp]; lia.
  - destruct (TrustPilot_iteration_normal n c st) as (c1 & st1 & sent & It).
    rewrite It.
    apply loopGuard_inv in G. destruct G as (Gh & Gp & _).
    rewrite Gh in Hp.
    destruct (TrustPilot_iteration_cases n c st c1 st1 sent It Gh)
      as (Cases & _).
    apply IH.
    + destruct Cases as [[-> ->]|[-> ->]]; lia.
    + exact HM.
    + lia.
Qed.

(** X25.  With a page limit [maxPages >= 0], the TrustPilot loop comes to
    its end within [maxPages] iterations -- it returns, no iteration throws
    -- and has then sent at most [3 * maxPages] requests in all -- three
    attempts for each page at most -- each after a courtesy sleep. *)
Theorem TrustPilot_request_budget (fuel : nat) (c : Client) :
  0 <= maxPages ->
  (Z.to_nat maxPages <= fuel)%nat ->
  exists c' st' trace,
    TrustPilot_fetchLoop extract startDate endDate maxPages productUrl
      served draws fuel 0 c initialLoop [] = Some (Normal (c', st', trace))
    /\ (requestsIn trace <= 3 * Z.to_nat maxPages)%nat
    /\ courtesySleepsIn trace = requestsIn trace.
Proof.
  intros HM Hf.
  destruct (TrustPilot_fetchLoop_returns fuel 0%nat c initialLoop []
              eq_refl HM ltac:(lia)) as (c' & st' & trace & E).
  exists c', st', trace. split; [exact E|].
  apply (TrustPilot_fetchLoop_budget fuel 0%nat c initialLoop [] c' st'
           trace);
    [reflexivity | cbn; lia | cbn; lia | reflexivity | exact E].
Qed.

Lemma safeRequest_not_found_first url answers randoms (c : Client) error :
  answers 0%nat = Throw error -> statusIs error 404 = true ->
  safeRequest url 3 answers randoms c =
  Normal (None, c, [Slept (Jittered (delay c)); Requested url (userAgent c)]).
Proof.
  intros A E. unfold safeRequest. cbn [seq safeRequestFrom].
  rewrite (attemptOnce_404 3 answers randoms 0 c error A E).
  reflexivity.
Qed.

(** X26.  On a listing whose every first request is rejected with status
    404, the TrustPilot loop sends exactly three requests -- for the
    product URL, then the same URL with [?page=2], then with [?page=3] --
    none of them retried, and ends with no reviews. *)
Theorem TrustPilot_listing_not_found (fuel : nat) (c : Client) :
  (forall n, exists error,
      served n 0%nat = Throw error /\ statusIs error 404 = true) ->
  maxPages = -1 \/ 3 <= maxPages ->
  (3 <= fuel)%nat ->
  TrustPilot_fetchLoop extract startDate endDate maxPages productUrl
    served draws fuel 0 c initialLoop [] =
  Some (Normal
          (c,
           {| reviews := []; page := 4; hasMorePages := true;
              consecutiveEmptyPages := 3 |},
           [ Slept (Jittered (delay c));
             Requested productUrl (userAgent c);
             Slept (Jittered (delay c));
             Requested (productUrl ++ "?page=2")%string (userAgent c);
             Slept (Jittered (delay c));
             Requested (productUrl ++ "?page=3")%string (userAgent c) ])).
Proof.
  intros NotFound HM Hf.
  assert (It : forall n st,
            TrustPilot_iteration extract startDate endDate productUrl
              served draws n c st =
            Normal (c, nextPage (countEmpty st),
                    [Slept (Jittered (delay c));
                     Requested (TrustPilot_pageUrl productUrl (page st))
                       (userAgent c)])).
  { intros n st. destruct (NotFound n) as (error & A & E).
    unfold TrustPilot_iteration.
    rewrite (safeRequest_not_found_first _ (served n) (draws n) c error A E).
    reflexivity. }
  assert (G : forall p k, 1 <= p <= 3 -> 0 <= k < 3 ->
            loopGuard TrustPilot maxPages
              {| reviews := []; page := p; hasMorePages := true;
                 consecutiveEmptyPages := k |} = true).
  { intros p k Hp Hk. apply loopGuard_true; cbn; auto; lia. }
  assert (Next : forall p k,
            nextPage (countEmpty
                        {| reviews := []; page := p; hasMorePages := true;
                           consecutiveEmptyPages := k |}) =
            {| reviews := []; page := p + 1; hasMorePages := true;
               consecutiveEmptyPages := k + 1 |}) by reflexivity.
  destruct fuel as [|[|[|fuel]]]; try lia.
  cbn [TrustPilot_fetchLoop].
  unfold initialLoop. rewrite (G 1 0), It, Next by lia.
  change (1 + 1) with 2. change (0 + 1) with 1.
  rewrite (G 2 1), It, Next by lia.
  change (2 + 1) with 3. change (1 + 1) with 2.
  rewrite (G 3 2), It, Next by lia.
  change (3 + 1) with 4. change (2 + 1) with 3.
  cbn [page app].
  assert (Stop : loopGuard TrustPilot maxPages
                   {| reviews := []; page := 4; hasMorePages := true;
                      consecutiveEmptyPages := 3 |} = false).
  { unfold loopGuard. cbn. apply andb_false_r. }
  destruct fuel; cbn [TrustPilot_fetchLoop]; rewrite Stop; reflexivity.
Qed.

End TrustPilotRequests.

Lemma TrustPilot_request_budget_witness :
  exists c' st' trace,
    @TrustPilot_fetchLoop demoMoment noElements demoStart demoEnd 2
      "https://www.trustpilot.com/review/acme.com"
      (fun _ _ => rejected 404) (fun _ _ => randomZero) 5 0
      (newClient 2500) initialLoop [] = Some (Normal (c', st', trace))
    /\ (requestsIn trace <= 3 * Z.to_nat 2)%nat
    /\ courtesySleepsIn trace = requestsIn trace.
Proof.
  apply (@TrustPilot_request_budget demoMoment noElements demoStart demoEnd
           2 "https://www.trustpilot.com/review/acme.com"
           (fun _ _ => rejected 404) (fun _ _ => randomZero) 5%nat
           (newClient 2500)).
  - lia.
  - cbn. lia.
Defined.

Lemma TrustPilot_listing_not_found_witness :
  @TrustPilot_fetchLoop demoMoment noElements demoStart demoEnd 10
    "https://www.trustpilot.com/review/acme.com"
    (fun _ _ => rejected 404) (fun _ _ => randomZero) 5 0
    (newClient 2500) initialLoop [] =
  Some (Normal
          (newClient 2500,
           {| reviews := []; page := 4; hasMorePages := true;
              consecutiveEmptyPages := 3 |},
           [ Slept (Jittered (delay (newClient 2500)));
             Requested "https://www.trustpilot.com/review/acme.com"
               (userAgent (newClient 2500));
             Slept (Jittered (delay (newClient 2500)));
             Requested ("https://www.trustpilot.com/review/acme.com"
                        ++ "?page=2")%string
               (userAgent (newClient 2500));
             Slept (Jittered (delay (newClient 2500)));
             Requested ("https://www.trustpilot.com/review/acme.com"
                        ++ "?page=3")%string
               (userAgent (newClient 2500)) ])).
Proof.
  apply (@TrustPilot_listing_not_found demoMoment noElements demoStart
           demoEnd 10 "https://www.trustpilot.com/review/acme.com"
           (fun _ _ => rejected 404) (fun _ _ => randomZero) 5%nat
           (newClient 2500)).
  - intros n.
    exists {| message := "Request failed";
              response := Some {| status := 404; data := Some "" |} |}.
    split; reflexivity.
  - right. lia.
  - lia.
Defined.

(** The sources of the demonstration run, kept apart. *)
Lemma scrapeSources_keeps_sources_apart_witness :
  resultOf (demoRun G2 demoStart demoEnd) =
  {| success := false; count := 0;
     error := Some "Could not connect to Chrome" |}.
Proof.
  apply (proj2 (proj2 (scrapeSources_keeps_sources_apart
                         (fun source => demoRun source demoStart demoEnd)
                         [G2; Capterra; TrustPilot]))
           G2 (plainError "Could not connect to Chrome")).
  reflexivity.
Defined.

(** A run in which every source returns nothing: the document is written,
    with three entries and no reviews, and the process exits with
    status 1. *)
Example main_writes_empty_document :
  @main demoMoment demoSort demoOptions 1762041600000
    (fun _ _ _ => Normal []) (Normal tt) =
  (Exit1,
   Some {| total_reviews := 0;
           scraping_results :=
             [ (G2, {| success := true; count := 0; error := None |});
               (Capterra, {| success := true; count := 0; error := None |});
               (TrustPilot, {| success := true; count := 0;
                               error := None |}) ];
           reportReviews := [] |}).
Proof. reflexivity. Qed.
